(** * NGS shapefile ingestion pipeline: a shallow embedding

    The development follows the Python scripts under [Downloads/]:

    - [ngs_sf_archives_direct_downloader_with_dbf_extract_v1_5.py]
      (content validation of a download, the "already there" guard);
    - [ngs_sf_archives_curl_downloader_with_dbf_extract_v1_8.py]
      (the curl based download and its guard);
    - [ngs_sf_archives_curl_downloader_dbf_to_csv_filtered_v2_2.py] and
      [..._v2_4.py] (DBF header and record decoding, value cleaning and
      projection onto the canonical field list).

    Data is modelled as the scripts have it: [bytes] objects are lists of
    [byte], Python [str] objects are lists of Unicode code points, dictionaries
    are finite maps, exceptions are the [Raise] branch of a result type, a file
    object is its contents together with a read position, the file system and
    the network are a state passed along.  Each script has its module
    ([V1_5], [V1_8], [V2_2], [V2_4]); what Python itself provides and the
    scripts only call ([float], [str.lower], [zipfile.is_zipfile], the server,
    curl) is a section variable. *)

From Stdlib Require Import ZArith NArith List Strings.Byte Ascii String Lia.
From stdpp Require Import base list gmap strings.
Import ListNotations.

Open Scope N_scope.

(** ** Python values used by the scripts *)

(** A [bytes] object. *)
Abbreviation bytes := (list byte).

(** A [str] object: a sequence of Unicode code points. *)
Abbreviation char := N.
Abbreviation str := (list N).

(** Literals: the code points of an ASCII string, and its bytes. *)
Definition U (s : string) : str := map N_of_ascii (list_ascii_of_string s).
Definition B (s : string) : bytes := list_byte_of_string s.

(** Exceptions the scripts can raise, by class. *)
Inductive exn :=
| ValueError (msg : string)
| RuntimeError (msg : string)
| IndexError
| StructError
| RequestException.

(** Outcome of a call that may raise. *)
Inductive result (A : Type) :=
| Ok (a : A)
| Raise (e : exn).
Arguments Ok {A} a.
Arguments Raise {A} e.

Definition bind {A B} (r : result A) (k : A -> result B) : result B :=
  match r with
  | Ok a => k a
  | Raise e => Raise e
  end.

(** [try: body / except Exception: handler]. *)
Definition try_except {A} (body : result A) (handler : exn -> result A) : result A :=
  match body with
  | Ok a => Ok a
  | Raise e => handler e
  end.

Notation "'let*' x := c1 'in' c2" := (bind c1 (fun x => c2))
  (at level 10, x pattern, c1 at level 100, c2 at level 200).

(** ** Sequence helpers shared by [bytes] and [str] *)

Section Seq.
Context {A : Type} (eqb : A -> A -> bool).

Fixpoint seq_eqb (l1 l2 : list A) : bool :=
  match l1, l2 with
  | [], [] => true
  | x :: r1, y :: r2 => eqb x y && seq_eqb r1 r2
  | _, _ => false
  end.

(** [l.startswith(p)] *)
Fixpoint startswith (p l : list A) : bool :=
  match p, l with
  | [], _ => true
  | x :: p', y :: l' => eqb x y && startswith p' l'
  | _ :: _, [] => false
  end.

(** [p in l] for sequences: [p] occurs as a contiguous run of [l]. *)
Fixpoint contains (p l : list A) : bool :=
  startswith p l ||
  match l with
  | [] => false
  | _ :: l' => contains p l'
  end.

(** [l.split(sep, 1)[0]] for a one-element separator: the part of [l]
    before the first [sep], all of [l] when there is none. *)
Fixpoint split1_head (sep : A) (l : list A) : list A :=
  match l with
  | [] => []
  | x :: r => if eqb x sep then [] else x :: split1_head sep r
  end.

(** [l.replace(c, empty)] for a one-element [c]. *)
Fixpoint remove_all (c : A) (l : list A) : list A :=
  match l with
  | [] => []
  | x :: r => if eqb x c then remove_all c r else x :: remove_all c r
  end.
End Seq.

(** [l[i:j]] for non-negative [i], [j]. *)
Definition slice {A} (i j : nat) (l : list A) : list A := take (j - i) (drop i l).

Fixpoint lstrip_by {A} (sp : A -> bool) (l : list A) : list A :=
  match l with
  | [] => []
  | x :: r => if sp x then lstrip_by sp r else l
  end.

Definition rstrip_by {A} (sp : A -> bool) (l : list A) : list A :=
  rev (lstrip_by sp (rev l)).

Definition strip_by {A} (sp : A -> bool) (l : list A) : list A :=
  rstrip_by sp (lstrip_by sp l).

(** ** [bytes] methods *)

(** ASCII whitespace, the set [bytes.lstrip()] removes. *)
Definition bytes_isspace (c : byte) : bool :=
  let n := Byte.to_N c in (n =? 32) || ((9 <=? n) && (n <=? 13)).

Definition bytes_lstrip (l : bytes) : bytes := lstrip_by bytes_isspace l.

Definition byte_lower (c : byte) : byte :=
  let n := Byte.to_N c in
  if (65 <=? n) && (n <=? 90)
  then match Byte.of_N (n + 32) with Some c' => c' | None => c end
  else c.

Definition bytes_lower (l : bytes) : bytes := map byte_lower l.

Definition bytes_startswith : bytes -> bytes -> bool := startswith Byte.eqb.
Definition bytes_contains : bytes -> bytes -> bool := contains Byte.eqb.

(** ** [str] methods *)

(** [str.isspace()] for one character: the Unicode white space of CPython
    ([_PyUnicode_IsWhitespace]); it is also what [str.strip()] removes and
    what [\s] matches in a [str] pattern. *)
Definition isspace (c : char) : bool :=
  ((9 <=? c) && (c <=? 13)) || ((28 <=? c) && (c <=? 32)) ||
  (c =? 133) || (c =? 160) || (c =? 5760) ||
  ((8192 <=? c) && (c <=? 8202)) ||
  (c =? 8232) || (c =? 8233) || (c =? 8239) || (c =? 8287) || (c =? 12288).

Definition lstrip : str -> str := lstrip_by isspace.
Definition rstrip : str -> str := rstrip_by isspace.
Definition strip : str -> str := strip_by isspace.

Definition str_eqb : str -> str -> bool := seq_eqb N.eqb.

(** The double quote character. *)
Definition dquote : char := 34.
(** The space character. *)
Definition space : char := 32.

(** [re.compile(r"\s+").sub(" ", s)]: every maximal run of white space
    becomes one space. [in_run] tells whether the previous character was
    white space. *)
Fixpoint ws_sub (in_run : bool) (s : str) : str :=
  match s with
  | [] => []
  | c :: r =>
      if isspace c
      then (if in_run then ws_sub true r else space :: ws_sub true r)
      else c :: ws_sub false r
  end.

Definition _WS_RE_sub (s : str) : str := ws_sub false s.

(** [bytes.decode("latin-1", ...)]: every byte is the code point of the same
    number, so no error policy is ever consulted. *)
Definition decode_latin1 (raw : bytes) : str := map Byte.to_N raw.

(** [bytes.decode("ascii", errors="ignore")]: bytes of 128 and above are
    dropped. *)
Definition decode_ascii_ignore (raw : bytes) : str :=
  List.filter (fun c => c <? 128) (map Byte.to_N raw).


(** ** Files opened for reading *)

(** A binary file object: its contents and the read position. *)
Record file := mkfile { contents : bytes; pos : nat }.

(** [open(path, "rb")] *)
Definition open_rb (data : bytes) : file := mkfile data 0.

(** [f.read(n)]: at most [n] bytes from the read position, which advances by
    the number of bytes returned. *)
Definition read (n : nat) (f : file) : bytes * file :=
  let chunk := take n (drop (pos f) (contents f)) in
  (chunk, mkfile (contents f) (pos f + length chunk)).

(** [f.seek(p)]: the position is set, also past the end of the file. *)
Definition seek (p : nat) (f : file) : file := mkfile (contents f) p.

(** [l[i]] on a [bytes] object: an integer, or [IndexError]. *)
Definition index (i : nat) (l : bytes) : result N :=
  match l !! i with
  | Some c => Ok (Byte.to_N c)
  | None => Raise IndexError
  end.

(** Little-endian unsigned value of a byte string. *)
Fixpoint le_uint (l : bytes) : N :=
  match l with
  | [] => 0
  | c :: r => Byte.to_N c + 256 * le_uint r
  end.

(** [struct.unpack("<I", l)[0]] for [width = 4], [struct.unpack("<H", l)[0]]
    for [width = 2]: the buffer must have exactly [width] bytes. *)
Definition struct_unpack_le (width : nat) (l : bytes) : result N :=
  if (length l =? width)%nat then Ok (le_uint l) else Raise StructError.

Definition is_empty {A} (l : list A) : bool :=
  match l with [] => true | _ => false end.

(** A field descriptor as the scripts keep it:
    [(name, ftype, flen, fdec)]. *)
Definition field : Type := str * str * N * N.

Definition field_name (fd : field) : str := let '(n, _, _, _) := fd in n.

(** [desc[0:11].split(b"\x00", 1)[0].decode("ascii", errors="ignore").strip()] *)
Definition descriptor_name (desc : bytes) : str :=
  strip (decode_ascii_ignore (split1_head Byte.eqb x00 (slice 0 11 desc))).

(** [chr(n)] *)
Definition chr (n : N) : str := [n].

(** What the scripts write a CSV file with: the header row and the rows
    handed to [writer.writerow], in order.  [Skipped] is the early return
    taken when the output is already there. *)
Inductive csv_out (R : Type) :=
| Skipped
| Written (fieldnames : list str) (rows : list R).
Arguments Skipped {R}.
Arguments Written {R} fieldnames rows.

(** [os.path.exists(p) and os.path.getsize(p) > 0], for the contents found
    at [p], if any. *)
Definition exists_nonempty (at_path : option bytes) : bool :=
  match at_path with
  | Some (_ :: _) => true
  | _ => false
  end.

(** ** Typed field values (v2.2) *)

Definition is_ascii_digit (c : char) : bool := (48 <=? c) && (c <=? 57).

(** The digits of an [int] literal: decimal digits, single underscores allowed
    between two digits. *)
Fixpoint int_digits (acc : Z) (after_digit : bool) (s : str) : result Z :=
  match s with
  | [] => if after_digit then Ok acc else Raise (ValueError "invalid literal for int()")
  | c :: r =>
      if is_ascii_digit c then int_digits (acc * 10 + Z.of_N (c - 48)) true r
      else if (c =? 95) && after_digit then int_digits acc false r
      else Raise (ValueError "invalid literal for int()")
  end.

(** [int(s)] for text that carries no surrounding white space and only
    Latin-1 characters, which is what both call sites pass: an optional sign,
    then the digits. *)
Definition py_int (s : str) : result Z :=
  match s with
  | c :: r =>
      if c =? 43 then int_digits 0 false r
      else if c =? 45 then let* n := int_digits 0 false r in Ok (- n)%Z
      else int_digits 0 false s
  | [] => int_digits 0 false s
  end.

(** [c.isdigit()] on a Latin-1 character: the ASCII digits and the
    superscripts two, three and one. *)
Definition isdigit_char (c : char) : bool :=
  is_ascii_digit c || (c =? 178) || (c =? 179) || (c =? 185).

(** [s.isdigit()] *)
Definition isdigit (s : str) : bool :=
  negb (is_empty s) && forallb isdigit_char s.

(** [c.upper()] on a Latin-1 character; the result can leave Latin-1 and
    can have two characters. *)
Definition upper_char (c : char) : str :=
  if (97 <=? c) && (c <=? 122) then [c - 32]
  else if (224 <=? c) && (c <=? 254) && negb (c =? 247) then [c - 32]
  else if c =? 181 then [924]
  else if c =? 223 then [83; 83]
  else if c =? 255 then [376]
  else [c].

Definition upper (s : str) : str := flat_map upper_char s.

(** [datetime.date(y, m, d)] *)
Definition is_leap (y : Z) : bool :=
  ((y mod 4 =? 0) && (negb (y mod 100 =? 0) || (y mod 400 =? 0)))%Z.

Definition days_in_month (y m : Z) : Z :=
  (if m =? 2 then (if is_leap y then 29 else 28)
   else if (m =? 4) || (m =? 6) || (m =? 9) || (m =? 11) then 30
   else 31)%Z.

Record pydate := mkdate { year : Z; month : Z; day : Z }.

Definition in_calendar (y m d : Z) : bool :=
  ((1 <=? y) && (y <=? 9999) && (1 <=? m) && (m <=? 12) &&
   (1 <=? d) && (d <=? days_in_month y m))%Z.

Definition date (y m d : Z) : result pydate :=
  if in_calendar y m d then Ok (mkdate y m d)
  else Raise (ValueError "date value out of range").

Definition digit_char (n : Z) : char := 48 + Z.to_N (n mod 10).

(** [d.isoformat()]: year on four digits, month and day on two. *)
Definition isoformat (d : pydate) : str :=
  [digit_char (year d / 1000); digit_char (year d / 100);
   digit_char (year d / 10); digit_char (year d); 45;
   digit_char (month d / 10); digit_char (month d); 45;
   digit_char (day d / 10); digit_char (day d)].

(** The objects [_parse_dbf_value] returns.  A float is kept as the text it
    was read from. *)
Inductive value :=
| VStr (s : str)
| VInt (z : Z)
| VFloat (literal : str)
| VBool (v : bool).


(** ** Cleaning and projection onto the canonical field list *)

(** Fields kept in the processed CSV, in this order (the same list in v2.2
    and v2.4). *)
Definition RELEVANT_FIELDS : list str :=
  map U ["data_date"; "data_srce"; "pid"; "name"; "dec_lat"; "dec_lon"; "state";
         "county"; "marker"; "setting"; "last_recv"; "last_cond"; "last_recby";
         "ortho_ht"]%string.

(** A row as [csv.DictReader] yields it: a dictionary from header names to
    cell texts, [None] standing for a cell that is missing from a short
    line. *)
Abbreviation reader_row := (gmap str (option str)).

(** [row.get(h, empty)] for the empty text as default. *)
Definition row_get (row : reader_row) (h : str) : option str :=
  match row !! h with
  | Some v => v
  | None => Some []
  end.

(** [not x] for [x] a [str] or [None]. *)
Definition falsy (x : option str) : bool :=
  match x with
  | None | Some [] => true
  | Some (_ :: _) => false
  end.

(** [re.sub] of the pattern [[^0-9]] by the empty text. *)
Definition keep_digits (s : str) : str := List.filter is_ascii_digit s.


(** ** Fetching an archive *)

(** What the download scripts see and change outside themselves: the files,
    by path, and the requests sent over the network so far, by URL. *)
Record world := mkworld { fs : gmap string bytes; requests : list string }.

Definition OUT_DIR : string := "ngs_sf_archive_downloads".

(** [os.path.join(OUT_DIR, f"{code}.ZIP")] *)
Definition zip_path_of (code : string) : string := OUT_DIR +:+ "/" +:+ code +:+ ".ZIP".

(** [out_path + ".part"] *)
Definition part_of (out_path : string) : string := out_path +:+ ".part".

Definition write_file (path : string) (data : bytes) (w : world) : world :=
  mkworld (<[path := data]> (fs w)) (requests w).

(** [os.remove(path)] under [if os.path.exists(path)]. *)
Definition remove_file (path : string) (w : world) : world :=
  mkworld (delete path (fs w)) (requests w).

(** [os.replace(src, dst)] for an existing [src]. *)
Definition replace_file (src dst : string) (data : bytes) (w : world) : world :=
  mkworld (<[dst := data]> (delete src (fs w))) (requests w).

Definition log_request (url : string) (w : world) : world :=
  mkworld (fs w) (requests w ++ [url]).

(** How one step of the main loop ends for one state code. *)
Inductive fetched :=
| AlreadyThere
| Downloaded (url : string).


(** ** Archives and paths *)

Definition DBF_DIR : string := OUT_DIR +:+ "/dbfs".

(** [s.endswith(suffix)] *)
Definition string_endswith (suffix s : string) : bool :=
  startswith Ascii.eqb (rev (list_ascii_of_string suffix)) (rev (list_ascii_of_string s)).

(** [not s] for a [str]. *)
Definition string_is_empty (s : string) : bool :=
  match s with
  | EmptyString => true
  | String _ _ => false
  end.

(** The part of [p] after its last slash, [cur] when it has none. *)
Fixpoint after_last_slash (cur p : string) : string :=
  match p with
  | EmptyString => cur
  | String c r => if Ascii.eqb c "/" then after_last_slash r r else after_last_slash cur r
  end.

(** [os.path.basename(p)] of [posixpath]. *)
Definition basename (p : string) : string := after_last_slash p p.

(** [os.path.join(a, b)] of [posixpath]. *)
Definition path_join (a b : string) : string :=
  if String.prefix "/" b then b
  else if string_is_empty a || string_endswith "/" a then a +:+ b
  else a +:+ "/" +:+ b.

(** What [z.open(member)] and [src.read()] do for one entry of an archive:
    the first raises, the second raises, or the contents are read. *)
Inductive member_read :=
| OpenFails
| ReadFails
| Content (data : bytes).

(** An open [zipfile.ZipFile]: the entries of its directory, in order, by
    name. *)
Abbreviation archive := (list (string * member_read)).

(** [z.namelist()] *)
Definition namelist (z : archive) : list string := map fst z.

(** [z.open(member)] followed by [src.read()]: where the directory has
    several entries of one name, the name stands for the last of them. *)
Definition zip_read (z : archive) (member : string) : member_read :=
  match List.find (fun entry => String.eqb (fst entry) member) (rev z) with
  | Some entry => snd entry
  | None => OpenFails
  end.

(** The exceptions of an extraction: the archive file is not there, it is
    not a ZIP file, a member cannot be opened, a member cannot be read. *)
Inductive zip_exn :=
| FileNotFoundError
| BadZipFile
| MemberOpenError
| MemberReadError.

Inductive outcome (A : Type) :=
| Returns (a : A)
| Raises (e : zip_exn).
Arguments Returns {A} a.
Arguments Raises {A} e.

(** [zipfile.ZipFile(zip_path, "r")], given what the library makes of the
    contents of a file: an archive, or nothing for [BadZipFile]. *)
Definition open_zip (ZipFile : bytes -> option archive) (zip_path : string) (w : world)
  : outcome archive :=
  match fs w !! zip_path with
  | None => Raises FileNotFoundError
  | Some data =>
      match ZipFile data with
      | None => Raises BadZipFile
      | Some z => Returns z
      end
  end.

(** [with z.open(member) as src, open(out_path, "wb") as dst:
    dst.write(src.read())]: the output file is created, empty, before the
    member is read. *)
Definition copy_member (z : archive) (member out_path : string) (w : world)
  : world * outcome unit :=
  match zip_read z member with
  | OpenFails => (w, Raises MemberOpenError)
  | ReadFails => (write_file out_path [] w, Raises MemberReadError)
  | Content data => (write_file out_path data w, Returns tt)
  end.

(** The keys of [STATE_CODES], in the order of the dictionary (the same in
    the four scripts). *)
Definition STATE_CODES : list string :=
  ["AL"; "AK"; "AZ"; "AR"; "CA"; "CO"; "CT"; "DE"; "DC"; "FL"; "GA"; "HI";
   "ID"; "IL"; "IN"; "IA"; "KS"; "KY"; "LA"; "ME"; "MD"; "MA"; "MI"; "MN";
   "MS"; "MO"; "MT"; "NE"; "NV"; "NH"; "NJ"; "NM"; "NY"; "NC"; "ND"; "OH";
   "OK"; "OR"; "PA"; "RI"; "SC"; "SD"; "TN"; "TX"; "UT"; "VT"; "VA"; "WA";
   "WV"; "WI"; "WY"]%string.

(** ** The direct downloader, v1.5 *)

Module V1_5.

(** *** Content validation *)

(** [b.startswith(b"PK")] *)
Definition _is_zip_magic (buf : bytes) : bool := bytes_startswith (B "PK") buf.

(** Width of the window searched for a markup opener. *)
Definition html_window : nat := 300.

Definition _looks_like_html (buf : bytes) : bool :=
  let head := bytes_lower (bytes_lstrip buf) in
  bytes_startswith (B "<") head &&
  (bytes_contains (B "<html") (take html_window head)
   || bytes_contains (B "<!doctype") (take html_window head)
   || bytes_contains (B "<?xml") (take html_window head)).

(** The three ways [_download_zip_validated] treats the first chunk of a
    body: accepted, rejected as "HTML received instead of ZIP", rejected
    as "Non-ZIP content received". *)
Inductive classification := Valid | LooksLikeErrorDocument | Unrecognized.

Definition classify (first_chunk : bytes) : classification :=
  if negb (_is_zip_magic first_chunk) then
    if _looks_like_html first_chunk then LooksLikeErrorDocument
    else Unrecognized
  else Valid.

(** *** Download with fallback URLs *)

Definition BASE_DIR_URLS : list string :=
  ["https://www.ngs.noaa.gov/pub/DS_ARCHIVE/ShapeFiles/";
   "https://geodesy.noaa.gov/pub/DS_ARCHIVE/ShapeFiles/";
   "https://nweb.ngs.noaa.gov/pub/DS_ARCHIVE/ShapeFiles/"]%string.

(** What [session.get(url, stream=True, ...)] and the iteration over the body
    can do: fail to connect, or answer with a status, a [Content-Length]
    header that [int] accepts or not, the chunks of the body, and possibly a
    failure of the stream after them. *)
Inductive http_response :=
| ConnectionFailed
| Response (status : N) (content_length_ok : bool) (chunks : list bytes)
    (stream_breaks : bool).

Section Network.
(** The answer to a request, given how many requests were sent before. *)
Variable server : nat -> string -> http_response.

(** The first non-empty chunk, cut to 1024 bytes. *)
Definition first_chunk_of (chunks : list bytes) : option bytes :=
  match List.filter (fun c => negb (is_empty c)) chunks with
  | c :: _ => Some (take 1024 c)
  | [] => None
  end.

Definition _download_zip_validated (url out_path : string) (w : world)
  : world * result unit :=
  let tmp_path := part_of out_path in
  let sent_before := length (requests w) in
  let w := log_request url w in
  match server sent_before url with
  | ConnectionFailed => (w, Raise RequestException)
  | Response status content_length_ok chunks stream_breaks =>
      if 400 <=? status then (w, Raise (RuntimeError "HTTP error status"))
      else if negb content_length_ok then
        (w, Raise (ValueError "invalid literal for int()"))
      else
        let w := write_file tmp_path (concat chunks) w in
        if stream_breaks then (w, Raise RequestException)
        else
          match first_chunk_of chunks with
          | None => (w, Raise (RuntimeError "Empty response body"))
          | Some first_chunk =>
              if negb (_is_zip_magic first_chunk) then
                if _looks_like_html first_chunk then
                  (w, Raise (RuntimeError "HTML received instead of ZIP"))
                else
                  (w, Raise (RuntimeError "Non-ZIP content received"))
              else (replace_file tmp_path out_path (concat chunks) w, Ok tt)
          end
  end.

(** The two nested loops of [_try_download], over the URLs in the order they
    are tried. *)
Fixpoint try_urls (urls : list string) (out_path : string) (w : world)
  : world * result string :=
  match urls with
  | [] => (w, Raise (RuntimeError "All URL attempts failed"))
  | url :: rest =>
      match _download_zip_validated url out_path w with
      | (w, Ok _) => (w, Ok url)
      | (w, Raise _) => try_urls rest out_path (remove_file (part_of out_path) w)
      end
  end.

Definition candidate_urls (code : string) : list string :=
  flat_map (fun base => [base +:+ code +:+ ".ZIP"; base +:+ code +:+ ".zip"])
           BASE_DIR_URLS.

Definition _try_download (code out_path : string) (w : world) : world * result string :=
  try_urls (candidate_urls code) out_path w.

(** The download step of [main] for one state code. *)
Definition fetch (code : string) (w : world) : world * result fetched :=
  let zip_path := zip_path_of code in
  if negb (exists_nonempty (fs w !! zip_path)) then
    match _try_download code zip_path w with
    | (w, Ok url) => (w, Ok (Downloaded url))
    | (w, Raise e) => (w, Raise e)
    end
  else (w, Ok AlreadyThere).

End Network.

(** *** Extraction *)

(** Directories are not files of the model: [os.makedirs(dbf_dir,
    exist_ok=True)] leaves the files as they are. *)

Section Archive.
(** [str.lower()] *)
Variable lower : string -> string.
(** What [zipfile.ZipFile] makes of the contents of a file. *)
Variable ZipFile : bytes -> option archive.

(** [m.lower().endswith(".dbf")] *)
Definition is_dbf (member : string) : bool := string_endswith ".dbf" (lower member).

(** The loop over [dbf_members]. *)
Fixpoint extract_members (z : archive) (dbf_dir prefix : string)
    (dbf_members : list string) (w : world) (count : nat) : world * outcome nat :=
  match dbf_members with
  | [] => (w, Returns count)
  | member :: rest =>
      let base := basename member in
      if string_is_empty base then extract_members z dbf_dir prefix rest w count
      else
        let out_name := prefix +:+ "_" +:+ base in
        let out_path := path_join dbf_dir out_name in
        if exists_nonempty (fs w !! out_path) then
          extract_members z dbf_dir prefix rest w (count + 1)
        else
          match copy_member z member out_path w with
          | (w, Returns _) => extract_members z dbf_dir prefix rest w (count + 1)
          | (w, Raises e) => (w, Raises e)
          end
  end.

Definition _extract_dbfs (zip_path dbf_dir prefix : string) (w : world)
  : world * outcome nat :=
  match open_zip ZipFile zip_path w with
  | Raises e => (w, Raises e)
  | Returns z =>
      let dbf_members := List.filter is_dbf (namelist z) in
      extract_members z dbf_dir prefix dbf_members w 0
  end.

End Archive.

(** *** One state *)

(** What [main] prints and the pauses between downloads are left out. *)

Section Main.
Variable server : nat -> string -> http_response.
Variable lower : string -> string.
Variable ZipFile : bytes -> option archive.

(** The body of the loop of [main] for one state code: the download step,
    whose exceptions end the run, then the extraction, whose exceptions are
    caught and reported. *)
Definition main_state (code : string) (w : world)
  : world * result (fetched * outcome nat) :=
  match fetch server code w with
  | (w, Raise e) => (w, Raise e)
  | (w, Ok how) =>
      let '(w, n_dbfs) := _extract_dbfs lower ZipFile (zip_path_of code) DBF_DIR code w in
      (w, Ok (how, n_dbfs))
  end.

(** The loop of [main] over the state codes: what was done for each state,
    in order.  An exception of a download ends the run. *)
Fixpoint main_loop (codes : list string) (w : world)
  : world * result (list (fetched * outcome nat)) :=
  match codes with
  | [] => (w, Ok [])
  | code :: rest =>
      match main_state code w with
      | (w, Raise e) => (w, Raise e)
      | (w, Ok done) =>
          match main_loop rest w with
          | (w, Raise e) => (w, Raise e)
          | (w, Ok dones) => (w, Ok (done :: dones))
          end
      end
  end.

Definition main (w : world) : world * result (list (fetched * outcome nat)) :=
  main_loop STATE_CODES w.

End Main.

End V1_5.

(** ** The curl downloader, v1.8 *)

Module V1_8.

Definition BASE_DIR_URL : string := "https://geodesy.noaa.gov/pub/DS_ARCHIVE/ShapeFiles/".

(** What running [curl -fL ... -o tmp_path url] can do: not start, or exit
    with success or failure, having left some contents at [tmp_path] or
    not. *)
Inductive curl_run :=
| CurlMissing
| CurlExit (success : bool) (written : option bytes).

Section Network.
(** The run of curl on a URL, given how many requests were sent before. *)
Variable curl : nat -> string -> curl_run.
(** [zipfile.is_zipfile] on the contents of a file. *)
Variable is_zipfile : bytes -> bool.

(** [zipfile.is_zipfile(path)]: false when there is no file. *)
Definition is_zipfile_at (path : string) (w : world) : bool :=
  match fs w !! path with
  | Some data => is_zipfile data
  | None => false
  end.

Definition _download_with_curl (url out_path : string) (w : world)
  : world * result unit :=
  let tmp_path := part_of out_path in
  match curl (length (requests w)) url with
  | CurlMissing => (w, Raise (RuntimeError "curl is not installed or not on PATH."))
  | CurlExit success written =>
      let w := log_request url w in
      let w := match written with
               | Some data => write_file tmp_path data w
               | None => w
               end in
      if negb success then (w, Raise (RuntimeError "curl failed"))
      else if negb (is_zipfile_at tmp_path w) then
        (w, Raise (RuntimeError "Downloaded file is not a valid ZIP"))
      else
        match fs w !! tmp_path with
        | Some data => (replace_file tmp_path out_path data w, Ok tt)
        | None => (w, Raise (RuntimeError "No such file"))
        end
  end.

(** The download step of [main] for one state code. *)
Definition fetch (code : string) (w : world) : world * result fetched :=
  let url := BASE_DIR_URL +:+ code +:+ ".zip" in
  let zip_path := zip_path_of code in
  if exists_nonempty (fs w !! zip_path) && is_zipfile_at zip_path w then
    (w, Ok AlreadyThere)
  else
    match _download_with_curl url zip_path w with
    | (w, Ok _) => (w, Ok (Downloaded url))
    | (w, Raise e) => (w, Raise e)
    end.

End Network.

(** *** Extraction *)

Section Archive.
(** [str.lower()] *)
Variable lower : string -> string.
(** What [zipfile.ZipFile] makes of the contents of a file. *)
Variable ZipFile : bytes -> option archive.

(** The loop over [z.namelist()]. *)
Fixpoint extract_members (z : archive) (prefix : string) (members : list string)
    (w : world) (extracted : list string) : world * outcome (list string) :=
  match members with
  | [] => (w, Returns extracted)
  | member :: rest =>
      if negb (string_endswith ".dbf" (lower member)) then
        extract_members z prefix rest w extracted
      else
        let base := basename member in
        if string_is_empty base then extract_members z prefix rest w extracted
        else
          let out_name := prefix +:+ "_" +:+ base in
          let out_path := path_join DBF_DIR out_name in
          if exists_nonempty (fs w !! out_path) then
            extract_members z prefix rest w (extracted ++ [out_path])
          else
            match copy_member z member out_path w with
            | (w, Returns _) => extract_members z prefix rest w (extracted ++ [out_path])
            | (w, Raises e) => (w, Raises e)
            end
  end.

Definition _extract_dbfs (zip_path prefix : string) (w : world)
  : world * outcome (list string) :=
  match open_zip ZipFile zip_path w with
  | Raises e => (w, Raises e)
  | Returns z => extract_members z prefix (namelist z) w []
  end.

End Archive.

(** *** One state *)

(** What [main] prints and the pauses between downloads are left out. *)

Section Main.
Variable curl : nat -> string -> curl_run.
Variable is_zipfile : bytes -> bool.
Variable lower : string -> string.
Variable ZipFile : bytes -> option archive.

(** The body of the loop of [main] for one state code: the download step,
    then the extraction; an exception of either ends the run. *)
Definition main_state (code : string) (w : world)
  : world * result (fetched * outcome (list string)) :=
  match fetch curl is_zipfile code w with
  | (w, Raise e) => (w, Raise e)
  | (w, Ok how) =>
      let '(w, extracted) := _extract_dbfs lower ZipFile (zip_path_of code) code w in
      (w, Ok (how, extracted))
  end.

(** The loop of [main] over the state codes: what was done for each state,
    in order.  An exception of a download ends the run; so does an exception
    of an extraction, which is then the last entry. *)
Fixpoint main_loop (codes : list string) (w : world)
  : world * result (list (fetched * outcome (list string))) :=
  match codes with
  | [] => (w, Ok [])
  | code :: rest =>
      match main_state code w with
      | (w, Raise e) => (w, Raise e)
      | (w, Ok (how, Raises e)) => (w, Ok [(how, Raises e)])
      | (w, Ok (how, Returns extracted)) =>
          match main_loop rest w with
          | (w, Raise e) => (w, Raise e)
          | (w, Ok dones) => (w, Ok ((how, Returns extracted) :: dones))
          end
      end
  end.

Definition main (w : world)
  : world * result (list (fetched * outcome (list string))) :=
  main_loop STATE_CODES w.

End Main.

End V1_8.

(** ** DBF to CSV with cleanup and filtering, v2.2 *)

Module V2_2.

Section Decoder.
(** [float(st)] succeeds. The grammar of float literals is Python's own and
    is left open. *)
Variable float_accepts : str -> bool.

Definition py_float (st : str) : result value :=
  if float_accepts st then Ok (VFloat st)
  else Raise (ValueError "could not convert string to float").

Definition _parse_dbf_header_fuel (f : file) : nat := S (length (contents f)).

(** The [while True] loop over field descriptors; [None] when [fuel] runs
    out. *)
Fixpoint read_descriptors (fuel : nat) (f : file) (fields : list field)
  : option (result (list field * file)) :=
  match fuel with
  | O => None
  | S fuel' =>
      let '(desc, f1) := read 32 f in
      if is_empty desc || (length desc <? 32)%nat then
        Some (Raise (ValueError "Unexpected EOF reading DBF field descriptors."))
      else
        match index 0 desc with
        | Raise e => Some (Raise e)
        | Ok d0 =>
            if d0 =? 13 then Some (Ok (fields, f1))
            else
              let name := descriptor_name desc in
              match
                (let* t := index 11 desc in
                 let* flen := index 16 desc in
                 let* fdec := index 17 desc in
                 Ok (name, chr t, flen, fdec))
              with
              | Raise e => Some (Raise e)
              | Ok fd => read_descriptors fuel' f1 (fields ++ [fd])
              end
        end
  end.

(** Returns [(num_records, record_len, fields)] and the file object, whose
    position the function has moved. *)
Definition _parse_dbf_header_and_fields (f : file)
  : option (result (N * N * list field * file)) :=
  let '(header, f1) := read 32 f in
  if (length header <? 32)%nat then
    Some (Raise (ValueError "File too short to be a DBF."))
  else
    match
      (let* num_records := struct_unpack_le 4 (slice 4 8 header) in
       let* header_len := struct_unpack_le 2 (slice 8 10 header) in
       let* record_len := struct_unpack_le 2 (slice 10 12 header) in
       Ok (num_records, header_len, record_len))
    with
    | Raise e => Some (Raise e)
    | Ok (num_records, header_len, record_len) =>
        match read_descriptors (_parse_dbf_header_fuel f) f1 [] with
        | None => None
        | Some (Raise e) => Some (Raise e)
        | Some (Ok (fields, f2)) =>
            Some (Ok (num_records, record_len, fields, seek (N.to_nat header_len) f2))
        end
    end.

(** The encoding is the default of [dbf_to_csv], latin-1. *)
Definition _parse_dbf_value (raw : bytes) (ftype : str) (dec : N) : result value :=
  let s := decode_latin1 raw in
  if str_eqb ftype (U "C") then Ok (VStr (rstrip s))
  else if str_eqb ftype (U "N") || str_eqb ftype (U "F") then
    let st := strip s in
    if is_empty st then Ok (VStr [])
    else
      try_except
        (if contains N.eqb (U ".") st || (0 <? dec) then py_float st
         else let* n := py_int st in Ok (VInt n))
        (fun _ => Ok (VStr st))
  else if str_eqb ftype (U "L") then
    let ch := upper (take 1 s) in
    if str_eqb ch (U "Y") || str_eqb ch (U "T") then Ok (VBool true)
    else if str_eqb ch (U "N") || str_eqb ch (U "F") then Ok (VBool false)
    else Ok (VStr [])
  else if str_eqb ftype (U "D") then
    let st := strip s in
    if (length st =? 8)%nat && isdigit st then
      try_except
        (let* y := py_int (slice 0 4 st) in
         let* m := py_int (slice 4 6 st) in
         let* d := py_int (slice 6 8 st) in
         let* dt := date y m d in
         Ok (VStr (isoformat dt)))
        (fun _ => Ok (VStr st))
    else Ok (VStr [])
  else Ok (VStr (strip s)).

(** The body of the loop over [fields]: [row[name] = ...; offset += flen]. *)
Fixpoint decode_fields (rec : bytes) (fields : list field) (offset : nat)
    (row : gmap str value) : result (gmap str value) :=
  match fields with
  | [] => Ok row
  | (name, ftype, flen, fdec) :: rest =>
      let raw := slice offset (offset + N.to_nat flen) rec in
      let* v := _parse_dbf_value raw ftype fdec in
      decode_fields rec rest (offset + N.to_nat flen) (<[name := v]> row)
  end.

(** [for _ in range(num_records)]: the rows handed to [writer.writerow], in
    order. [break] ends the loop, [continue] goes to the next round. *)
Fixpoint decode_records (num_records : nat) (record_len : nat)
    (fields : list field) (f : file) : result (list (gmap str value)) :=
  match num_records with
  | O => Ok []
  | S n =>
      let '(rec, f1) := read record_len f in
      if is_empty rec || (length rec <? record_len)%nat then Ok []
      else if seq_eqb Byte.eqb (slice 0 1 rec) (B "*") then
        decode_records n record_len fields f1
      else
        let* row := decode_fields rec fields 1 ∅ in
        let* rows := decode_records n record_len fields f1 in
        Ok (row :: rows)
  end.

(** [csv_before] is what is found at [csv_path] when the function is
    called, [dbf] the contents of the file at [dbf_path]. *)
Definition dbf_to_csv (csv_before : option bytes) (dbf : bytes)
  : option (result (csv_out (gmap str value))) :=
  if exists_nonempty csv_before then Some (Ok Skipped)
  else
    match _parse_dbf_header_and_fields (open_rb dbf) with
    | None => None
    | Some (Raise e) => Some (Raise e)
    | Some (Ok (num_records, record_len, fields, f)) =>
        let field_names := map field_name fields in
        match decode_records (N.to_nat num_records) (N.to_nat record_len) fields f with
        | Raise e => Some (Raise e)
        | Ok rows => Some (Ok (Written field_names rows))
        end
    end.

End Decoder.

(** *** Cleaning and filtering *)

(** [_clean_value(value)] for [value] a [str] or [None]. *)
Definition _clean_value (value : option str) : str :=
  match value with
  | None => []
  | Some s =>
      let s := remove_all N.eqb dquote s in
      let s := strip s in
      _WS_RE_sub s
  end.

Section Projector.
(** [str.lower()] *)
Variable lower : str -> str.

(** [{h.lower(): h for h in reader.fieldnames}] *)
Definition header_map (fieldnames : list str) : gmap str str :=
  foldl (fun m h => <[lower h := h]> m) ∅ fieldnames.

(** The loop over [RELEVANT_FIELDS]: [(out_headers, missing)]. *)
Fixpoint select_headers (hm : gmap str str) (wanted : list str)
    (out_headers missing : list str) : list str * list str :=
  match wanted with
  | [] => (out_headers, missing)
  | want :: rest =>
      let actual := hm !! lower want in
      if negb (falsy actual) then
        select_headers hm rest (out_headers ++ [default [] actual]) missing
      else
        select_headers hm rest out_headers (missing ++ [want])
  end.

(** [{h: _clean_value(row.get(h, empty)) for h in out_headers}] *)
Definition clean_row (out_headers : list str) (row : reader_row) : gmap str str :=
  foldl (fun cleaned h => <[h := _clean_value (row_get row h)]> cleaned) ∅ out_headers.

(** [out_before] is what is found at [output_csv] when the function is
    called; [fieldnames] and [rows] are what the reader over [input_csv]
    gives. *)
Definition clean_and_filter_csv (out_before : option bytes)
    (fieldnames : option (list str)) (rows : list reader_row)
  : result (csv_out (gmap str str)) :=
  if exists_nonempty out_before then Ok Skipped
  else
    match fieldnames with
    | None => Raise (RuntimeError "No headers found")
    | Some fieldnames =>
        let hm := header_map fieldnames in
        let '(out_headers, missing) := select_headers hm RELEVANT_FIELDS [] [] in
        if is_empty out_headers then
          Raise (RuntimeError "None of the configured RELEVANT_FIELDS were found")
        else
          Ok (Written out_headers (map (clean_row out_headers) rows))
    end.

End Projector.

(** *** Extraction *)

Section Archive.
(** [str.lower()] *)
Variable lower : string -> string.
(** What [zipfile.ZipFile] makes of the contents of a file. *)
Variable ZipFile : bytes -> option archive.

Definition _extract_dbf (zip_path state_code : string) (w : world)
  : world * outcome (option string) :=
  let out_path := path_join DBF_DIR (state_code +:+ ".dbf") in
  if exists_nonempty (fs w !! out_path) then (w, Returns (Some out_path))
  else
    match open_zip ZipFile zip_path w with
    | Raises e => (w, Raises e)
    | Returns z =>
        let dbf_members :=
          List.filter (fun m => string_endswith ".dbf" (lower m)) (namelist z) in
        match dbf_members with
        | [] => (w, Returns None)
        | member :: _ =>
            match copy_member z member out_path w with
            | (w, Returns _) => (w, Returns (Some out_path))
            | (w, Raises e) => (w, Raises e)
            end
        end
    end.

End Archive.

End V2_2.

(** ** DBF to CSV with cleanup and filtering, v2.4 *)

Module V2_4.

Definition _parse_dbf_header_fuel (f : file) : nat := S (length (contents f)).

Fixpoint read_descriptors (fuel : nat) (f : file) (fields : list field)
  : option (result (list field * file)) :=
  match fuel with
  | O => None
  | S fuel' =>
      let '(d, f1) := read 32 f in
      match index 0 d with
      | Raise e => Some (Raise e)
      | Ok d0 =>
          if d0 =? 13 then Some (Ok (fields, f1))
          else
            let name := descriptor_name d in
            match
              (let* t := index 11 d in
               let* flen := index 16 d in
               let* fdec := index 17 d in
               Ok (name, chr t, flen, fdec))
            with
            | Raise e => Some (Raise e)
            | Ok fd => read_descriptors fuel' f1 (fields ++ [fd])
            end
      end
  end.

Definition _parse_dbf_header_and_fields (f : file)
  : option (result (N * N * list field * file)) :=
  let '(h, f1) := read 32 f in
  match
    (let* nrec := struct_unpack_le 4 (slice 4 8 h) in
     let* hlen := struct_unpack_le 2 (slice 8 10 h) in
     let* rlen := struct_unpack_le 2 (slice 10 12 h) in
     Ok (nrec, hlen, rlen))
  with
  | Raise e => Some (Raise e)
  | Ok (nrec, hlen, rlen) =>
      match read_descriptors (_parse_dbf_header_fuel f) f1 [] with
      | None => None
      | Some (Raise e) => Some (Raise e)
      | Some (Ok (fields, f2)) =>
          Some (Ok (nrec, rlen, fields, seek (N.to_nat hlen) f2))
      end
  end.

(** [row[n] = rec[off:off+l].decode("latin-1","ignore").strip(); off += l] *)
Fixpoint decode_fields (rec : bytes) (fields : list field) (off : nat)
    (row : gmap str str) : gmap str str :=
  match fields with
  | [] => row
  | (n, t, l, d) :: rest =>
      decode_fields rec rest (off + N.to_nat l)
        (<[n := strip (decode_latin1 (slice off (off + N.to_nat l) rec))]> row)
  end.

Fixpoint decode_records (nrec : nat) (rlen : nat) (fields : list field)
    (f : file) : list (gmap str str) :=
  match nrec with
  | O => []
  | S n =>
      let '(rec, f1) := read rlen f in
      if seq_eqb Byte.eqb (slice 0 1 rec) (B "*") then
        decode_records n rlen fields f1
      else
        decode_fields rec fields 1 ∅ :: decode_records n rlen fields f1
  end.

Definition dbf_to_csv (dbf : bytes) : option (result (csv_out (gmap str str))) :=
  match _parse_dbf_header_and_fields (open_rb dbf) with
  | None => None
  | Some (Raise e) => Some (Raise e)
  | Some (Ok (nrec, rlen, fields, f)) =>
      let headers := map field_name fields in
      Some (Ok (Written headers (decode_records (N.to_nat nrec) (N.to_nat rlen) fields f)))
  end.

(** *** Cleaning and filtering *)

(** [str(x)] for [x] a [str] or [None]. *)
Definition py_str (x : option str) : str :=
  match x with
  | Some s => s
  | None => U "None"
  end.

Section Projector.
Variable lower : str -> str.

(** [{h.lower(): h for h in r.fieldnames or []}] *)
Definition header_map (fieldnames : option (list str)) : gmap str str :=
  foldl (fun m h => <[lower h := h]> m) ∅ (default [] fieldnames).

(** [[header_map[h.lower()] for h in RELEVANT_FIELDS if h.lower() in header_map]] *)
Definition out_headers (hm : gmap str str) : list str :=
  flat_map (fun h => match hm !! lower h with
                     | Some actual => [actual]
                     | None => []
                     end) RELEVANT_FIELDS.

(** The inner loop: [v] is [str(row.get(h, empty))] with its double quotes
    removed, stripped; [cleaned[h]] is [v] with white space runs replaced by
    one space. *)
Definition clean_row (out_headers : list str) (row : reader_row) : gmap str str :=
  foldl (fun cleaned h =>
           let v := strip (remove_all N.eqb dquote (py_str (row_get row h))) in
           <[h := _WS_RE_sub v]> cleaned) ∅ out_headers.

(** The loop over the rows: the rows collected so far and [data_date]. *)
Fixpoint scan_rows (hm : gmap str str) (out_headers : list str)
    (todo : list reader_row) (rows : list (gmap str str)) (data_date : option str)
  : list (gmap str str) * option str :=
  match todo with
  | [] => (rows, data_date)
  | row :: rest =>
      let cleaned := clean_row out_headers row in
      let data_date :=
        if falsy data_date then
          let dd := default [] (cleaned !! default [] (hm !! U "data_date")) in
          if negb (is_empty dd) then Some (keep_digits dd) else data_date
        else data_date in
      scan_rows hm out_headers rest (rows ++ [cleaned]) data_date
  end.

(** Returns the [data_date] token of the output file name and what is
    written to that file. *)
Definition clean_and_filter_csv (fieldnames : option (list str))
    (rows : list reader_row) : str * csv_out (gmap str str) :=
  let hm := header_map fieldnames in
  let oh := out_headers hm in
  let '(rows, data_date) := scan_rows hm oh rows [] None in
  let data_date := if falsy data_date then U "UNKNOWN" else default [] data_date in
  (data_date, Written oh rows).

End Projector.

(** *** Extraction *)

Section Archive.
(** [str.lower()] *)
Variable lower : string -> string.
(** What [zipfile.ZipFile] makes of the contents of a file. *)
Variable ZipFile : bytes -> option archive.

(** The loop over [z.namelist()]. *)
Fixpoint extract_first (z : archive) (out_path : string) (names : list string)
    (w : world) : world * outcome (option string) :=
  match names with
  | [] => (w, Returns None)
  | n :: rest =>
      if string_endswith ".dbf" (lower n) then
        match copy_member z n out_path w with
        | (w, Returns _) => (w, Returns (Some out_path))
        | (w, Raises e) => (w, Raises e)
        end
      else extract_first z out_path rest w
  end.

Definition _extract_dbf (zip_path state_code : string) (w : world)
  : world * outcome (option string) :=
  let out_path := path_join DBF_DIR (state_code +:+ ".dbf") in
  if bool_decide (is_Some (fs w !! out_path)) then (w, Returns (Some out_path))
  else
    match open_zip ZipFile zip_path w with
    | Raises e => (w, Raises e)
    | Returns z => extract_first z out_path (namelist z) w
    end.

End Archive.

End V2_4.

(** ** Table files built by hand, for examples *)

Definition byte_of (n : N) : byte :=
  match Byte.of_N (n mod 256) with Some c => c | None => x00 end.

(** [n] as [width] little-endian bytes. *)
Fixpoint le_bytes (width : nat) (n : N) : bytes :=
  match width with
  | O => []
  | S w => byte_of n :: le_bytes w (n / 256)
  end.

Definition zeros (n : nat) : bytes := repeat x00 n.

(** A 32-byte table header. *)
Definition mk_header (num_records header_len record_len : N) : bytes :=
  [x03; x00; x00; x00] ++ le_bytes 4 num_records ++ le_bytes 2 header_len
  ++ le_bytes 2 record_len ++ zeros 20.

(** A 32-byte field descriptor; [name] has at most 11 bytes. *)
Definition mk_descriptor (name : bytes) (ftype : byte) (flen fdec : N) : bytes :=
  take 11 (name ++ zeros 11) ++ [ftype] ++ zeros 4 ++ [byte_of flen; byte_of fdec]
  ++ zeros 14.

(** A 32-byte block that begins with the terminator. *)
Definition terminator_block : bytes := x0d :: zeros 31.

(** A table of three records of one two-byte Character field [PID]; the
    second record is marked deleted. *)
Definition sample_header : bytes := mk_header 3 96 3.
Definition sample_descriptors : list bytes := [mk_descriptor (B "PID") "C" 2 0].
Definition sample_records : list bytes := [B " AB"; B "*CD"; B " EF"].
Definition sample_table : bytes :=
  sample_header ++ concat sample_descriptors ++ terminator_block
  ++ concat sample_records.

(** An instance of [float(st)] for examples: it accepts the plain decimal
    literals, an optional sign, then digits with at most one decimal point
    among them (Python accepts more: exponents, [inf], [nan]). *)
Definition plain_decimal (st : str) : bool :=
  forallb (fun c => is_ascii_digit c || (c =? 46)) st
  && existsb is_ascii_digit st
  && Nat.leb (length (List.filter (fun c => c =? 46) st)) 1.

Definition sample_float_accepts (st : str) : bool :=
  match st with
  | c :: r => if (c =? 43) || (c =? 45) then plain_decimal r else plain_decimal st
  | [] => false
  end.

(** The sample table cut right after its header: the header still announces
    one record, the record area is empty. *)
Definition truncated_table : bytes :=
  mk_header 1 96 3 ++ concat sample_descriptors ++ terminator_block.

(** A table whose header announces one record and whose record area holds
    two. *)
Definition undercounted_table : bytes :=
  mk_header 1 96 3 ++ concat sample_descriptors ++ terminator_block
  ++ concat [B " AB"; B " EF"].

(** [str.lower()] on ASCII text. *)
Definition lower_ascii (s : str) : str :=
  map (fun c => if (65 <=? c) && (c <=? 90) then c + 32 else c) s.

(** Header names of a source table, in mixed case, one of them not a
    canonical field; and two rows of that table. *)
Definition sample_fieldnames : list str := [U "PID"; U "Dec_Lat"; U "EXTRA"].

Definition sample_rows : list reader_row :=
  [ {[ U "PID" := Some (U "AB1234"); U "Dec_Lat" := Some (U " 40.5 ");
       U "EXTRA" := Some (U "x") ]};
    {[ U "PID" := Some []; U "Dec_Lat" := Some []; U "EXTRA" := Some [] ]} ].

(** A source table none of whose fields is canonical. *)
Definition foreign_fieldnames : list str := [U "foo"].
Definition foreign_rows : list reader_row := [ {[ U "foo" := Some (U "x") ]} ].

(** A server that answers the first request with an error page under status
    200 and every later one with an archive. *)
Definition sample_archive : bytes := B "PK" ++ [x03; x04] ++ B "archive".

Definition sample_server (sent_before : nat) (url : string) : V1_5.http_response :=
  match sent_before with
  | O => V1_5.Response 200 true [B "<html><body>404 Error</body></html>"] false
  | S _ => V1_5.Response 200 true [B "PK"; [x03; x04] ++ B "archive"] false
  end.

(** A curl that always succeeds and leaves the archive behind. *)
Definition sample_curl (sent_before : nat) (url : string) : V1_8.curl_run :=
  V1_8.CurlExit true (Some sample_archive).

(** An instance of [zipfile.is_zipfile] for examples. *)
Definition sample_is_zipfile (data : bytes) : bool := bytes_startswith (B "PK") data.

(** No file, no request sent yet. *)
Definition empty_world : world := mkworld ∅ [].

(** ** Reference definitions the properties are stated with *)

(** The strict calendar parse of a [YYYYMMDD] text: eight ASCII digits that
    name a day of the proleptic Gregorian calendar, years 1 to 9999. *)
Definition digit_value (c : char) : Z := (Z.of_N c - 48)%Z.

Definition spec_calendar_parse (st : str) : option pydate :=
  match st with
  | [y1; y2; y3; y4; m1; m2; d1; d2] =>
      if forallb is_ascii_digit st then
        let y := (1000 * digit_value y1 + 100 * digit_value y2
                  + 10 * digit_value y3 + digit_value y4)%Z in
        let m := (10 * digit_value m1 + digit_value m2)%Z in
        let d := (10 * digit_value d1 + digit_value d2)%Z in
        if in_calendar y m d then Some (mkdate y m d) else None
      else None
  | _ => None
  end.

(** Decimal value of a digit string, most significant digit first. *)
Definition decimal (acc : Z) (s : str) : Z :=
  fold_left (fun a c => (a * 10 + digit_value c)%Z) s acc.

(** A record is marked deleted when its first byte is ['*'] (0x2A). *)
Definition deleted (rec : bytes) : bool :=
  match rec with
  | c :: _ => Byte.eqb c x2a
  | [] => false
  end.

(** The records that are not marked deleted, in their order. *)
Definition live (recs : list bytes) : list bytes :=
  List.filter (fun r => negb (deleted r)) recs.

Definition count_deleted (recs : list bytes) : nat :=
  length (List.filter deleted recs).

(** Bytes between the read position and the end of the file. *)
Definition remaining (f : file) : nat := length (contents f) - pos f.

(** Cleaning in the order the specification gives: remove the double quotes,
    collapse the runs of white space, trim. *)
Definition spec_cleanValue (s : str) : str :=
  strip (_WS_RE_sub (remove_all N.eqb dquote s)).

(** [c] is immediately followed by [d] in [s]. *)
Definition adjacent (c d : char) (s : str) : Prop :=
  exists pre suf, s = pre ++ c :: d :: suf.

(** No white space at either end. *)
Definition trimmed (s : str) : Prop :=
  (forall c, head s = Some c -> isspace c = false) /\
  (forall c, last s = Some c -> isspace c = false).

(** White space occurs only as single spaces. *)
Definition single_spaced (s : str) : Prop :=
  (forall c, In c s -> isspace c = true -> c = space) /\
  (forall c d, adjacent c d s -> isspace c = true -> isspace d = true -> False).

(** The text [  "12  foo"  ] of the cleaning example. *)
Definition cleaning_example : str :=
  [space; space; dquote] ++ U "12  foo" ++ [dquote; space; space].

(** The markup openers the validator looks for. *)
Definition openers : list bytes := [B "<html"; B "<!doctype"; B "<?xml"].

(** The error-document condition read as a prefix test: the stripped,
    lower-cased buffer begins with one of the openers. *)
Definition spec_opener_is_prefix (buf : bytes) : Prop :=
  exists opener rest,
    opener ∈ openers /\ bytes_lower (bytes_lstrip buf) = opener ++ rest.

(** The error-document condition read as a window test: one of the openers
    occurs within the first bytes of the stripped, lower-cased buffer. *)
Definition spec_opener_in_window (buf : bytes) : Prop :=
  exists opener pre suf,
    opener ∈ openers /\
    take V1_5.html_window (bytes_lower (bytes_lstrip buf)) = pre ++ opener ++ suf.

(** The value of the byte at offset [i]. *)
Definition byte_at (i : nat) (l : bytes) : N := Byte.to_N (nth i l x00).

(** A 32-byte field descriptor, and the 32-byte block that ends the list. *)
Definition descriptor_block (d : bytes) : Prop :=
  length d = 32%nat /\ d !! 0%nat <> Some x0d.

Definition terminator (t : bytes) : Prop :=
  length t = 32%nat /\ t !! 0%nat = Some x0d.

(** [pre] is [l] cut at its first NUL byte. *)
Definition truncated_at_nul (l pre : bytes) : Prop :=
  (x00 ∉ pre) /\ (l = pre \/ exists post, l = pre ++ x00 :: post).

(** What a descriptor block yields. *)
Definition descriptor_spec (d : bytes) (fd : field) : Prop :=
  exists pre,
    truncated_at_nul (take 11 d) pre /\
    fd = (strip (decode_ascii_ignore pre), [byte_at 11 d], byte_at 16 d, byte_at 17 d).

Definition descriptor_fields (d : bytes) : field :=
  (descriptor_name d, chr (byte_at 11 d), byte_at 16 d, byte_at 17 d).

(** The exceptions of the decoder, by message. *)
Definition int_error : exn := ValueError "invalid literal for int()".

Definition too_short : exn := ValueError "File too short to be a DBF.".
Definition unexpected_eof : exn :=
  ValueError "Unexpected EOF reading DBF field descriptors.".

(** [want] has a case-insensitive match among [fieldnames], for [lower] the
    lower-casing of [str]. *)
Definition matched (lower : str -> str) (fieldnames : list str) (want : str) : Prop :=
  exists h, h ∈ fieldnames /\ lower h = lower want.

Definition insert_header (lower : str -> str) (m : gmap str str) (h : str)
  : gmap str str :=
  <[lower h := h]> m.


(** ** Reference definitions for further properties of the decoder *)

(** What a Logical field decodes to, from its first byte. *)
Definition logical_of_bytes (raw : bytes) : value :=
  match raw with
  | [] => VStr []
  | c :: _ =>
      let n := Byte.to_N c in
      if (n =? 89) || (n =? 121) || (n =? 84) || (n =? 116) then VBool true
      else if (n =? 78) || (n =? 110) || (n =? 70) || (n =? 102) then VBool false
      else VStr []
  end.

(** Offset in a record of the field of index [i]: one byte for the deletion
    flag, then the lengths of the fields before it. *)
Definition field_length (fd : field) : nat := let '(_, _, flen, _) := fd in N.to_nat flen.

Definition field_offset (fields : list field) (i : nat) : nat :=
  1 + list_sum (map field_length (take i fields)).

(** No field after index [i] has the name [name]. *)
Definition last_of_its_name (fields : list field) (i : nat) (name : str) : Prop :=
  forall j fd, (i < j)%nat -> fields !! j = Some fd -> field_name fd <> name.

(** What every field descriptor returned by the header parsers satisfies. *)
Definition field_in_range (fd : field) : Prop :=
  let '(name, ftype, flen, fdec) := fd in
  (length name <= 11)%nat /\
  Forall (fun c => 0 < c < 128) name /\
  trimmed name /\
  length ftype = 1%nat /\ Forall (fun c => c < 256) ftype /\
  flen < 256 /\ fdec < 256.

(** ASCII digits, as bytes, and a run of ASCII spaces. *)
Definition digit_bytes (l : bytes) : Prop :=
  l <> [] /\ Forall (fun c => is_ascii_digit (Byte.to_N c) = true) l.

Definition spaces (n : nat) : bytes := repeat x20 n.

(** ** Reference definitions for further properties of the projector *)

(** A text that holds no double quote, no white space at its ends and no
    white space other than single spaces. *)
Definition clean (s : str) : Prop :=
  ~ In dquote s /\ trimmed s /\ single_spaced s.

(** The cleaned cell of a row under the column that [header_map] gives for
    [data_date], the empty text when there is none (v2.4). *)
Definition date_cell (hm : gmap str str) (out_headers : list str)
    (row : reader_row) : str :=
  default [] (V2_4.clean_row out_headers row !! default [] (hm !! U "data_date")).

Definition has_digit (s : str) : bool := existsb is_ascii_digit s.

(** The [data_date] token of the output file name of v2.4, from the date
    cells of the rows in order. *)
Definition date_token (cells : list str) : str :=
  match List.find has_digit cells with
  | Some dd => keep_digits dd
  | None => U "UNKNOWN"
  end.

(** ** Reference definitions for further properties of the extraction *)

(** The path a member of an archive is extracted to by [_extract_dbfs]. *)
Definition target (dbf_dir prefix member : string) : string :=
  path_join dbf_dir (prefix +:+ "_" +:+ basename member).

(** The members [_extract_dbfs] extracts: the lower-cased name ends with
    [.dbf] and the name does not end with a slash. *)
Definition selected (lower : string -> string) (member : string) : bool :=
  string_endswith ".dbf" (lower member) && negb (string_is_empty (basename member)).

(** [m] is the first name of [names] whose lower-cased form ends with
    [.dbf]. *)
Definition first_dbf (lower : string -> string) (names : list string) (m : string)
  : Prop :=
  exists pre rest,
    names = pre ++ m :: rest /\
    Forall (fun x => string_endswith ".dbf" (lower x) = false) pre /\
    string_endswith ".dbf" (lower m) = true.

(** ** Reference definitions for further properties of the main loop *)

(** A name without a slash. *)
Fixpoint no_slash (s : string) : bool :=
  match s with
  | EmptyString => true
  | String c r => negb (Ascii.eqb c "/") && no_slash r
  end.

(** [path] names a file directly in the directory [dir]. *)
Definition directly_in (dir path : string) : Prop :=
  exists name,
    no_slash name = true /\ name <> EmptyString /\
    path = if string_is_empty dir || string_endswith "/" dir
           then dir +:+ name else dir +:+ "/" +:+ name.

(** A state code as the scripts have them: two characters, the first of
    which is not a slash. *)
Definition is_state_code (code : string) : bool :=
  match code with
  | String a (String b EmptyString) => negb (Ascii.eqb a "/") && negb (Ascii.eqb b "/")
  | _ => false
  end.

(** The files the main loop can write for a state: its archive, the
    temporary file of its download, and the targets of its tables. *)
Definition owned (code path : string) : Prop :=
  path = zip_path_of code \/ path = part_of (zip_path_of code) \/
  exists member, path = target DBF_DIR code member.

(** What a second run reports for a state: the archive is there. *)
Definition found_again {R} (done : fetched * R) : fetched * R :=
  (AlreadyThere, snd done).

(** ** Further examples *)

(** A server no request reaches. *)
Definition unreachable_server (sent_before : nat) (url : string) : V1_5.http_response :=
  V1_5.ConnectionFailed.

(** A curl that exits with success and leaves an error page behind. *)
Definition error_page : bytes := B "<html><body>404 Error</body></html>".

Definition misled_curl (sent_before : nat) (url : string) : V1_8.curl_run :=
  V1_8.CurlExit true (Some error_page).

(** [str.lower()] on ASCII names. *)
Definition ascii_lower (c : ascii) : ascii :=
  let n := N_of_ascii c in
  if (65 <=? n) && (n <=? 90) then ascii_of_N (n + 32) else c.

Fixpoint string_lower_ascii (s : string) : string :=
  match s with
  | EmptyString => EmptyString
  | String c r => String (ascii_lower c) (string_lower_ascii r)
  end.

(** The directory of an archive with a folder entry, a table, a shape file
    and an empty table. *)
Definition sample_members : archive :=
  [("AL/"%string, Content []);
   ("AL/AL.DBF"%string, Content sample_table);
   ("AL/AL.shp"%string, Content (B "shape"));
   ("notes.dbf"%string, Content [])].

Definition sample_ZipFile (data : bytes) : option archive :=
  if sample_is_zipfile data then Some sample_members else None.

(** The archive of a state at its place, nothing else. *)
Definition archive_world : world :=
  write_file (zip_path_of "AL") sample_archive empty_world.

(** An archive whose table cannot be read to the end. *)
Definition broken_members : archive := [("AL.dbf"%string, ReadFails)].

Definition broken_ZipFile (data : bytes) : option archive :=
  if sample_is_zipfile data then Some broken_members else None.

(** A server that answers every request with the archive. *)
Definition good_server (sent_before : nat) (url : string) : V1_5.http_response :=
  V1_5.Response 200 true [sample_archive] false.
(* ================================================================== *)
(** * Properties *)

(** ** Sequence helpers *)

Section SeqFacts.
Context {A : Type} (eqb : A -> A -> bool).
Hypothesis eqb_eq : forall x y, eqb x y = true <-> x = y.

Lemma startswith_iff (p l : list A) :
  startswith eqb p l = true <-> exists r, l = p ++ r.
Proof.
  revert l; induction p as [|x p IH]; intros l; simpl.
  - split; eauto.
  - destruct l as [|y l].
    + split; [discriminate | intros [r Hr]; discriminate].
    + rewrite andb_true_iff, eqb_eq, IH. split.
      * intros [-> [r ->]]. eauto.
      * intros [r Hr]. injection Hr as -> ->. eauto.
Qed.

Lemma contains_iff (p l : list A) :
  contains eqb p l = true <-> exists pre suf, l = pre ++ p ++ suf.
Proof.
  induction l as [|y l IH]; simpl.
  - rewrite orb_false_r, startswith_iff. split.
    + intros [r Hr]. exists [], r. exact Hr.
    + intros (pre & suf & H). destruct pre; simpl in H.
      * eauto.
      * discriminate.
  - rewrite orb_true_iff, startswith_iff, IH. split.
    + intros [[r Hr] | (pre & suf & ->)].
      * exists [], r. exact Hr.
      * exists (y :: pre), suf. reflexivity.
    + intros (pre & suf & H). destruct pre as [|z pre]; simpl in H.
      * left. eauto.
      * right. injection H as -> ->. eauto.
Qed.

Lemma seq_eqb_iff (l1 l2 : list A) : seq_eqb eqb l1 l2 = true <-> l1 = l2.
Proof.
  revert l2; induction l1 as [|x l1 IH]; intros [|y l2]; simpl;
    try (split; (reflexivity || discriminate)).
  rewrite andb_true_iff, eqb_eq, IH. split.
  - intros [-> ->]. reflexivity.
  - intros H. injection H as -> ->. auto.
Qed.
End SeqFacts.

Lemma byte_eqb_eq (x y : byte) : Byte.eqb x y = true <-> x = y.
Proof.
  split.
  - apply Byte.byte_dec_bl.
  - apply Byte.byte_dec_lb.
Qed.

Lemma bytes_startswith_iff (p l : bytes) :
  bytes_startswith p l = true <-> exists r, l = p ++ r.
Proof. apply startswith_iff, byte_eqb_eq. Qed.

Lemma bytes_contains_iff (p l : bytes) :
  bytes_contains p l = true <-> exists pre suf, l = pre ++ p ++ suf.
Proof. apply contains_iff, byte_eqb_eq. Qed.

Lemma str_eqb_iff (s t : str) : str_eqb s t = true <-> s = t.
Proof. apply seq_eqb_iff. intros x y. apply N.eqb_eq. Qed.

(** ** Content validation *)

Lemma looks_like_html_iff (buf : bytes) :
  V1_5._looks_like_html buf = true <->
  (exists rest, bytes_lower (bytes_lstrip buf) = x3c :: rest) /\
  spec_opener_in_window buf.
Proof.
  unfold V1_5._looks_like_html, spec_opener_in_window, openers.
  rewrite andb_true_iff, !orb_true_iff, bytes_startswith_iff, !bytes_contains_iff.
  split.
  - intros [Hlt H]. split; [exact Hlt|].
    destruct H as [[(pre & suf & H) | (pre & suf & H)] | (pre & suf & H)].
    + exists (B "<html"), pre, suf. split; [|exact H]. rewrite !elem_of_cons. tauto.
    + exists (B "<!doctype"), pre, suf. split; [|exact H]. rewrite !elem_of_cons. tauto.
    + exists (B "<?xml"), pre, suf. split; [|exact H]. rewrite !elem_of_cons. tauto.
  - intros [Hlt (opener & pre & suf & Hin & H)]. split; [exact Hlt|].
    rewrite !elem_of_cons in Hin.
    destruct Hin as [-> | [-> | [-> | Hin]]]; eauto.
    apply elem_of_nil in Hin. destruct Hin.
Qed.

Lemma is_zip_magic_iff (buf : bytes) :
  V1_5._is_zip_magic buf = true <-> exists rest, buf = x50 :: x4b :: rest.
Proof. unfold V1_5._is_zip_magic. apply bytes_startswith_iff. Qed.

(** C3, as the code has it.  A buffer is [Valid] exactly when its first two
    bytes are 0x50 0x4B.  It is [LooksLikeErrorDocument] exactly when it is
    not [Valid] and, after stripping leading ASCII white space and lower-casing,
    it begins with the byte '<' and one of the openers [<html], [<!doctype],
    [<?xml] occurs somewhere within its first 300 bytes.  Every other buffer
    is [Unrecognized]. *)
Theorem C3_classification (buf : bytes) :
  (V1_5.classify buf = V1_5.Valid <-> exists rest, buf = x50 :: x4b :: rest) /\
  (V1_5.classify buf = V1_5.LooksLikeErrorDocument <->
     V1_5.classify buf <> V1_5.Valid /\
     (exists rest, bytes_lower (bytes_lstrip buf) = x3c :: rest) /\
     spec_opener_in_window buf) /\
  (V1_5.classify buf = V1_5.Unrecognized <->
     V1_5.classify buf <> V1_5.Valid /\
     V1_5.classify buf <> V1_5.LooksLikeErrorDocument).
Proof.
  pose proof (is_zip_magic_iff buf) as Hz.
  pose proof (looks_like_html_iff buf) as Hh.
  unfold V1_5.classify.
  destruct (V1_5._is_zip_magic buf); simpl.
  - split; [|split].
    + split; [intros _; apply Hz; reflexivity | reflexivity].
    + split; [discriminate | intros [H _]; congruence].
    + split; [discriminate | intros [H _]; congruence].
  - assert (Hnz : ~ exists rest, buf = x50 :: x4b :: rest).
    { intros H. apply Hz in H. discriminate. }
    destruct (V1_5._looks_like_html buf).
    + split; [|split].
      * split; [discriminate | tauto].
      * split; [|reflexivity].
        intros _. split; [discriminate|]. apply Hh. reflexivity.
      * split; [discriminate | intros [_ H]; congruence].
    + split; [|split].
      * split; [discriminate | tauto].
      * split; [discriminate|].
        intros (_ & H1 & H2).
        assert (false = true) by (apply Hh; tauto). discriminate.
      * split; [|reflexivity]. intros _. split; discriminate.
Qed.

(** C3 as stated fails on the code under either reading of "prefix matches an
    opener within the first bytes".  The buffer [<p><html>] is rejected as an
    error document although it does not begin with an opener; the buffer
    [x<html>] holds an opener within its first bytes and is not rejected as an
    error document, because it does not begin with '<'. *)
Lemma C3_counterexample :
  ~ (forall buf, V1_5.classify buf = V1_5.LooksLikeErrorDocument <->
                 V1_5.classify buf <> V1_5.Valid /\ spec_opener_is_prefix buf) /\
  ~ (forall buf, V1_5.classify buf = V1_5.LooksLikeErrorDocument <->
                 V1_5.classify buf <> V1_5.Valid /\ spec_opener_in_window buf).
Proof.
  split.
  - intros H. specialize (H (B "<p><html>")).
    assert (Hc : V1_5.classify (B "<p><html>") = V1_5.LooksLikeErrorDocument)
      by reflexivity.
    apply H in Hc. destruct Hc as [_ (opener & rest & Hin & Heq)].
    unfold openers in Hin. rewrite !elem_of_cons in Hin.
    destruct Hin as [-> | [-> | [-> | Hin]]]; try discriminate.
    apply elem_of_nil in Hin. destruct Hin.
  - intros H. specialize (H (B "x<html>")).
    assert (Hc : V1_5.classify (B "x<html>") = V1_5.Unrecognized) by reflexivity.
    destruct H as [_ H]. rewrite Hc in H.
    assert (V1_5.Unrecognized = V1_5.LooksLikeErrorDocument); [|discriminate].
    apply H. split; [discriminate|].
    exists (B "<html"), (B "x"), (B ">"). split; [|reflexivity].
    unfold openers. rewrite !elem_of_cons. tauto.
Qed.

(** ** The table header and the field descriptors *)

(** Closes a goal whose first premise equates two different outcomes. *)
Ltac absurd_eq := let H := fresh in intros H; discriminate H.

Lemma byte_to_N_inj (x y : byte) : Byte.to_N x = Byte.to_N y -> x = y.
Proof.
  intros H. pose proof (Byte.of_to_N x) as Hx. pose proof (Byte.of_to_N y) as Hy.
  rewrite H in Hx. congruence.
Qed.

Lemma split1_head_truncated (l : bytes) :
  truncated_at_nul l (split1_head Byte.eqb x00 l).
Proof.
  induction l as [|c l [Hnot Hcut]]; simpl.
  - split; [apply not_elem_of_nil | left; reflexivity].
  - destruct (Byte.eqb c x00) eqn:Hc.
    + apply byte_eqb_eq in Hc as ->. split; [apply not_elem_of_nil|].
      right. exists l. reflexivity.
    + split.
      * rewrite elem_of_cons. intros [Heq | Hin]; [subst c|tauto].
        assert (Byte.eqb x00 x00 = true) by (apply byte_eqb_eq; reflexivity).
        congruence.
      * destruct Hcut as [Heq | [post Heq]].
        -- left. congruence.
        -- right. exists post. simpl. congruence.
Qed.

Lemma descriptor_fields_spec (d : bytes) : descriptor_spec d (descriptor_fields d).
Proof.
  exists (split1_head Byte.eqb x00 (take 11 d)). split.
  - apply split1_head_truncated.
  - unfold descriptor_fields, descriptor_name, slice, chr. simpl drop.
    reflexivity.
Qed.

Lemma index_lt (i : nat) (l : bytes) :
  (i < length l)%nat -> index i l = Ok (byte_at i l).
Proof.
  intros Hi. unfold index, byte_at.
  destruct (l !! i) as [c|] eqn:Hl.
  - rewrite (nth_lookup_Some l i x00 c Hl). reflexivity.
  - apply lookup_ge_None in Hl. lia.
Qed.

Lemma index_ge (i : nat) (l : bytes) :
  (length l <= i)%nat -> index i l = Raise IndexError.
Proof.
  intros Hi. unfold index. rewrite (proj2 (lookup_ge_None l i) Hi). reflexivity.
Qed.

Lemma read_block (f : file) (blk post : bytes) (n : nat) :
  drop (pos f) (contents f) = blk ++ post -> length blk = n ->
  read n f = (blk, mkfile (contents f) (pos f + n)).
Proof.
  intros Hd Hn. unfold read. rewrite Hd, take_app_length' by congruence.
  rewrite Hn. reflexivity.
Qed.

Lemma drop_after_block (f : file) (blk post : bytes) (n : nat) :
  drop (pos f) (contents f) = blk ++ post -> length blk = n ->
  drop (pos f + n) (contents f) = post.
Proof.
  intros Hd Hn. rewrite <- drop_drop, Hd. apply drop_app_length'. congruence.
Qed.

Lemma block_not_empty (d : bytes) :
  length d = 32%nat -> is_empty d || (length d <? 32)%nat = false.
Proof. intros H. rewrite H. destruct d; [discriminate | reflexivity]. Qed.

Lemma descriptor_chain (d : bytes) :
  length d = 32%nat ->
  (let* t := index 11 d in
   let* flen := index 16 d in
   let* fdec := index 17 d in
   Ok (descriptor_name d, chr t, flen, fdec)) = Ok (descriptor_fields d).
Proof.
  intros H. rewrite !index_lt by lia. reflexivity.
Qed.

Lemma descriptor_first (d : bytes) :
  descriptor_block d -> exists d0, index 0 d = Ok d0 /\ (d0 =? 13) = false.
Proof.
  intros [Hlen Hne]. exists (byte_at 0 d). split; [apply index_lt; lia|].
  apply N.eqb_neq. intros H. apply Hne.
  destruct d as [|c d]; [discriminate|]. unfold byte_at in H. simpl in *.
  f_equal. apply byte_to_N_inj. exact H.
Qed.

Lemma terminator_first (t : bytes) : terminator t -> index 0 t = Ok 13.
Proof.
  intros [Hlen H0]. unfold index. rewrite H0. reflexivity.
Qed.

(** The descriptor loop of v2.2 on a well laid out descriptor area. *)
Lemma read_descriptors_layout (descs : list bytes) (t rest : bytes) :
  Forall descriptor_block descs -> terminator t ->
  forall fuel f acc,
    drop (pos f) (contents f) = concat descs ++ t ++ rest ->
    (length descs < fuel)%nat ->
    V2_2.read_descriptors fuel f acc =
    Some (Ok (acc ++ map descriptor_fields descs,
              mkfile (contents f) (pos f + 32 * S (length descs)))).
Proof.
  intros Hdescs Ht. induction Hdescs as [|d descs Hd _ IH]; intros fuel f acc Hdrop Hfuel.
  - destruct fuel as [|fuel]; [lia|]. simpl in Hdrop. cbn [V2_2.read_descriptors].
    rewrite (read_block f t rest 32 Hdrop (proj1 Ht)).
    rewrite (block_not_empty t (proj1 Ht)), (terminator_first t Ht). simpl.
    rewrite app_nil_r. reflexivity.
  - destruct fuel as [|fuel]; [lia|].
    simpl in Hdrop. rewrite <- app_assoc in Hdrop.
    cbn [V2_2.read_descriptors].
    rewrite (read_block f d _ 32 Hdrop (proj1 Hd)).
    rewrite (block_not_empty d (proj1 Hd)).
    destruct (descriptor_first d Hd) as (d0 & -> & ->).
    rewrite (descriptor_chain d (proj1 Hd)). cbv iota beta.
    rewrite IH.
    + cbn [contents pos map length]. rewrite <- app_assoc. simpl app.
      do 4 f_equal. lia.
    + simpl. apply (drop_after_block f d _ 32 Hdrop (proj1 Hd)).
    + simpl in Hfuel. lia.
Qed.

(** Where v2.2 finds the descriptors, v2.4 finds the same ones. *)
Lemma read_descriptors_agree (fuel : nat) :
  forall f acc r,
    V2_2.read_descriptors fuel f acc = Some (Ok r) ->
    V2_4.read_descriptors fuel f acc = Some (Ok r).
Proof.
  induction fuel as [|fuel IH]; intros f acc r;
    cbn [V2_2.read_descriptors V2_4.read_descriptors]; [absurd_eq|].
  destruct (read 32 f) as [desc f1].
  destruct (is_empty desc || (length desc <? 32)%nat); [absurd_eq|].
  destruct (index 0 desc) as [d0|e]; [|absurd_eq].
  destruct (d0 =? 13); [tauto|].
  destruct (let* t := index 11 desc in _) as [fd|e]; [|absurd_eq].
  apply IH.
Qed.

Lemma parse_header_agree (f : file) r :
  V2_2._parse_dbf_header_and_fields f = Some (Ok r) ->
  V2_4._parse_dbf_header_and_fields f = Some (Ok r).
Proof.
  unfold V2_2._parse_dbf_header_and_fields, V2_4._parse_dbf_header_and_fields.
  destruct (read 32 f) as [header f1].
  destruct (length header <? 32)%nat; [absurd_eq|].
  destruct (let* n := struct_unpack_le 4 (slice 4 8 header) in _) as [[[n h] l]|e];
    [|absurd_eq].
  unfold V2_2._parse_dbf_header_fuel, V2_4._parse_dbf_header_fuel.
  destruct (V2_2.read_descriptors _ f1 []) as [[[fields f2]|e]|] eqn:Hloop;
    try absurd_eq.
  rewrite (read_descriptors_agree _ _ _ _ Hloop). tauto.
Qed.

Lemma length_concat_blocks (descs : list bytes) :
  Forall descriptor_block descs -> (length descs <= length (concat descs))%nat.
Proof.
  induction 1 as [|d descs [Hd _] _ IH]; simpl; [lia|].
  rewrite length_app. lia.
Qed.

Lemma header_numbers (hdr : bytes) :
  length hdr = 32%nat ->
  struct_unpack_le 4 (slice 4 8 hdr) =
    Ok (byte_at 4 hdr + 256 * byte_at 5 hdr + 65536 * byte_at 6 hdr
        + 16777216 * byte_at 7 hdr) /\
  struct_unpack_le 2 (slice 8 10 hdr) = Ok (byte_at 8 hdr + 256 * byte_at 9 hdr) /\
  struct_unpack_le 2 (slice 10 12 hdr) = Ok (byte_at 10 hdr + 256 * byte_at 11 hdr).
Proof.
  intros Hlen.
  do 12 (destruct hdr as [|? hdr]; [discriminate|]).
  unfold struct_unpack_le, slice, byte_at. cbn [firstn skipn take drop length Nat.sub Nat.eqb nth le_uint].
  rewrite ?take_0. cbn [le_uint length Nat.eqb].
  repeat split; apply f_equal; lia.
Qed.

(** C1. A well-formed table file is a 32-byte header, then 32-byte descriptor
    blocks none of which begins with 0x0D, then a 32-byte block that begins
    with 0x0D, then anything.  On such a file both versions of
    [_parse_dbf_header_and_fields] return: the record count is the
    little-endian value of bytes 4-7, the record length that of bytes 10-11,
    there is one field per descriptor block, in order, each with the name
    read from bytes 0-10 cut at the first NUL, decoded as ASCII and stripped,
    the type code of byte 11, the length of byte 16 and the decimal count of
    byte 17, and the file is left positioned at the header length, the
    little-endian value of bytes 8-9. *)
Theorem C1_decode_header (hdr : bytes) (descs : list bytes) (t rest : bytes) :
  length hdr = 32%nat -> Forall descriptor_block descs -> terminator t ->
  let data := hdr ++ concat descs ++ t ++ rest in
  exists fields,
    Forall2 descriptor_spec descs fields /\
    let parsed :=
      Some (Ok (byte_at 4 hdr + 256 * byte_at 5 hdr + 65536 * byte_at 6 hdr
                  + 16777216 * byte_at 7 hdr,
                byte_at 10 hdr + 256 * byte_at 11 hdr,
                fields,
                mkfile data (N.to_nat (byte_at 8 hdr + 256 * byte_at 9 hdr)))) in
    V2_2._parse_dbf_header_and_fields (open_rb data) = parsed /\
    V2_4._parse_dbf_header_and_fields (open_rb data) = parsed.
Proof.
  intros Hhdr Hdescs Ht data.
  exists (map descriptor_fields descs). split.
  { clear. induction descs; constructor; auto using descriptor_fields_spec. }
  cbv zeta.
  assert (H22 : V2_2._parse_dbf_header_and_fields (open_rb data) =
    Some (Ok (byte_at 4 hdr + 256 * byte_at 5 hdr + 65536 * byte_at 6 hdr
                  + 16777216 * byte_at 7 hdr,
                byte_at 10 hdr + 256 * byte_at 11 hdr,
                map descriptor_fields descs,
                mkfile data (N.to_nat (byte_at 8 hdr + 256 * byte_at 9 hdr))))).
  { unfold V2_2._parse_dbf_header_and_fields.
    rewrite (read_block (open_rb data) hdr (concat descs ++ t ++ rest) 32
               eq_refl Hhdr).
    rewrite Hhdr. simpl (32 <? 32)%nat. cbv iota.
    destruct (header_numbers hdr Hhdr) as (-> & -> & ->). simpl bind. cbv iota beta.
    rewrite (read_descriptors_layout descs t rest Hdescs Ht).
    - reflexivity.
    - cbn [pos contents open_rb]. unfold data.
      rewrite drop_app_length' by (rewrite Hhdr; reflexivity). reflexivity.
    - unfold V2_2._parse_dbf_header_fuel. simpl. unfold data.
      rewrite !length_app. pose proof (length_concat_blocks descs Hdescs). lia. }
  split; [exact H22 | apply parse_header_agree; exact H22].
Qed.

Lemma C1_witness :
  length sample_header = 32%nat /\
  Forall descriptor_block sample_descriptors /\
  terminator terminator_block /\
  exists fields,
    Forall2 descriptor_spec sample_descriptors fields /\
    V2_2._parse_dbf_header_and_fields (open_rb sample_table) =
      Some (Ok (byte_at 4 sample_header + 256 * byte_at 5 sample_header
                  + 65536 * byte_at 6 sample_header
                  + 16777216 * byte_at 7 sample_header,
                byte_at 10 sample_header + 256 * byte_at 11 sample_header,
                fields,
                mkfile sample_table
                  (N.to_nat (byte_at 8 sample_header + 256 * byte_at 9 sample_header)))) /\
    V2_4._parse_dbf_header_and_fields (open_rb sample_table) =
      Some (Ok (byte_at 4 sample_header + 256 * byte_at 5 sample_header
                  + 65536 * byte_at 6 sample_header
                  + 16777216 * byte_at 7 sample_header,
                byte_at 10 sample_header + 256 * byte_at 11 sample_header,
                fields,
                mkfile sample_table
                  (N.to_nat (byte_at 8 sample_header + 256 * byte_at 9 sample_header)))).
Proof.
  assert (H1 : length sample_header = 32%nat) by reflexivity.
  assert (H2 : Forall descriptor_block sample_descriptors).
  { repeat constructor. vm_compute. discriminate. }
  assert (H3 : terminator terminator_block) by (split; reflexivity).
  split; [exact H1|]. split; [exact H2|]. split; [exact H3|].
  exact (C1_decode_header sample_header sample_descriptors terminator_block
           (concat sample_records) H1 H2 H3).
Defined.

(** The sample table, decoded. *)
Example sample_header_decoded :
  V2_2._parse_dbf_header_and_fields (open_rb sample_table) =
  Some (Ok (3, 3, [(U "PID", U "C", 2, 0)], mkfile sample_table 96)).
Proof. vm_compute. reflexivity. Qed.

(** ** Decoding one field value (v2.2) *)

Lemma ascii_digit_range (c : char) :
  is_ascii_digit c = true <-> 48 <= c <= 57.
Proof.
  unfold is_ascii_digit. rewrite andb_true_iff, !N.leb_le. tauto.
Qed.

Lemma isdigit_char_cases (c : char) :
  isdigit_char c = true ->
  is_ascii_digit c = true \/
  (is_ascii_digit c = false /\ (c = 178 \/ c = 179 \/ c = 185)).
Proof.
  unfold isdigit_char. destruct (is_ascii_digit c); [tauto|].
  rewrite !orb_true_iff, !N.eqb_eq. simpl. intuition discriminate.
Qed.

Lemma int_digits_isdigit (s : str) :
  forall acc after,
    forallb isdigit_char s = true ->
    int_digits acc after s =
    if forallb is_ascii_digit s then
      match s with
      | [] => if after then Ok acc else Raise int_error
      | _ => Ok (decimal acc s)
      end
    else Raise int_error.
Proof.
  induction s as [|c r IH]; intros acc after Hs; [reflexivity|].
  cbn [forallb] in Hs. apply andb_true_iff in Hs as [Hc Hr].
  cbn [int_digits forallb].
  destruct (isdigit_char_cases c Hc) as [Hd | [Hd Hsup]]; rewrite Hd.
  - rewrite (IH _ true Hr). cbn [andb].
    destruct (forallb is_ascii_digit r); [|reflexivity].
    apply ascii_digit_range in Hd.
    assert (Hv : (acc * 10 + Z.of_N (c - 48))%Z = (acc * 10 + digit_value c)%Z).
    { unfold digit_value. lia. }
    rewrite Hv. destruct r; reflexivity.
  - cbn [andb].
    assert (Hu : (c =? 95) = false) by (apply N.eqb_neq; lia).
    rewrite Hu. reflexivity.
Qed.

Lemma py_int_isdigit (s : str) :
  s <> [] -> forallb isdigit_char s = true ->
  py_int s = if forallb is_ascii_digit s then Ok (decimal 0 s) else Raise int_error.
Proof.
  intros Hne Hs. destruct s as [|c r]; [congruence|].
  assert (Hc : isdigit_char c = true).
  { cbn [forallb] in Hs. apply andb_true_iff in Hs. tauto. }
  unfold py_int.
  assert (H43 : (c =? 43) = false).
  { apply N.eqb_neq. destruct (isdigit_char_cases c Hc) as [Hd | [_ Hd]];
      [apply ascii_digit_range in Hd|]; lia. }
  assert (H45 : (c =? 45) = false).
  { apply N.eqb_neq. destruct (isdigit_char_cases c Hc) as [Hd | [_ Hd]];
      [apply ascii_digit_range in Hd|]; lia. }
  rewrite H43, H45, (int_digits_isdigit _ 0%Z false Hs). reflexivity.
Qed.

(** The [D] branch of [_parse_dbf_value]. *)
Lemma parse_date_branch fa (raw : bytes) (dec : N) :
  V2_2._parse_dbf_value fa raw (U "D") dec =
  let st := strip (decode_latin1 raw) in
  if (length st =? 8)%nat && isdigit st then
    try_except
      (let* y := py_int (slice 0 4 st) in
       let* m := py_int (slice 4 6 st) in
       let* d := py_int (slice 6 8 st) in
       let* dt := date y m d in
       Ok (VStr (isoformat dt)))
      (fun _ => Ok (VStr st))
  else Ok (VStr []).
Proof. reflexivity. Qed.

Lemma forallb_8 {A} (p : A -> bool) (a1 a2 a3 a4 a5 a6 a7 a8 : A) :
  forallb p [a1; a2; a3; a4; a5; a6; a7; a8] =
  forallb p [a1; a2; a3; a4] && forallb p [a5; a6] && forallb p [a7; a8].
Proof.
  cbn [forallb]. destruct (p a1), (p a2), (p a3), (p a4), (p a5), (p a6); reflexivity.
Qed.

Lemma decimal_4 (a1 a2 a3 a4 : char) :
  decimal 0 [a1; a2; a3; a4] =
  (1000 * digit_value a1 + 100 * digit_value a2 + 10 * digit_value a3
   + digit_value a4)%Z.
Proof. unfold decimal. cbn [fold_left]. lia. Qed.

Lemma decimal_2 (a1 a2 : char) :
  decimal 0 [a1; a2] = (10 * digit_value a1 + digit_value a2)%Z.
Proof. unfold decimal. cbn [fold_left]. lia. Qed.

Lemma date_text_decoded (st : str) :
  length st = 8%nat -> isdigit st = true ->
  try_except
    (let* y := py_int (slice 0 4 st) in
     let* m := py_int (slice 4 6 st) in
     let* d := py_int (slice 6 8 st) in
     let* dt := date y m d in
     Ok (VStr (isoformat dt)))
    (fun _ => Ok (VStr st)) =
  match spec_calendar_parse st with
  | Some dt => Ok (VStr (isoformat dt))
  | None => Ok (VStr st)
  end.
Proof.
  intros Hlen Hdig.
  do 8 (destruct st as [|? st]; [discriminate|]).
  destruct st; [|discriminate]. clear Hlen.
  unfold isdigit in Hdig. cbn [is_empty negb andb] in Hdig.
  rewrite forallb_8 in Hdig.
  apply andb_true_iff in Hdig as [Hdig H2]. apply andb_true_iff in Hdig as [H4 H2'].
  change (slice 0 4 [n; n0; n1; n2; n3; n4; n5; n6]) with [n; n0; n1; n2].
  change (slice 4 6 [n; n0; n1; n2; n3; n4; n5; n6]) with [n3; n4].
  change (slice 6 8 [n; n0; n1; n2; n3; n4; n5; n6]) with [n5; n6].
  rewrite !py_int_isdigit by (assumption || discriminate).
  unfold spec_calendar_parse. rewrite forallb_8.
  destruct (forallb is_ascii_digit [n; n0; n1; n2]); [|reflexivity].
  destruct (forallb is_ascii_digit [n3; n4]); [|reflexivity].
  destruct (forallb is_ascii_digit [n5; n6]); [|reflexivity].
  cbn [andb bind]. rewrite decimal_4, !decimal_2. unfold date.
  destruct (in_calendar _ _ _); reflexivity.
Qed.

(** C5, as the code has it.  Whatever the float parser and the decimal
    count, a Date field holding [19991231] decodes to the text [1999-12-31];
    one holding [00000000] decodes to the text [00000000]; and in general
    the stripped content decodes to the empty text unless it has exactly
    eight digit characters, to the ISO date when the strict calendar parse
    succeeds, and to the stripped content itself when it has eight digit
    characters and the parse fails.  The result is a value in every case,
    never an exception. *)
Theorem C5_date_decoding (fa : str -> bool) (raw : bytes) (dec : N) :
  V2_2._parse_dbf_value fa (B "19991231") (U "D") dec = Ok (VStr (U "1999-12-31")) /\
  V2_2._parse_dbf_value fa (B "00000000") (U "D") dec = Ok (VStr (U "00000000")) /\
  V2_2._parse_dbf_value fa raw (U "D") dec =
    (let st := strip (decode_latin1 raw) in
     if (length st =? 8)%nat && isdigit st then
       match spec_calendar_parse st with
       | Some dt => Ok (VStr (isoformat dt))
       | None => Ok (VStr st)
       end
     else Ok (VStr [])).
Proof.
  split; [reflexivity|]. split; [reflexivity|].
  rewrite parse_date_branch. cbv zeta.
  destruct ((length (strip (decode_latin1 raw)) =? 8)%nat && isdigit (strip (decode_latin1 raw)))
    eqn:Hc; [|reflexivity].
  apply andb_true_iff in Hc as [Hlen Hdig]. apply Nat.eqb_eq in Hlen.
  apply date_text_decoded; assumption.
Qed.

(** C5 as stated fails on the code: the Date content [00000000] has eight
    digits and fails the calendar parse, and it decodes to the text
    [00000000], not to the empty value. *)
Lemma C5_counterexample :
  V2_2._parse_dbf_value sample_float_accepts (B "00000000") (U "D") 0
    = Ok (VStr (U "00000000")) /\
  V2_2._parse_dbf_value sample_float_accepts (B "00000000") (U "D") 0
    <> Ok (VStr []).
Proof. split; [reflexivity | discriminate]. Qed.

Example date_leap_day fa dec :
  V2_2._parse_dbf_value fa (B "20000229") (U "D") dec = Ok (VStr (U "2000-02-29")).
Proof. reflexivity. Qed.

Example date_no_such_day fa dec :
  V2_2._parse_dbf_value fa (B "19990229") (U "D") dec = Ok (VStr (U "19990229")).
Proof. reflexivity. Qed.

Example date_not_digits fa dec :
  V2_2._parse_dbf_value fa (B "1999-12-") (U "D") dec = Ok (VStr []).
Proof. reflexivity. Qed.

Example date_superscript_digit fa dec :
  V2_2._parse_dbf_value fa (B "1999123" ++ [xb2]) (U "D") dec
  = Ok (VStr (U "1999123" ++ [178])).
Proof. reflexivity. Qed.

(** A handler that returns makes the whole [try] return. *)
Lemma try_except_returns {A} (body : result A) (handler : exn -> result A) :
  (forall e, exists a, handler e = Ok a) -> exists a, try_except body handler = Ok a.
Proof.
  intros Hh. destruct body as [a|e]; simpl; eauto.
Qed.

Lemma parse_value_returns fa (raw : bytes) (ftype : str) (dec : N) :
  exists v, V2_2._parse_dbf_value fa raw ftype dec = Ok v.
Proof.
  unfold V2_2._parse_dbf_value.
  repeat match goal with
         | |- exists v, (if ?c then _ else _) = Ok v => destruct c
         | |- exists v, Ok ?x = Ok v => exists x; reflexivity
         | |- exists v, try_except _ _ = Ok v =>
             apply try_except_returns; intros e
         end.
Qed.

Lemma decode_fields_returns fa (rec : bytes) (fields : list field) :
  forall offset row, exists row', V2_2.decode_fields fa rec fields offset row = Ok row'.
Proof.
  induction fields as [|[[[name ftype] flen] fdec] fields IH]; intros offset row.
  - exists row. reflexivity.
  - cbn [V2_2.decode_fields].
    destruct (parse_value_returns fa (slice offset (offset + N.to_nat flen) rec) ftype fdec)
      as [v ->].
    cbn [bind]. apply IH.
Qed.

Lemma parse_header_too_short (dbf : bytes) :
  (length dbf < 32)%nat ->
  V2_2._parse_dbf_header_and_fields (open_rb dbf) = Some (Raise too_short).
Proof.
  intros Hlen. unfold V2_2._parse_dbf_header_and_fields, read, open_rb.
  cbn [pos contents]. rewrite drop_0, length_take.
  destruct (Nat.ltb_spec (32 `min` length dbf) 32) as [_|Hge]; [reflexivity | lia].
Qed.

Lemma read_descriptors_eof (descs : list bytes) (tail : bytes) :
  Forall descriptor_block descs -> (length tail < 32)%nat ->
  forall fuel f acc,
    drop (pos f) (contents f) = concat descs ++ tail ->
    (length descs < fuel)%nat ->
    V2_2.read_descriptors fuel f acc = Some (Raise unexpected_eof).
Proof.
  intros Hdescs Htail.
  induction Hdescs as [|d descs Hd _ IH]; intros fuel f acc Hdrop Hfuel.
  - destruct fuel as [|fuel]; [lia|]. simpl in Hdrop.
    cbn [V2_2.read_descriptors]. unfold read. rewrite Hdrop.
    rewrite take_ge by lia.
    assert (Hc : is_empty tail || (length tail <? 32)%nat = true).
    { apply orb_true_iff. right. apply Nat.ltb_lt. exact Htail. }
    rewrite Hc. reflexivity.
  - destruct fuel as [|fuel]; [lia|].
    simpl in Hdrop. rewrite <- app_assoc in Hdrop.
    cbn [V2_2.read_descriptors].
    rewrite (read_block f d _ 32 Hdrop (proj1 Hd)).
    rewrite (block_not_empty d (proj1 Hd)).
    destruct (descriptor_first d Hd) as (d0 & -> & ->).
    rewrite (descriptor_chain d (proj1 Hd)). cbv iota beta.
    apply IH.
    + cbn [contents pos]. apply (drop_after_block f d _ 32 Hdrop (proj1 Hd)).
    + simpl in Hfuel. lia.
Qed.

Lemma parse_header_eof (hdr : bytes) (descs : list bytes) (tail : bytes) :
  length hdr = 32%nat -> Forall descriptor_block descs -> (length tail < 32)%nat ->
  V2_2._parse_dbf_header_and_fields (open_rb (hdr ++ concat descs ++ tail))
  = Some (Raise unexpected_eof).
Proof.
  intros Hhdr Hdescs Htail.
  unfold V2_2._parse_dbf_header_and_fields.
  rewrite (read_block (open_rb (hdr ++ concat descs ++ tail)) hdr
             (concat descs ++ tail) 32 eq_refl Hhdr).
  rewrite Hhdr. simpl (32 <? 32)%nat. cbv iota.
  destruct (header_numbers hdr Hhdr) as (-> & -> & ->). cbn [bind]. cbv iota beta.
  rewrite (read_descriptors_eof descs tail Hdescs Htail); [reflexivity| |].
  - cbn [pos contents open_rb].
    rewrite drop_app_length' by (rewrite Hhdr; reflexivity). reflexivity.
  - unfold V2_2._parse_dbf_header_fuel. cbn [contents open_rb].
    rewrite !length_app. pose proof (length_concat_blocks descs Hdescs). lia.
Qed.

Lemma dbf_to_csv_header_error fa (csv_before : option bytes) (dbf : bytes) (e : exn) :
  exists_nonempty csv_before = false ->
  V2_2._parse_dbf_header_and_fields (open_rb dbf) = Some (Raise e) ->
  V2_2.dbf_to_csv fa csv_before dbf = Some (Raise e).
Proof.
  intros Hcsv Hparse. unfold V2_2.dbf_to_csv. rewrite Hcsv, Hparse. reflexivity.
Qed.

(** C6. Decoding one field value returns a value for all field bytes, every
    type code and every decimal count, and so does decoding all the fields of
    a record.  A file of fewer than 32 bytes, and a file whose descriptor
    blocks are followed by fewer than 32 bytes instead of a terminator block,
    make [_parse_dbf_header_and_fields] raise [ValueError], which ends
    [dbf_to_csv] for the whole file. *)
Theorem C6_field_fallback_file_fatal (fa : str -> bool) :
  (forall raw ftype dec, exists v, V2_2._parse_dbf_value fa raw ftype dec = Ok v) /\
  (forall rec fields, exists row, V2_2.decode_fields fa rec fields 1 ∅ = Ok row) /\
  (forall csv_before dbf,
     exists_nonempty csv_before = false -> (length dbf < 32)%nat ->
     V2_2._parse_dbf_header_and_fields (open_rb dbf) = Some (Raise too_short) /\
     V2_2.dbf_to_csv fa csv_before dbf = Some (Raise too_short)) /\
  (forall csv_before hdr descs tail,
     exists_nonempty csv_before = false ->
     length hdr = 32%nat -> Forall descriptor_block descs -> (length tail < 32)%nat ->
     V2_2._parse_dbf_header_and_fields (open_rb (hdr ++ concat descs ++ tail))
       = Some (Raise unexpected_eof) /\
     V2_2.dbf_to_csv fa csv_before (hdr ++ concat descs ++ tail)
       = Some (Raise unexpected_eof)).
Proof.
  split; [apply parse_value_returns|].
  split; [intros rec fields; apply decode_fields_returns|].
  split.
  - intros csv_before dbf Hcsv Hlen.
    pose proof (parse_header_too_short dbf Hlen) as H.
    split; [exact H | apply dbf_to_csv_header_error; assumption].
  - intros csv_before hdr descs tail Hcsv Hhdr Hdescs Htail.
    pose proof (parse_header_eof hdr descs tail Hhdr Hdescs Htail) as H.
    split; [exact H | apply dbf_to_csv_header_error; assumption].
Qed.

Lemma C6_witness :
  (exists v, V2_2._parse_dbf_value sample_float_accepts (B "12x") (U "N") 0 = Ok v) /\
  (exists_nonempty None = false /\ (length (B "too short") < 32)%nat /\
   V2_2.dbf_to_csv sample_float_accepts None (B "too short") = Some (Raise too_short)) /\
  (exists_nonempty None = false /\ length sample_header = 32%nat /\
   Forall descriptor_block sample_descriptors /\ (length (B "NAME") < 32)%nat /\
   V2_2.dbf_to_csv sample_float_accepts None
     (sample_header ++ concat sample_descriptors ++ B "NAME")
   = Some (Raise unexpected_eof)).
Proof.
  destruct (C6_field_fallback_file_fatal sample_float_accepts) as (Hv & _ & Hs & He).
  assert (H1 : (length (B "too short") < 32)%nat) by (vm_compute; lia).
  assert (H2 : Forall descriptor_block sample_descriptors).
  { repeat constructor. vm_compute. discriminate. }
  assert (H3 : (length (B "NAME") < 32)%nat) by (vm_compute; lia).
  split; [apply Hv|]. split.
  - split; [reflexivity|]. split; [exact H1|].
    apply (Hs None (B "too short") eq_refl H1).
  - split; [reflexivity|]. split; [reflexivity|]. split; [exact H2|].
    split; [exact H3|].
    apply (He None sample_header sample_descriptors (B "NAME") eq_refl eq_refl H2 H3).
Defined.

(** ** Decoding the record area *)

Lemma deleted_flag (rec : bytes) :
  seq_eqb Byte.eqb (slice 0 1 rec) (B "*") = deleted rec.
Proof.
  destruct rec as [|c rec]; [reflexivity|].
  unfold slice. cbn [Nat.sub drop take firstn skipn].
  change (B "*") with [x2a]. cbn [seq_eqb deleted].
  rewrite take_0. apply andb_true_r.
Qed.

Lemma live_length (recs : list bytes) :
  length (live recs) = (length recs - count_deleted recs)%nat.
Proof.
  unfold live, count_deleted.
  induction recs as [|r recs IH]; [reflexivity|].
  cbn [List.filter]. pose proof (filter_length_le deleted recs).
  destruct (deleted r); cbn [negb length]; lia.
Qed.

Lemma full_record_not_short (r : bytes) (rlen : nat) :
  (0 < rlen)%nat -> length r = rlen ->
  is_empty r || (length r <? rlen)%nat = false.
Proof.
  intros Hpos Hlen. destruct r as [|c r]; [simpl in Hlen; lia|].
  rewrite Hlen. cbn [is_empty orb]. apply Nat.ltb_irrefl.
Qed.

Lemma short_tail_stops (tail : bytes) (rlen : nat) (f : file) :
  drop (pos f) (contents f) = tail -> (length tail < rlen)%nat ->
  exists f1, read rlen f = (tail, f1) /\
             is_empty tail || (length tail <? rlen)%nat = true.
Proof.
  intros Hdrop Hlen. unfold read. rewrite Hdrop, take_ge by lia.
  eexists. split; [reflexivity|].
  apply orb_true_iff. right. apply Nat.ltb_lt. exact Hlen.
Qed.

(** The record loop of v2.2 on a record area made of complete records
    followed by less than one record. *)
Lemma decode_records_complete fa (rlen : nat) (fields : list field) :
  (0 < rlen)%nat ->
  forall n recs tail f,
    Forall (fun r => length r = rlen) recs ->
    drop (pos f) (contents f) = concat recs ++ tail ->
    (n <= length recs)%nat \/ (length tail < rlen)%nat ->
    exists rows,
      V2_2.decode_records fa n rlen fields f = Ok rows /\
      Forall2 (fun r row => V2_2.decode_fields fa r fields 1 ∅ = Ok row)
              (live (take n recs)) rows.
Proof.
  intros Hpos. induction n as [|n IH]; intros recs tail f Hrecs Hdrop Hn.
  - exists []. split; [reflexivity | constructor].
  - cbn [V2_2.decode_records]. destruct Hrecs as [|r recs Hr Hrecs].
    + destruct Hn as [Hn | Hn]; [simpl in Hn; lia|].
      destruct (short_tail_stops tail rlen f Hdrop Hn) as (f1 & -> & ->).
      exists []. split; [reflexivity | constructor].
    + simpl in Hdrop. rewrite <- app_assoc in Hdrop.
      rewrite (read_block f r _ rlen Hdrop Hr).
      rewrite (full_record_not_short r rlen Hpos Hr), deleted_flag.
      destruct (IH recs tail (mkfile (contents f) (pos f + rlen)) Hrecs) as (rows & Hrows & Hall).
      { cbn [contents pos]. apply (drop_after_block f r _ rlen Hdrop Hr). }
      { destruct Hn as [Hn | Hn]; [left; simpl in Hn; lia | right; exact Hn]. }
      unfold live. cbn [take firstn List.filter].
      destruct (deleted r); cbn [negb].
      * exists rows. split; assumption.
      * destruct (decode_fields_returns fa r fields 1 ∅) as [row Hrow].
        exists (row :: rows). rewrite Hrow, Hrows. split; [reflexivity|].
        constructor; assumption.
Qed.

(** The record loop of v2.4 when the record area holds every announced
    record. *)
Lemma decode_records_complete_v24 (rlen : nat) (fields : list field) :
  forall n recs tail f,
    Forall (fun r => length r = rlen) recs ->
    drop (pos f) (contents f) = concat recs ++ tail ->
    (n <= length recs)%nat ->
    V2_4.decode_records n rlen fields f =
    map (fun r => V2_4.decode_fields r fields 1 ∅) (live (take n recs)).
Proof.
  induction n as [|n IH]; intros recs tail f Hrecs Hdrop Hn; [reflexivity|].
  destruct Hrecs as [|r recs Hr Hrecs]; [simpl in Hn; lia|].
  simpl in Hdrop. rewrite <- app_assoc in Hdrop.
  cbn [V2_4.decode_records].
  rewrite (read_block f r _ rlen Hdrop Hr), deleted_flag.
  unfold live. cbn [take firstn List.filter].
  rewrite (IH recs tail (mkfile (contents f) (pos f + rlen)) Hrecs).
  - destruct (deleted r); reflexivity.
  - cbn [contents pos]. apply (drop_after_block f r _ rlen Hdrop Hr).
  - simpl in Hn. lia.
Qed.

(** C2, as the code has it.  Take a file positioned at its record area,
    which holds the complete records [recs] and then less than one record.
    When the header announces at least as many records as are there, v2.2
    emits one row per record that is not marked deleted, in order: [N - D]
    rows.  When the header announces exactly as many, so does v2.4. *)
Theorem C2_rows_of_live_records fa (nrec rlen : nat) (fields : list field)
    (f : file) (recs : list bytes) (tail : bytes) :
  (0 < rlen)%nat ->
  Forall (fun r => length r = rlen) recs ->
  drop (pos f) (contents f) = concat recs ++ tail ->
  (length tail < rlen)%nat ->
  ((length recs <= nrec)%nat ->
   exists rows,
     V2_2.decode_records fa nrec rlen fields f = Ok rows /\
     length rows = (length recs - count_deleted recs)%nat /\
     Forall2 (fun r row => V2_2.decode_fields fa r fields 1 ∅ = Ok row)
             (live recs) rows) /\
  (nrec = length recs ->
   length (V2_4.decode_records nrec rlen fields f)
     = (length recs - count_deleted recs)%nat /\
   V2_4.decode_records nrec rlen fields f =
     map (fun r => V2_4.decode_fields r fields 1 ∅) (live recs)).
Proof.
  intros Hpos Hrecs Hdrop Htail. split.
  - intros Hn.
    destruct (decode_records_complete fa rlen fields Hpos nrec recs tail f Hrecs Hdrop)
      as (rows & Hrows & Hall); [right; exact Htail|].
    rewrite take_ge in Hall by exact Hn.
    exists rows. split; [exact Hrows|]. split; [|exact Hall].
    rewrite <- live_length. symmetry. apply (Forall2_length _ _ _ Hall).
  - intros ->.
    rewrite (decode_records_complete_v24 rlen fields (length recs) recs tail f Hrecs Hdrop)
      by lia.
    rewrite take_ge by lia. split; [|reflexivity].
    rewrite length_map. apply live_length.
Qed.

Lemma C2_witness :
  (0 < 3)%nat /\
  Forall (fun r => length r = 3%nat) sample_records /\
  drop (pos (mkfile sample_table 96)) (contents (mkfile sample_table 96))
    = concat sample_records ++ [] /\
  (length (@nil byte) < 3)%nat /\
  (exists rows,
     V2_2.decode_records sample_float_accepts 3 3 [(U "PID", U "C", 2, 0)]
       (mkfile sample_table 96) = Ok rows /\
     length rows = (length sample_records - count_deleted sample_records)%nat /\
     Forall2 (fun r row =>
                V2_2.decode_fields sample_float_accepts r [(U "PID", U "C", 2, 0)] 1 ∅
                = Ok row)
             (live sample_records) rows) /\
  length (V2_4.decode_records 3 3 [(U "PID", U "C", 2, 0)] (mkfile sample_table 96))
    = (length sample_records - count_deleted sample_records)%nat.
Proof.
  assert (H1 : (0 < 3)%nat) by lia.
  assert (H2 : Forall (fun r => length r = 3%nat) sample_records)
    by (repeat constructor).
  assert (H3 : drop (pos (mkfile sample_table 96)) (contents (mkfile sample_table 96))
               = concat sample_records ++ []) by reflexivity.
  assert (H4 : (length (@nil byte) < 3)%nat) by (simpl; lia).
  destruct (C2_rows_of_live_records sample_float_accepts 3 3 [(U "PID", U "C", 2, 0)]
              (mkfile sample_table 96) sample_records [] H1 H2 H3 H4) as [H22 H24].
  split; [exact H1|]. split; [exact H2|]. split; [exact H3|]. split; [exact H4|].
  split; [apply H22; simpl; lia | apply H24; reflexivity].
Defined.

(** The sample table through both versions of [dbf_to_csv]. *)
Example sample_table_v22 :
  V2_2.dbf_to_csv sample_float_accepts None sample_table =
  Some (Ok (Written [U "PID"]
              [ {[ U "PID" := VStr (U "AB") ]}; {[ U "PID" := VStr (U "EF") ]} ])).
Proof. vm_compute. reflexivity. Qed.

Example sample_table_v24 :
  V2_4.dbf_to_csv sample_table =
  Some (Ok (Written [U "PID"] [ {[ U "PID" := U "AB" ]}; {[ U "PID" := U "EF" ]} ])).
Proof. vm_compute. reflexivity. Qed.

(** C2 as stated fails on the code: the record area of [undercounted_table]
    holds two complete records, none of them marked deleted, and both
    versions emit one row, because the header announces one record. *)
Lemma C2_counterexample :
  drop 96 undercounted_table = concat [B " AB"; B " EF"] /\
  count_deleted [B " AB"; B " EF"] = 0%nat /\
  V2_2.dbf_to_csv sample_float_accepts None undercounted_table =
    Some (Ok (Written [U "PID"] [ {[ U "PID" := VStr (U "AB") ]} ])) /\
  V2_4.dbf_to_csv undercounted_table =
    Some (Ok (Written [U "PID"] [ {[ U "PID" := U "AB" ]} ])) /\
  length [ ({[ U "PID" := U "AB" ]} : gmap str str) ] <> (2 - 0)%nat.
Proof.
  split; [reflexivity|]. split; [reflexivity|].
  split; [vm_compute; reflexivity|]. split; [vm_compute; reflexivity|].
  simpl. lia.
Qed.

(** A read that is not short returns exactly the bytes asked for and leaves
    that many fewer bytes in the file. *)
Lemma read_full (rlen : nat) (f : file) :
  is_empty (fst (read rlen f)) || (length (fst (read rlen f)) <? rlen)%nat = false ->
  (0 < rlen)%nat /\ remaining (snd (read rlen f)) = (remaining f - rlen)%nat /\
  (rlen <= remaining f)%nat.
Proof.
  unfold read, remaining. cbn [fst snd contents pos].
  intros H. apply orb_false_iff in H as [Hne Hlen].
  apply Nat.ltb_ge in Hlen. rewrite length_take, length_drop in *.
  destruct (take rlen (drop (pos f) (contents f))) eqn:Ht; [discriminate|].
  split; [|lia].
  destruct rlen; [|lia]. rewrite take_0 in Ht. discriminate.
Qed.

(** The record loop of v2.2 never raises, and emits no more rows than there
    are complete records between the read position and the end of the
    file. *)
Lemma decode_records_bounded fa (rlen : nat) (fields : list field) :
  forall n f,
    exists rows,
      V2_2.decode_records fa n rlen fields f = Ok rows /\
      (length rows * rlen <= remaining f)%nat /\
      (rlen = 0%nat -> rows = []).
Proof.
  induction n as [|n IH]; intros f.
  - exists []. repeat split; simpl; lia.
  - cbn [V2_2.decode_records].
    pose proof (read_full rlen f) as Hfull.
    destruct (read rlen f) as [rec f1]. cbn [fst snd] in Hfull.
    destruct (is_empty rec || (length rec <? rlen)%nat).
    + exists []. repeat split; simpl; lia.
    + destruct (Hfull eq_refl) as (Hpos & Hrem & Hle).
      destruct (IH f1) as (rows & Hrows & Hbound & _).
      destruct (seq_eqb Byte.eqb (slice 0 1 rec) (B "*")).
      * exists rows. split; [exact Hrows|]. split; lia.
      * destruct (decode_fields_returns fa rec fields 1 ∅) as [row Hrow].
        exists (row :: rows). rewrite Hrow, Hrows.
        split; [reflexivity|]. split; [simpl; lia | lia].
Qed.

Lemma decode_records_short_read fa (n rlen : nat) (fields : list field) (f : file) :
  (length (fst (read rlen f)) < rlen)%nat ->
  V2_2.decode_records fa (S n) rlen fields f = Ok [].
Proof.
  intros Hshort. cbn [V2_2.decode_records].
  destruct (read rlen f) as [rec f1]. cbn [fst] in Hshort.
  apply Nat.ltb_lt in Hshort. rewrite Hshort, orb_true_r. reflexivity.
Qed.

(** What a read leaves in the file. *)
Lemma read_remaining (n : nat) (f : file) :
  contents (snd (read n f)) = contents f /\
  remaining (snd (read n f)) = (remaining f - length (fst (read n f)))%nat /\
  (length (fst (read n f)) <= remaining f)%nat.
Proof.
  unfold read, remaining. cbn [fst snd contents pos].
  rewrite length_take, length_drop. split; [reflexivity|]. split; lia.
Qed.

(** The descriptor loops return: every round that goes on has consumed
    input. *)
Lemma read_descriptors_returns_v22 (fuel : nat) :
  forall f acc, (remaining f < 32 * fuel)%nat ->
                V2_2.read_descriptors fuel f acc <> None.
Proof.
  induction fuel as [|fuel IH]; intros f acc Hrem; [lia|].
  cbn [V2_2.read_descriptors].
  pose proof (read_full 32 f) as Hfull.
  destruct (read 32 f) as [desc f1]. cbn [fst snd] in Hfull.
  destruct (is_empty desc || (length desc <? 32)%nat); [discriminate|].
  destruct (Hfull eq_refl) as (_ & Hrem1 & Hle).
  destruct (index 0 desc) as [d0|e]; [|discriminate].
  destruct (d0 =? 13); [discriminate|].
  destruct (let* t := index 11 desc in _) as [fd|e]; [|discriminate].
  apply IH. lia.
Qed.

Lemma read_descriptors_returns_v24 (fuel : nat) :
  forall f acc, (remaining f < fuel)%nat ->
                V2_4.read_descriptors fuel f acc <> None.
Proof.
  induction fuel as [|fuel IH]; intros f acc Hrem; [lia|].
  cbn [V2_4.read_descriptors].
  pose proof (read_remaining 32 f) as (_ & Hrem1 & Hle).
  destruct (read 32 f) as [d f1]. cbn [fst snd] in Hrem1, Hle.
  destruct (index 0 d) as [d0|e] eqn:H0; [|discriminate].
  destruct (d0 =? 13); [discriminate|].
  destruct (let* t := index 11 d in _) as [fd|e]; [|discriminate].
  apply IH. destruct d as [|c d]; [discriminate H0|]. simpl in *. lia.
Qed.

Lemma parse_header_returns_v22 (f : file) : V2_2._parse_dbf_header_and_fields f <> None.
Proof.
  unfold V2_2._parse_dbf_header_and_fields, V2_2._parse_dbf_header_fuel.
  pose proof (read_remaining 32 f) as (Hc & _ & _).
  destruct (read 32 f) as [header f1]. cbn [snd] in Hc.
  destruct (length header <? 32)%nat; [discriminate|].
  destruct (let* n := struct_unpack_le 4 (slice 4 8 header) in _) as [[[n h] l]|e];
    [|discriminate].
  pose proof (read_descriptors_returns_v22 (S (length (contents f))) f1 []) as Hloop.
  destruct (V2_2.read_descriptors _ f1 []) as [[[fields f2]|e]|]; try discriminate.
  exfalso. apply Hloop; [|reflexivity]. unfold remaining. rewrite Hc. lia.
Qed.

Lemma parse_header_returns_v24 (f : file) : V2_4._parse_dbf_header_and_fields f <> None.
Proof.
  unfold V2_4._parse_dbf_header_and_fields, V2_4._parse_dbf_header_fuel.
  pose proof (read_remaining 32 f) as (Hc & _ & _).
  destruct (read 32 f) as [h f1]. cbn [snd] in Hc.
  destruct (let* n := struct_unpack_le 4 (slice 4 8 h) in _) as [[[n hl] l]|e];
    [|discriminate].
  pose proof (read_descriptors_returns_v24 (S (length (contents f))) f1 []) as Hloop.
  destruct (V2_4.read_descriptors _ f1 []) as [[[fields f2]|e]|]; try discriminate.
  exfalso. apply Hloop; [|reflexivity]. unfold remaining. rewrite Hc. lia.
Qed.

(** [dbf_to_csv] returns or raises on every file, in both versions. *)
Lemma dbf_to_csv_returns fa (csv_before : option bytes) (dbf : bytes) :
  V2_2.dbf_to_csv fa csv_before dbf <> None /\ V2_4.dbf_to_csv dbf <> None.
Proof.
  split.
  - unfold V2_2.dbf_to_csv. destruct (exists_nonempty csv_before); [discriminate|].
    pose proof (parse_header_returns_v22 (open_rb dbf)) as Hp.
    destruct (V2_2._parse_dbf_header_and_fields (open_rb dbf))
      as [[[[[nrec rlen] fields] f]|e]|]; [|discriminate|congruence].
    destruct (V2_2.decode_records fa _ _ fields f); discriminate.
  - unfold V2_4.dbf_to_csv.
    pose proof (parse_header_returns_v24 (open_rb dbf)) as Hp.
    destruct (V2_4._parse_dbf_header_and_fields (open_rb dbf))
      as [[[[[nrec rlen] fields] f]|e]|]; [discriminate|discriminate|congruence].
Qed.

(** C7.  In v2.2 a read that returns fewer than [record_len] bytes ends the
    loop with no row and no error.  Hence, on every file, [dbf_to_csv] of
    v2.2 either fails on the header, or writes at most as many rows as there
    are complete records between the end of the header and the end of the
    file, whatever record count the header announces.  v2.4 has no such test:
    on [truncated_table], whose header announces one record and whose record
    area is empty, v2.2 writes no row and v2.4 writes one row, of an empty
    value. *)
Theorem C7_truncated_record_area fa :
  (forall n rlen fields f,
     (length (fst (read rlen f)) < rlen)%nat ->
     V2_2.decode_records fa (S n) rlen fields f = Ok []) /\
  (forall csv_before dbf,
     exists_nonempty csv_before = false ->
     (exists e,
        V2_2._parse_dbf_header_and_fields (open_rb dbf) = Some (Raise e) /\
        V2_2.dbf_to_csv fa csv_before dbf = Some (Raise e)) \/
     (exists nrec rlen fields f rows,
        V2_2._parse_dbf_header_and_fields (open_rb dbf)
          = Some (Ok (nrec, rlen, fields, f)) /\
        V2_2.dbf_to_csv fa csv_before dbf
          = Some (Ok (Written (map field_name fields) rows)) /\
        (length rows * N.to_nat rlen <= remaining f)%nat /\
        (rlen = 0 -> rows = []))) /\
  V2_2.dbf_to_csv fa None truncated_table = Some (Ok (Written [U "PID"] [])) /\
  V2_4.dbf_to_csv truncated_table
    = Some (Ok (Written [U "PID"] [ {[ U "PID" := [] ]} ])) /\
  remaining (mkfile truncated_table 96) = 0%nat.
Proof.
  split; [intros n rlen fields f; apply decode_records_short_read|].
  split.
  - intros csv_before dbf Hcsv.
    pose proof (parse_header_returns_v22 (open_rb dbf)) as Hp.
    unfold V2_2.dbf_to_csv. rewrite Hcsv.
    destruct (V2_2._parse_dbf_header_and_fields (open_rb dbf))
      as [[[[[nrec rlen] fields] f]|e]|]; [|left; eauto|congruence].
    right.
    destruct (decode_records_bounded fa (N.to_nat rlen) fields (N.to_nat nrec) f)
      as (rows & -> & Hbound & Hzero).
    exists nrec, rlen, fields, f, rows. split; [reflexivity|]. split; [reflexivity|].
    split; [exact Hbound|]. intros ->. apply Hzero. reflexivity.
  - split; [vm_compute; reflexivity|]. split; [vm_compute; reflexivity|]. reflexivity.
Qed.

Lemma C7_witness :
  (length (fst (read 3 (mkfile truncated_table 96))) < 3)%nat /\
  V2_2.decode_records sample_float_accepts 1 3 [(U "PID", U "C", 2, 0)]
    (mkfile truncated_table 96) = Ok [] /\
  exists_nonempty None = false /\
  exists nrec rlen fields f rows,
    V2_2._parse_dbf_header_and_fields (open_rb sample_table)
      = Some (Ok (nrec, rlen, fields, f)) /\
    V2_2.dbf_to_csv sample_float_accepts None sample_table
      = Some (Ok (Written (map field_name fields) rows)) /\
    (length rows * N.to_nat rlen <= remaining f)%nat /\
    (rlen = 0 -> rows = []).
Proof.
  destruct (C7_truncated_record_area sample_float_accepts) as (Hshort & Hbound & _).
  assert (H1 : (length (fst (read 3 (mkfile truncated_table 96))) < 3)%nat)
    by (vm_compute; lia).
  split; [exact H1|]. split; [apply (Hshort 0%nat 3%nat _ _ H1)|].
  split; [reflexivity|].
  destruct (Hbound None sample_table eq_refl) as [(e & He & _) | H]; [|exact H].
  vm_compute in He. discriminate He.
Defined.

(** ** Cleaning a value *)

Section Strip.
Context {A : Type} (sp : A -> bool).

Lemma lstrip_by_nil_iff (l : list A) :
  lstrip_by sp l = [] <-> forallb sp l = true.
Proof.
  induction l as [|x l IH]; simpl; [tauto|].
  destruct (sp x); simpl; [exact IH|]. split; discriminate.
Qed.

Lemma lstrip_by_snoc (l : list A) (x : A) :
  lstrip_by sp (l ++ [x]) =
  if forallb sp l then (if sp x then [] else [x]) else lstrip_by sp l ++ [x].
Proof.
  induction l as [|y l IH]; simpl.
  - destruct (sp x); reflexivity.
  - destruct (sp y); simpl; [exact IH | reflexivity].
Qed.

Lemma rstrip_by_cons (x : A) (l : list A) :
  rstrip_by sp (x :: l) =
  match rstrip_by sp l with
  | [] => if sp x then [] else [x]
  | r => x :: r
  end.
Proof.
  unfold rstrip_by. simpl rev. rewrite lstrip_by_snoc.
  destruct (forallb sp (rev l)) eqn:Hall.
  - apply lstrip_by_nil_iff in Hall. rewrite Hall. simpl.
    destruct (sp x); reflexivity.
  - rewrite rev_app_distr. simpl.
    destruct (lstrip_by sp (rev l)) as [|y r] eqn:Hl.
    + apply lstrip_by_nil_iff in Hl. congruence.
    + destruct (rev (y :: r)) eqn:Hr; [|reflexivity].
      apply (f_equal (@length A)) in Hr. rewrite length_rev in Hr. discriminate.
Qed.

Lemma rstrip_by_nil : rstrip_by sp [] = [].
Proof. reflexivity. Qed.

Lemma rstrip_by_cons_keep (x : A) (l : list A) :
  sp x = false -> rstrip_by sp (x :: l) = x :: rstrip_by sp l.
Proof.
  intros Hx. rewrite rstrip_by_cons, Hx. destruct (rstrip_by sp l); reflexivity.
Qed.

Lemma rstrip_by_all_space (l : list A) :
  forallb sp (rstrip_by sp l) = true -> rstrip_by sp l = [].
Proof.
  induction l as [|x l IH]; [reflexivity|].
  rewrite rstrip_by_cons.
  destruct (rstrip_by sp l) as [|y r].
  - destruct (sp x) eqn:Hx; [reflexivity|]. simpl. rewrite Hx. discriminate.
  - intros H. simpl in H. apply andb_true_iff in H as [_ H].
    specialize (IH H). discriminate.
Qed.

Lemma lstrip_by_head (l : list A) (c : A) :
  head (lstrip_by sp l) = Some c -> sp c = false.
Proof.
  induction l as [|x l IH]; simpl; [discriminate|].
  destruct (sp x) eqn:Hx; [exact IH|]. simpl. congruence.
Qed.

Lemma rstrip_by_last (l : list A) (c : A) :
  last (rstrip_by sp l) = Some c -> sp c = false.
Proof.
  induction l as [|x l IH]; [discriminate|].
  rewrite rstrip_by_cons.
  destruct (rstrip_by sp l) as [|y r].
  - destruct (sp x) eqn:Hx; simpl; [discriminate | congruence].
  - exact IH.
Qed.

Lemma rstrip_by_head (l : list A) (c : A) :
  (forall x, head l = Some x -> sp x = false) ->
  head (rstrip_by sp l) = Some c -> sp c = false.
Proof.
  destruct l as [|x l]; [discriminate|].
  intros Hh. rewrite rstrip_by_cons_keep by (apply Hh; reflexivity).
  simpl. intros [= <-]. apply Hh. reflexivity.
Qed.

Lemma lstrip_by_In (l : list A) (c : A) : In c (lstrip_by sp l) -> In c l.
Proof.
  induction l as [|x l IH]; simpl; [tauto|].
  destruct (sp x); simpl; tauto.
Qed.

Lemma rstrip_by_In (l : list A) (c : A) : In c (rstrip_by sp l) -> In c l.
Proof.
  unfold rstrip_by. rewrite <- in_rev. intros H%lstrip_by_In.
  apply in_rev. exact H.
Qed.
End Strip.

Lemma ws_sub_cons (in_run : bool) (c : char) (r : str) :
  ws_sub in_run (c :: r) =
  if isspace c
  then (if in_run then ws_sub true r else space :: ws_sub true r)
  else c :: ws_sub false r.
Proof. reflexivity. Qed.

Lemma ws_sub_nil (s : str) (in_run : bool) :
  ws_sub in_run s = [] -> forallb isspace s = true.
Proof.
  revert in_run. induction s as [|c r IH]; intros in_run; [reflexivity|].
  simpl. destruct (isspace c); [|discriminate].
  destruct in_run; [apply IH | discriminate].
Qed.

Lemma lstrip_ws_sub (s : str) :
  forall in_run, lstrip (ws_sub in_run s) = ws_sub false (lstrip s).
Proof.
  unfold lstrip. induction s as [|c r IH]; intros in_run; [reflexivity|].
  cbn [ws_sub lstrip_by]. destruct (isspace c) eqn:Hc.
  - destruct in_run; [apply IH|].
    cbn [lstrip_by]. change (isspace space) with true. cbv iota. apply IH.
  - cbn [lstrip_by ws_sub]. rewrite Hc. reflexivity.
Qed.

Lemma rstrip_ws_sub (s : str) :
  forall in_run, rstrip (ws_sub in_run s) = ws_sub in_run (rstrip s).
Proof.
  unfold rstrip. induction s as [|c r IH]; intros in_run; [reflexivity|].
  cbn [ws_sub]. destruct (isspace c) eqn:Hc.
  - rewrite (rstrip_by_cons isspace c r), Hc.
    destruct in_run.
    + rewrite IH. destruct (rstrip_by isspace r) as [|y r'] eqn:Hr; [reflexivity|].
      rewrite (ws_sub_cons true c (y :: r')), Hc. reflexivity.
    + rewrite (rstrip_by_cons isspace space). change (isspace space) with true.
      rewrite IH. destruct (rstrip_by isspace r) as [|y r'] eqn:Hr; [reflexivity|].
      destruct (ws_sub true (y :: r')) eqn:Hw.
      * apply ws_sub_nil in Hw. rewrite <- Hr in Hw.
        apply rstrip_by_all_space in Hw. congruence.
      * rewrite (ws_sub_cons false c (y :: r')), Hc, Hw. reflexivity.
  - rewrite !rstrip_by_cons_keep by assumption.
    rewrite ws_sub_cons, Hc, IH. reflexivity.
Qed.

(** Collapsing and trimming can be done in either order. *)
Lemma ws_sub_strip (s : str) : _WS_RE_sub (strip s) = strip (_WS_RE_sub s).
Proof.
  unfold _WS_RE_sub, strip, strip_by.
  change (rstrip_by isspace) with rstrip. change (lstrip_by isspace) with lstrip.
  rewrite <- rstrip_ws_sub, (lstrip_ws_sub s false). reflexivity.
Qed.

Lemma ws_sub_In (s : str) (c : char) :
  forall in_run, In c (ws_sub in_run s) -> In c s \/ c = space.
Proof.
  induction s as [|x r IH]; intros in_run; simpl; [tauto|].
  destruct (isspace x).
  - destruct in_run; simpl; intros H.
    + destruct (IH _ H); tauto.
    + destruct H as [<- | H]; [tauto|]. destruct (IH _ H); tauto.
  - simpl. intros [<- | H]; [tauto|]. destruct (IH _ H); tauto.
Qed.

Lemma ws_sub_spaces (s : str) (c : char) :
  forall in_run, In c (ws_sub in_run s) -> isspace c = true -> c = space.
Proof.
  induction s as [|x r IH]; intros in_run; simpl; [tauto|].
  destruct (isspace x) eqn:Hx.
  - destruct in_run; simpl; intros H Hc.
    + apply (IH _ H Hc).
    + destruct H as [<- | H]; [reflexivity | apply (IH _ H Hc)].
  - simpl. intros [<- | H] Hc; [congruence | apply (IH _ H Hc)].
Qed.

Lemma ws_sub_runs (s : str) :
  forall in_run,
    (in_run = true -> forall c, head (ws_sub in_run s) = Some c -> isspace c = false) /\
    (forall c d, adjacent c d (ws_sub in_run s) ->
                 isspace c = true -> isspace d = true -> False).
Proof.
  induction s as [|x r IH]; intros in_run.
  - split; [discriminate|]. intros c d (pre & suf & H). destruct pre; discriminate.
  - cbn [ws_sub]. destruct (isspace x) eqn:Hx.
    + destruct in_run.
      * apply IH.
      * split; [discriminate|].
        intros c d (pre & suf & H) Hc Hd. destruct pre as [|y pre]; simpl in H.
        -- injection H as <- H.
           destruct (IH true) as [Hhead _].
           rewrite (Hhead eq_refl d) in Hd; [discriminate|]. rewrite H. reflexivity.
        -- injection H as _ H. destruct (IH true) as [_ Hadj].
           apply (Hadj c d); [exists pre, suf; exact H | assumption | assumption].
    + split.
      * intros _ c [= <-]. exact Hx.
      * intros c d (pre & suf & H) Hc Hd. destruct pre as [|y pre]; simpl in H.
        -- injection H as <- _. congruence.
        -- injection H as _ H. destruct (IH false) as [_ Hadj].
           apply (Hadj c d); [exists pre, suf; exact H | assumption | assumption].
Qed.

Lemma ws_sub_last (s : str) (c : char) :
  forall in_run, last s = Some c -> isspace c = false ->
                 last (ws_sub in_run s) = Some c.
Proof.
  induction s as [|x r IH]; intros in_run Hl Hc; [discriminate|].
  destruct r as [|y r'].
  - simpl in Hl. injection Hl as ->. simpl. rewrite Hc. reflexivity.
  - change (last (x :: y :: r')) with (last (y :: r')) in Hl.
    rewrite ws_sub_cons.
    assert (Hne : forall b0, exists z l, ws_sub b0 (y :: r') = z :: l /\
                                         last (z :: l) = Some c).
    { intros b0. specialize (IH b0 Hl Hc).
      destruct (ws_sub b0 (y :: r')) as [|z l]; [discriminate|]. eauto. }
    destruct (isspace x).
    + destruct in_run.
      * apply IH; assumption.
      * destruct (Hne true) as (z & l & Hz & Hlast). rewrite Hz. exact Hlast.
    + destruct (Hne false) as (z & l & Hz & Hlast). rewrite Hz. exact Hlast.
Qed.

Lemma remove_all_not_In (c : char) (s : str) : ~ In c (remove_all N.eqb c s).
Proof.
  induction s as [|x r IH]; simpl; [tauto|].
  destruct (N.eqb_spec x c); simpl; [exact IH|].
  intros [-> | H]; tauto.
Qed.

Lemma clean_value_spec (s : str) :
  V2_2._clean_value (Some s) = spec_cleanValue s.
Proof. unfold V2_2._clean_value, spec_cleanValue. apply ws_sub_strip. Qed.

Lemma clean_value_trimmed (s : str) : trimmed (V2_2._clean_value (Some s)).
Proof.
  unfold V2_2._clean_value, _WS_RE_sub, strip, strip_by.
  set (t := remove_all N.eqb dquote s).
  assert (Hhead : forall c, head (rstrip_by isspace (lstrip_by isspace t)) = Some c ->
                            isspace c = false).
  { intros c. apply rstrip_by_head. intros x. apply lstrip_by_head. }
  assert (Hlast : forall c, last (rstrip_by isspace (lstrip_by isspace t)) = Some c ->
                            isspace c = false).
  { intros c. apply rstrip_by_last. }
  destruct (rstrip_by isspace (lstrip_by isspace t)) as [|x r] eqn:Ht.
  - split; discriminate.
  - split.
    + intros c. cbn [ws_sub]. rewrite (Hhead x eq_refl). simpl. intros [= <-].
      apply Hhead. reflexivity.
    + intros c Hc. destruct (last (x :: r)) as [z|] eqn:Hz.
      * rewrite (ws_sub_last (x :: r) z false Hz (Hlast z eq_refl)) in Hc.
        injection Hc as <-. apply Hlast. reflexivity.
      * apply last_None in Hz. discriminate.
Qed.

(** C9. For every text, [_clean_value] of v2.2 and the inline cleaning of
    v2.4 compute the text with its double quotes removed, its runs of white
    space collapsed to one space, and its ends trimmed.  The result holds no
    double quote, no white space other than single spaces, none of them next
    to another or at an end.  [None] is cleaned to the empty text by v2.2.
    The text [  "12  foo"  ] is cleaned to [12 foo]. *)
Theorem C9_clean_value (s : str) (h : str) (row : reader_row) :
  V2_2._clean_value (Some s) = spec_cleanValue s /\
  V2_2.clean_row [h] row !! h
    = Some (V2_2._clean_value (row_get row h)) /\
  V2_4.clean_row [h] row !! h
    = Some (spec_cleanValue (V2_4.py_str (row_get row h))) /\
  ~ In dquote (spec_cleanValue s) /\
  trimmed (spec_cleanValue s) /\
  single_spaced (spec_cleanValue s) /\
  V2_2._clean_value None = [] /\
  V2_2._clean_value (Some cleaning_example) = U "12 foo" /\
  spec_cleanValue cleaning_example = U "12 foo".
Proof.
  split; [apply clean_value_spec|].
  split; [apply lookup_insert_eq|].
  split.
  { unfold V2_4.clean_row. cbn [foldl]. rewrite lookup_insert_eq.
    f_equal. apply ws_sub_strip. }
  split.
  { rewrite <- clean_value_spec. unfold V2_2._clean_value, _WS_RE_sub.
    intros H. apply ws_sub_In in H as [H | H]; [|discriminate].
    apply rstrip_by_In, lstrip_by_In in H. exact (remove_all_not_In _ _ H). }
  split; [rewrite <- clean_value_spec; apply clean_value_trimmed|].
  split.
  { rewrite <- clean_value_spec. unfold V2_2._clean_value, _WS_RE_sub.
    split.
    - intros c. apply ws_sub_spaces.
    - apply ws_sub_runs. }
  repeat split; reflexivity.
Qed.

(** ** Projection onto the canonical field list *)

Section ProjectorFacts.
Variable lower : str -> str.
Hypothesis lower_nil : lower [] = [].
Hypothesis lower_canonical : forall w, w ∈ RELEVANT_FIELDS -> lower w = w.

Lemma header_fold_sound (l : list str) :
  forall (m : gmap str str) k h,
    foldl (insert_header lower) m l !! k = Some h ->
    (h ∈ l /\ lower h = k) \/ m !! k = Some h.
Proof.
  induction l as [|x l IH]; intros m k h Hk; [right; exact Hk|].
  cbn [foldl] in Hk. apply IH in Hk as [[Hin Hl] | Hk].
  - left. split; [apply elem_of_cons; right; exact Hin | exact Hl].
  - unfold insert_header in Hk. rewrite lookup_insert in Hk.
    destruct (decide (lower x = k)) as [Heq | Hne].
    + injection Hk as <-. left. split; [apply elem_of_cons; left; reflexivity | exact Heq].
    + right. exact Hk.
Qed.

Lemma header_fold_keeps (l : list str) :
  forall (m : gmap str str) k, is_Some (m !! k) -> is_Some (foldl (insert_header lower) m l !! k).
Proof.
  induction l as [|x l IH]; intros m k Hk; [exact Hk|].
  cbn [foldl]. apply IH. unfold insert_header. rewrite lookup_insert.
  destruct (decide (lower x = k)); [eauto | exact Hk].
Qed.

Lemma header_fold_complete (l : list str) :
  forall (m : gmap str str) h, h ∈ l -> is_Some (foldl (insert_header lower) m l !! lower h).
Proof.
  induction l as [|x l IH]; intros m h Hin; [apply elem_of_nil in Hin; tauto|].
  cbn [foldl]. apply elem_of_cons in Hin as [-> | Hin].
  - apply header_fold_keeps. unfold insert_header. rewrite lookup_insert_eq. eauto.
  - apply IH. exact Hin.
Qed.

Lemma header_map_fold (fieldnames : list str) :
  V2_2.header_map lower fieldnames = foldl (insert_header lower) ∅ fieldnames.
Proof. reflexivity. Qed.

Lemma header_map_some (fieldnames : list str) (k h : str) :
  V2_2.header_map lower fieldnames !! k = Some h ->
  h ∈ fieldnames /\ lower h = k.
Proof.
  rewrite header_map_fold. intros H.
  apply header_fold_sound in H as [H | H]; [exact H|].
  rewrite lookup_empty in H. discriminate.
Qed.

Lemma header_map_matched (fieldnames : list str) (want : str) :
  matched lower fieldnames want <->
  exists h, V2_2.header_map lower fieldnames !! lower want = Some h.
Proof.
  split.
  - intros (h & Hin & Hl). rewrite <- Hl, header_map_fold.
    destruct (header_fold_complete fieldnames ∅ h Hin) as [h' Hh']. eauto.
  - intros (h & Hh). apply header_map_some in Hh as [Hin Hl]. exists h. auto.
Qed.

Lemma canonical_not_empty (w : str) : w ∈ RELEVANT_FIELDS -> w <> [].
Proof.
  intros Hin ->. unfold RELEVANT_FIELDS in Hin. cbn [map] in Hin.
  repeat (apply elem_of_cons in Hin as [Hin | Hin]; [discriminate Hin|]).
  apply elem_of_nil in Hin. exact Hin.
Qed.

(** What [header_map.get(want.lower())] is, for a canonical [want]: a header
    of the source that is not the empty text, or nothing. *)
Lemma header_map_canonical (fieldnames : list str) (want : str) :
  want ∈ RELEVANT_FIELDS ->
  match V2_2.header_map lower fieldnames !! lower want with
  | Some h => h <> [] /\ h ∈ fieldnames /\ lower h = want /\ matched lower fieldnames want
  | None => ~ matched lower fieldnames want
  end.
Proof.
  intros Hw. destruct (_ !! lower want) as [h|] eqn:Hh.
  - pose proof (proj2 (header_map_matched fieldnames want) (ex_intro _ h Hh)) as Hm.
    apply header_map_some in Hh as [Hin Hl].
    rewrite (lower_canonical want Hw) in Hl.
    split; [|auto]. intros ->. rewrite lower_nil in Hl.
    apply (canonical_not_empty want Hw). congruence.
  - intros Hm. apply header_map_matched in Hm as [h Hm]. congruence.
Qed.

(** The selection loop of v2.2, for any list of wanted canonical names. *)
Lemma select_headers_spec (fieldnames : list str) (wanted : list str) :
  (forall w, w ∈ wanted -> w ∈ RELEVANT_FIELDS) ->
  forall out miss,
    exists sel mis,
      V2_2.select_headers lower (V2_2.header_map lower fieldnames)
        wanted out miss = (out ++ sel, miss ++ mis) /\
      sel = flat_map (fun h => match V2_2.header_map lower fieldnames !! lower h with
                               | Some actual => [actual]
                               | None => []
                               end) wanted /\
      (forall h, h ∈ sel -> h ∈ fieldnames /\ exists w, w ∈ wanted /\ lower h = w) /\
      (forall w, w ∈ wanted -> matched lower fieldnames w -> exists h, h ∈ sel /\ lower h = w) /\
      sublist (lower <$> sel) wanted /\
      (forall w, w ∈ mis <-> w ∈ wanted /\ ~ matched lower fieldnames w).
Proof.
  induction wanted as [|want rest IH]; intros Hcanon out miss.
  - exists [], []. rewrite !app_nil_r. split; [reflexivity|]. split; [reflexivity|].
    split; [intros h Hh; apply elem_of_nil in Hh; tauto|].
    split; [intros w Hw; apply elem_of_nil in Hw; tauto|].
    split; [constructor|].
    intros w. split; [intros Hw; apply elem_of_nil in Hw; tauto|].
    intros [Hw _]. apply elem_of_nil in Hw; tauto.
  - assert (Hwant : want ∈ RELEVANT_FIELDS) by (apply Hcanon, elem_of_cons; auto).
    assert (Hrest : forall w, w ∈ rest -> w ∈ RELEVANT_FIELDS).
    { intros w Hw. apply Hcanon, elem_of_cons. auto. }
    pose proof (header_map_canonical fieldnames want Hwant) as Hm.
    cbn [V2_2.select_headers flat_map].
    destruct (V2_2.header_map lower fieldnames !! lower want) as [h|] eqn:Hh.
    + destruct Hm as (Hne & Hin & Hl & Hmatch).
      destruct h as [|c h']; [congruence|]. cbn [falsy negb default from_option id].
      destruct (IH Hrest (out ++ [c :: h']) miss) as (sel & mis & -> & Hsel & H1 & H2 & H3 & H4).
      exists ((c :: h') :: sel), mis. rewrite <- app_assoc. split; [reflexivity|].
      split; [simpl; congruence|].
      split.
      { intros x Hx. apply elem_of_cons in Hx as [-> | Hx].
        - split; [exact Hin|]. exists want. split; [apply elem_of_cons; auto | exact Hl].
        - destruct (H1 x Hx) as (Hx1 & w & Hw & Hxw). split; [exact Hx1|].
          exists w. split; [apply elem_of_cons; auto | exact Hxw]. }
      split.
      { intros w Hw Hmw. apply elem_of_cons in Hw as [-> | Hw].
        - exists (c :: h'). split; [apply elem_of_cons; auto | exact Hl].
        - destruct (H2 w Hw Hmw) as (x & Hx & Hxw). exists x.
          split; [apply elem_of_cons; auto | exact Hxw]. }
      split.
      { cbn [fmap list_fmap]. rewrite Hl. apply sublist_skip. exact H3. }
      intros w. rewrite H4. split.
      * intros [Hw Hn]. split; [apply elem_of_cons; auto | exact Hn].
      * intros [Hw Hn]. split; [|exact Hn].
        apply elem_of_cons in Hw as [-> | Hw]; [tauto | exact Hw].
    + cbn [falsy negb].
      destruct (IH Hrest out (miss ++ [want])) as (sel & mis & -> & Hsel & H1 & H2 & H3 & H4).
      exists sel, (want :: mis). rewrite <- app_assoc. split; [reflexivity|].
      split; [simpl; congruence|].
      split.
      { intros x Hx. destruct (H1 x Hx) as (Hx1 & w & Hw & Hxw). split; [exact Hx1|].
        exists w. split; [apply elem_of_cons; auto | exact Hxw]. }
      split.
      { intros w Hw Hmw. apply elem_of_cons in Hw as [-> | Hw]; [tauto|].
        apply (H2 w Hw Hmw). }
      split; [apply sublist_cons; exact H3|].
      intros w. rewrite elem_of_cons, H4, elem_of_cons. split.
      * intros [-> | [Hw Hn]]; [tauto | tauto].
      * intros [[-> | Hw] Hn]; [tauto | tauto].
Qed.

Lemma clean_row_dom_v22 (out : list str) (row : reader_row) :
  dom (V2_2.clean_row out row) = list_to_set out.
Proof.
  unfold V2_2.clean_row.
  assert (H : forall (m : gmap str str),
             dom (foldl (fun cleaned h =>
                           <[h := V2_2._clean_value (row_get row h)]> cleaned) m out)
             = dom m ∪ list_to_set out).
  { induction out as [|h out IH]; intros m; cbn [foldl list_to_set].
    - rewrite (right_id_L ∅ (∪)). reflexivity.
    - rewrite IH, dom_insert_L, (comm_L (∪) {[h]} (dom m)), (assoc_L (∪)).
      reflexivity. }
  rewrite H, dom_empty_L, (left_id_L ∅ (∪)). reflexivity.
Qed.

Lemma clean_row_dom_v24 (out : list str) (row : reader_row) :
  dom (V2_4.clean_row out row) = list_to_set out.
Proof.
  unfold V2_4.clean_row.
  assert (H : forall (m : gmap str str),
             dom (foldl (fun cleaned h =>
                           let v := strip (remove_all N.eqb dquote
                                             (V2_4.py_str (row_get row h))) in
                           <[h := _WS_RE_sub v]> cleaned) m out)
             = dom m ∪ list_to_set out).
  { induction out as [|h out IH]; intros m; cbn [foldl list_to_set].
    - rewrite (right_id_L ∅ (∪)). reflexivity.
    - rewrite IH, dom_insert_L, (comm_L (∪) {[h]} (dom m)), (assoc_L (∪)).
      reflexivity. }
  rewrite H, dom_empty_L, (left_id_L ∅ (∪)). reflexivity.
Qed.

Lemma scan_rows_rows (hm : gmap str str) (out : list str) (todo : list reader_row) :
  forall rows data_date,
    fst (V2_4.scan_rows hm out todo rows data_date)
    = rows ++ map (V2_4.clean_row out) todo.
Proof.
  induction todo as [|row todo IH]; intros rows data_date; cbn [V2_4.scan_rows map].
  - rewrite app_nil_r. reflexivity.
  - rewrite IH, <- app_assoc. reflexivity.
Qed.

Lemma columns_agree (fieldnames : list str) :
  let out := fst (V2_2.select_headers lower
                    (V2_2.header_map lower fieldnames) RELEVANT_FIELDS [] []) in
  V2_4.out_headers lower (V2_4.header_map lower (Some fieldnames))
    = out /\
  (forall want, want ∈ RELEVANT_FIELDS ->
     ((exists h, h ∈ out /\ lower h = want) <-> matched lower fieldnames want)).
Proof.
  intros out.
  destruct (select_headers_spec fieldnames RELEVANT_FIELDS (fun w H => H) [] [])
    as (sel & mis & Heq & Hsel & H1 & H2 & H3 & H4).
  assert (Hout : out = sel) by (unfold out; rewrite Heq; reflexivity).
  rewrite Hout. split; [symmetry; exact Hsel|].
  intros want Hwant. split.
  - intros (h & Hh & Hl). destruct (H1 h Hh) as (Hin & _).
    exists h. split; [exact Hin|]. rewrite (lower_canonical want Hwant). exact Hl.
  - apply H2. exact Hwant.
Qed.

(** C4, as the code has it.  Both versions select the same output columns
    [out]: a canonical field has a column exactly when a source field name
    matches it case-insensitively; each column is headed by the source's own
    spelling of the name, which lower-cases to the canonical name; the columns
    follow the order of the canonical list; the canonical fields without a
    match are the ones v2.2 reports as missing; and every output row has the
    columns [out] and no other, so that an absent field is not padded. *)
Theorem C4_projected_columns (fieldnames : list str) :
  let hm := V2_2.header_map lower fieldnames in
  let out := fst (V2_2.select_headers lower hm RELEVANT_FIELDS [] []) in
  let missing := snd (V2_2.select_headers lower hm RELEVANT_FIELDS [] []) in
  V2_4.out_headers lower (V2_4.header_map lower (Some fieldnames))
    = out /\
  (forall want, want ∈ RELEVANT_FIELDS ->
     ((exists h, h ∈ out /\ lower h = want) <-> matched lower fieldnames want)) /\
  (forall h, h ∈ out -> h ∈ fieldnames /\ lower h ∈ RELEVANT_FIELDS) /\
  sublist (lower <$> out) RELEVANT_FIELDS /\
  (forall want, want ∈ missing <->
                want ∈ RELEVANT_FIELDS /\ ~ matched lower fieldnames want) /\
  (forall row, dom (V2_2.clean_row out row) = list_to_set out /\
               dom (V2_4.clean_row out row) = list_to_set out).
Proof.
  intros hm out missing.
  destruct (select_headers_spec fieldnames RELEVANT_FIELDS (fun w H => H) [] [])
    as (sel & mis & Heq & Hsel & H1 & H2 & H3 & H4).
  assert (Hout : out = sel) by (unfold out, hm; rewrite Heq; reflexivity).
  assert (Hmis : missing = mis) by (unfold missing, hm; rewrite Heq; reflexivity).
  rewrite Hout, Hmis. clear Hout Hmis Heq.
  split; [symmetry; exact Hsel|].
  split.
  { intros want Hwant. split.
    - intros (h & Hh & Hl). destruct (H1 h Hh) as (Hin & _).
      exists h. split; [exact Hin|]. rewrite (lower_canonical want Hwant). exact Hl.
    - apply H2. exact Hwant. }
  split.
  { intros h Hh. destruct (H1 h Hh) as (Hin & w & Hw & Hl).
    split; [exact Hin | rewrite Hl; exact Hw]. }
  split; [exact H3|]. split; [exact H4|].
  intros row. split; [apply clean_row_dom_v22 | apply clean_row_dom_v24].
Qed.

(** C10, as the code has it.  When the output is not already there and at
    least one canonical field has a match, v2.2 writes one cleaned row per
    input row, in order.  v2.4 does so for every input. *)
Theorem C10_one_row_per_row (out_before : option bytes) (fieldnames : list str)
    (rows : list reader_row) :
  let out := fst (V2_2.select_headers lower
                    (V2_2.header_map lower fieldnames) RELEVANT_FIELDS [] []) in
  (exists_nonempty out_before = false ->
   (exists want, want ∈ RELEVANT_FIELDS /\ matched lower fieldnames want) ->
   V2_2.clean_and_filter_csv lower out_before (Some fieldnames) rows
     = Ok (Written out (map (V2_2.clean_row out) rows)) /\
   length (map (V2_2.clean_row out) rows) = length rows) /\
  (snd (V2_4.clean_and_filter_csv lower (Some fieldnames) rows)
     = Written out (map (V2_4.clean_row out) rows) /\
   length (map (V2_4.clean_row out) rows) = length rows).
Proof.
  intros out.
  destruct (columns_agree fieldnames) as (H24 & Hmatch).
  fold out in H24, Hmatch.
  assert (Hdef : out = fst (V2_2.select_headers lower
                    (V2_2.header_map lower fieldnames) RELEVANT_FIELDS [] []))
    by reflexivity.
  clearbody out. split.
  - intros Hguard (want & Hwant & Hm).
    split; [|apply length_map].
    unfold V2_2.clean_and_filter_csv. rewrite Hguard.
    destruct (V2_2.select_headers lower _ RELEVANT_FIELDS [] [])
      as [out' missing].
    cbn [fst] in Hdef. rewrite <- Hdef.
    destruct (proj2 (Hmatch want Hwant) Hm) as (h & Hh & _).
    destruct out as [|x out0]; [apply elem_of_nil in Hh; tauto|]. reflexivity.
  - split; [|apply length_map].
    unfold V2_4.clean_and_filter_csv. rewrite H24.
    pose proof (scan_rows_rows
                  (V2_4.header_map lower (Some fieldnames)) out rows [] None) as Hs.
    destruct (V2_4.scan_rows _ out rows [] None) as [rows' dd].
    cbn [fst snd] in *. rewrite Hs. reflexivity.
Qed.

End ProjectorFacts.

Lemma lower_ascii_canonical (w : str) : w ∈ RELEVANT_FIELDS -> lower_ascii w = w.
Proof.
  intros Hin. unfold RELEVANT_FIELDS in Hin. cbn [map] in Hin.
  repeat (apply elem_of_cons in Hin as [-> | Hin]; [reflexivity|]).
  apply elem_of_nil in Hin. tauto.
Qed.

Lemma C4_witness :
  lower_ascii [] = [] /\
  (forall w, w ∈ RELEVANT_FIELDS -> lower_ascii w = w) /\
  let hm := V2_2.header_map lower_ascii sample_fieldnames in
  let out := fst (V2_2.select_headers lower_ascii hm RELEVANT_FIELDS [] []) in
  let missing := snd (V2_2.select_headers lower_ascii hm RELEVANT_FIELDS [] []) in
  V2_4.out_headers lower_ascii
    (V2_4.header_map lower_ascii (Some sample_fieldnames)) = out /\
  (forall want, want ∈ RELEVANT_FIELDS ->
     ((exists h, h ∈ out /\ lower_ascii h = want)
      <-> matched lower_ascii sample_fieldnames want)) /\
  (forall h, h ∈ out -> h ∈ sample_fieldnames /\ lower_ascii h ∈ RELEVANT_FIELDS) /\
  sublist (lower_ascii <$> out) RELEVANT_FIELDS /\
  (forall want, want ∈ missing <->
                want ∈ RELEVANT_FIELDS /\ ~ matched lower_ascii sample_fieldnames want) /\
  (forall row, dom (V2_2.clean_row out row) = list_to_set out /\
               dom (V2_4.clean_row out row) = list_to_set out).
Proof.
  split; [reflexivity|]. split; [exact lower_ascii_canonical|].
  exact (C4_projected_columns lower_ascii eq_refl lower_ascii_canonical sample_fieldnames).
Defined.

(** The columns selected for the sample table. *)
Example sample_out_headers :
  fst (V2_2.select_headers lower_ascii
         (V2_2.header_map lower_ascii sample_fieldnames) RELEVANT_FIELDS [] [])
  = [U "PID"; U "Dec_Lat"].
Proof. vm_compute. reflexivity. Qed.

(** C4 as stated fails on the code: the source field [PID] matches the
    canonical field [pid], and both versions head the output column [PID];
    no column of the output, and no key of an output row, is [pid]. *)
Lemma C4_counterexample :
  matched lower_ascii [U "PID"] (U "pid") /\
  V2_2.clean_and_filter_csv lower_ascii None (Some [U "PID"])
    [ {[ U "PID" := Some (U "x") ]} ]
  = Ok (Written [U "PID"] [ {[ U "PID" := U "x" ]} ]) /\
  snd (V2_4.clean_and_filter_csv lower_ascii (Some [U "PID"])
         [ {[ U "PID" := Some (U "x") ]} ])
  = Written [U "PID"] [ {[ U "PID" := U "x" ]} ] /\
  ~ In (U "pid") [U "PID"] /\
  ({[ U "PID" := U "x" ]} : gmap str str) !! U "pid" = None.
Proof.
  split.
  { exists (U "PID"). split; [apply elem_of_cons; left; reflexivity | reflexivity]. }
  split; [vm_compute; reflexivity|]. split; [vm_compute; reflexivity|].
  split; [|vm_compute; reflexivity].
  intros [H | []]. discriminate H.
Qed.

Lemma C10_witness :
  lower_ascii [] = [] /\
  (forall w, w ∈ RELEVANT_FIELDS -> lower_ascii w = w) /\
  exists_nonempty None = false /\
  (exists want, want ∈ RELEVANT_FIELDS /\ matched lower_ascii sample_fieldnames want) /\
  let out := fst (V2_2.select_headers lower_ascii
                    (V2_2.header_map lower_ascii sample_fieldnames)
                    RELEVANT_FIELDS [] []) in
  (V2_2.clean_and_filter_csv lower_ascii None (Some sample_fieldnames) sample_rows
     = Ok (Written out (map (V2_2.clean_row out) sample_rows)) /\
   length (map (V2_2.clean_row out) sample_rows) = length sample_rows) /\
  (snd (V2_4.clean_and_filter_csv lower_ascii (Some sample_fieldnames) sample_rows)
     = Written out (map (V2_4.clean_row out) sample_rows) /\
   length (map (V2_4.clean_row out) sample_rows) = length sample_rows).
Proof.
  assert (Hm : exists want, want ∈ RELEVANT_FIELDS /\
                            matched lower_ascii sample_fieldnames want).
  { exists (U "pid"). split.
    - unfold RELEVANT_FIELDS. cbn [map]. rewrite !elem_of_cons. tauto.
    - exists (U "PID"). split; [apply elem_of_cons; left; reflexivity | reflexivity]. }
  split; [reflexivity|]. split; [exact lower_ascii_canonical|].
  split; [reflexivity|]. split; [exact Hm|].
  destruct (C10_one_row_per_row lower_ascii eq_refl lower_ascii_canonical None
              sample_fieldnames sample_rows) as [H22 H24].
  split; [exact (H22 eq_refl Hm) | exact H24].
Defined.

(** The sample rows, projected and cleaned; the second row, all of whose
    cells are empty, is kept. *)
Example sample_rows_projected :
  V2_2.clean_and_filter_csv lower_ascii None (Some sample_fieldnames) sample_rows
  = Ok (Written [U "PID"; U "Dec_Lat"]
          [ {[ U "PID" := U "AB1234"; U "Dec_Lat" := U "40.5" ]};
            {[ U "PID" := []; U "Dec_Lat" := [] ]} ]).
Proof. vm_compute. reflexivity. Qed.

(** C10 as stated fails on the code: for a source table of one row none of
    whose fields is canonical, v2.2 raises [RuntimeError] and writes no row. *)
Lemma C10_counterexample :
  length foreign_rows = 1%nat /\
  V2_2.clean_and_filter_csv lower_ascii None (Some foreign_fieldnames) foreign_rows
  = Raise (RuntimeError "None of the configured RELEVANT_FIELDS were found") /\
  forall fieldnames rows,
    V2_2.clean_and_filter_csv lower_ascii None (Some foreign_fieldnames) foreign_rows
    <> Ok (Written fieldnames rows).
Proof.
  split; [reflexivity|]. split; [vm_compute; reflexivity|].
  intros fieldnames rows. vm_compute. discriminate.
Qed.

(** ** Fetching twice *)

Lemma exists_nonempty_iff (at_path : option bytes) :
  exists_nonempty at_path = true <-> exists data, at_path = Some data /\ data <> [].
Proof.
  split.
  - destruct at_path as [[|c data]|]; simpl; try discriminate.
    intros _. exists (c :: data). split; [reflexivity | discriminate].
  - intros (data & -> & Hne). destruct data; [congruence | reflexivity].
Qed.

Lemma first_chunk_concat (chunks : list bytes) (first_chunk : bytes) :
  V1_5.first_chunk_of chunks = Some first_chunk -> concat chunks <> [].
Proof.
  unfold V1_5.first_chunk_of.
  induction chunks as [|c chunks IH]; simpl; [discriminate|].
  destruct c as [|x c]; simpl; [exact IH | discriminate].
Qed.

Section FetchFacts.
Variable server : nat -> string -> V1_5.http_response.
Variable curl : nat -> string -> V1_8.curl_run.
Variable is_zipfile : bytes -> bool.
Hypothesis is_zipfile_empty : is_zipfile [] = false.

Lemma download_validated_leaves_archive (url out_path : string) (w w' : world) :
  V1_5._download_zip_validated server url out_path w = (w', Ok tt) ->
  exists_nonempty (fs w' !! out_path) = true.
Proof.
  unfold V1_5._download_zip_validated.
  destruct (server _ url) as [|status clok chunks breaks]; [absurd_eq|].
  destruct (400 <=? status); [absurd_eq|].
  destruct (negb clok); [absurd_eq|].
  destruct breaks; [absurd_eq|].
  destruct (V1_5.first_chunk_of chunks) as [first_chunk|] eqn:Hfirst; [|absurd_eq].
  destruct (negb (V1_5._is_zip_magic first_chunk)).
  { destruct (V1_5._looks_like_html first_chunk); absurd_eq. }
  intros [= <-]. unfold replace_file. cbn [fs]. rewrite lookup_insert_eq.
  apply exists_nonempty_iff. exists (concat chunks).
  split; [reflexivity | exact (first_chunk_concat chunks first_chunk Hfirst)].
Qed.

Lemma try_urls_leaves_archive (urls : list string) (out_path : string) :
  forall w w' url,
    V1_5.try_urls server urls out_path w = (w', Ok url) ->
    exists_nonempty (fs w' !! out_path) = true.
Proof.
  induction urls as [|u urls IH]; intros w w' url; cbn [V1_5.try_urls];
    [absurd_eq|].
  destruct (V1_5._download_zip_validated server u out_path w) as [w1 [[]|e]] eqn:Hd.
  - intros [= <- _]. exact (download_validated_leaves_archive u out_path w w1 Hd).
  - apply IH.
Qed.

Lemma fetch_v15_guard (code : string) (w : world) :
  exists_nonempty (fs w !! zip_path_of code) = true ->
  V1_5.fetch server code w = (w, Ok AlreadyThere).
Proof. intros H. unfold V1_5.fetch. rewrite H. reflexivity. Qed.

Lemma fetch_v15_leaves_archive (code : string) (w w' : world) (how : fetched) :
  V1_5.fetch server code w = (w', Ok how) ->
  exists_nonempty (fs w' !! zip_path_of code) = true.
Proof.
  unfold V1_5.fetch, V1_5._try_download.
  destruct (exists_nonempty (fs w !! zip_path_of code)) eqn:Hthere; cbn [negb].
  - intros [= <- _]. exact Hthere.
  - destruct (V1_5.try_urls server _ _ w) as [w1 [url|e]] eqn:Ht; [|absurd_eq].
    intros [= <- _]. exact (try_urls_leaves_archive _ _ _ _ _ Ht).
Qed.

Lemma fetch_v18_guard (code : string) (w : world) :
  exists_nonempty (fs w !! zip_path_of code) = true ->
  V1_8.is_zipfile_at is_zipfile (zip_path_of code) w = true ->
  V1_8.fetch curl is_zipfile code w = (w, Ok AlreadyThere).
Proof. intros H1 H2. unfold V1_8.fetch. rewrite H1, H2. reflexivity. Qed.

Lemma download_curl_leaves_archive (url out_path : string) (w w' : world) :
  V1_8._download_with_curl curl is_zipfile url out_path w = (w', Ok tt) ->
  exists_nonempty (fs w' !! out_path) = true /\
  V1_8.is_zipfile_at is_zipfile out_path w' = true.
Proof.
  unfold V1_8._download_with_curl.
  destruct (curl _ url) as [|success written]; [absurd_eq|].
  set (w1 := match written with
             | Some data => write_file (part_of out_path) data (log_request url w)
             | None => log_request url w
             end).
  destruct (negb success); [absurd_eq|].
  unfold V1_8.is_zipfile_at at 1.
  destruct (fs w1 !! part_of out_path) as [data|] eqn:Hdata; [|absurd_eq].
  destruct (is_zipfile data) eqn:Hzip; [|absurd_eq]. cbn [negb].
  intros [= <-]. unfold V1_8.is_zipfile_at, replace_file. cbn [fs].
  rewrite lookup_insert_eq. split; [|exact Hzip].
  apply exists_nonempty_iff. exists data. split; [reflexivity|].
  intros ->. congruence.
Qed.

Lemma fetch_v18_leaves_archive (code : string) (w w' : world) (how : fetched) :
  V1_8.fetch curl is_zipfile code w = (w', Ok how) ->
  exists_nonempty (fs w' !! zip_path_of code) = true /\
  V1_8.is_zipfile_at is_zipfile (zip_path_of code) w' = true.
Proof.
  unfold V1_8.fetch.
  destruct (exists_nonempty (fs w !! zip_path_of code)
            && V1_8.is_zipfile_at is_zipfile (zip_path_of code) w) eqn:Hthere.
  - intros [= <- _]. apply andb_true_iff in Hthere. exact Hthere.
  - destruct (V1_8._download_with_curl curl is_zipfile _ _ w) as [w1 [[]|e]] eqn:Hd;
      [|absurd_eq].
    intros [= <- _]. exact (download_curl_leaves_archive _ _ _ _ Hd).
Qed.

(** C8. When the archive of a state is at its destination and not empty (and,
    for the curl downloader, a valid ZIP file), the download step leaves the
    files and the list of requests sent as they are.  A download step that
    succeeds leaves such an archive, so that a second call after a successful
    first one sends no request and changes no file. *)
Theorem C8_fetch_idempotent (code : string) (w : world) :
  (forall data, fs w !! zip_path_of code = Some data -> data <> [] ->
     V1_5.fetch server code w = (w, Ok AlreadyThere)) /\
  (forall w' how, V1_5.fetch server code w = (w', Ok how) ->
     V1_5.fetch server code w' = (w', Ok AlreadyThere)) /\
  (forall data, fs w !! zip_path_of code = Some data -> data <> [] ->
     is_zipfile data = true ->
     V1_8.fetch curl is_zipfile code w = (w, Ok AlreadyThere)) /\
  (forall w' how, V1_8.fetch curl is_zipfile code w = (w', Ok how) ->
     V1_8.fetch curl is_zipfile code w' = (w', Ok AlreadyThere)).
Proof.
  split.
  { intros data Hdata Hne. apply fetch_v15_guard, exists_nonempty_iff. eauto. }
  split.
  { intros w' how H. apply fetch_v15_guard. exact (fetch_v15_leaves_archive _ _ _ _ H). }
  split.
  { intros data Hdata Hne Hzip. apply fetch_v18_guard.
    - apply exists_nonempty_iff. eauto.
    - unfold V1_8.is_zipfile_at. rewrite Hdata. exact Hzip. }
  intros w' how H. destruct (fetch_v18_leaves_archive _ _ _ _ H) as [H1 H2].
  apply fetch_v18_guard; assumption.
Qed.

End FetchFacts.

(** The first call tries the first URL, gets an error page, tries the second
    and keeps the archive; the second call does nothing. *)
Example sample_fetch_twice :
  exists w1,
    V1_5.fetch sample_server "AL" empty_world
      = (w1, Ok (Downloaded "https://www.ngs.noaa.gov/pub/DS_ARCHIVE/ShapeFiles/AL.zip")) /\
    fs w1 = {[ zip_path_of "AL" := sample_archive ]} /\
    length (requests w1) = 2%nat /\
    V1_5.fetch sample_server "AL" w1 = (w1, Ok AlreadyThere).
Proof.
  eexists. split; [vm_compute; reflexivity|].
  split; [vm_compute; reflexivity|]. split; vm_compute; reflexivity.
Qed.

Lemma C8_witness :
  sample_is_zipfile [] = false /\
  (exists w1 how,
     V1_5.fetch sample_server "AL" empty_world = (w1, Ok how) /\
     V1_5.fetch sample_server "AL" w1 = (w1, Ok AlreadyThere)) /\
  (exists w1 how,
     V1_8.fetch sample_curl sample_is_zipfile "AL" empty_world = (w1, Ok how) /\
     V1_8.fetch sample_curl sample_is_zipfile "AL" w1 = (w1, Ok AlreadyThere)) /\
  (fs (write_file (zip_path_of "AL") sample_archive empty_world) !! zip_path_of "AL"
     = Some sample_archive /\
   sample_archive <> [] /\
   sample_is_zipfile sample_archive = true /\
   V1_5.fetch sample_server "AL"
     (write_file (zip_path_of "AL") sample_archive empty_world)
   = (write_file (zip_path_of "AL") sample_archive empty_world, Ok AlreadyThere) /\
   V1_8.fetch sample_curl sample_is_zipfile "AL"
     (write_file (zip_path_of "AL") sample_archive empty_world)
   = (write_file (zip_path_of "AL") sample_archive empty_world, Ok AlreadyThere)).
Proof.
  split; [reflexivity|].
  split.
  { destruct (V1_5.fetch sample_server "AL" empty_world) as [w1 [how|e]] eqn:H.
    - exists w1, how. split; [reflexivity|].
      exact (proj1 (proj2 (C8_fetch_idempotent sample_server sample_curl sample_is_zipfile
                             eq_refl "AL" empty_world)) w1 how H).
    - vm_compute in H. discriminate H. }
  split.
  { destruct (V1_8.fetch sample_curl sample_is_zipfile "AL" empty_world)
      as [w1 [how|e]] eqn:H.
    - exists w1, how. split; [reflexivity|].
      exact (proj2 (proj2 (proj2 (C8_fetch_idempotent sample_server sample_curl
                                    sample_is_zipfile eq_refl "AL" empty_world))) w1 how H).
    - vm_compute in H. discriminate H. }
  assert (H1 : fs (write_file (zip_path_of "AL") sample_archive empty_world)
               !! zip_path_of "AL" = Some sample_archive) by apply lookup_insert_eq.
  assert (H2 : sample_archive <> []) by discriminate.
  split; [exact H1|]. split; [exact H2|]. split; [reflexivity|].
  destruct (C8_fetch_idempotent sample_server sample_curl sample_is_zipfile eq_refl
              "AL" (write_file (zip_path_of "AL") sample_archive empty_world))
    as (G15 & _ & G18 & _).
  split; [exact (G15 sample_archive H1 H2) | exact (G18 sample_archive H1 H2 eq_refl)].
Defined.

(* ================================================================== *)
(** * Further properties *)

(** ** Field values (v2.2) *)

(** X1. A Logical field decodes from its first byte alone: [Y], [y], [T],
    [t] give true, [N], [n], [F], [f] give false, any other byte and the
    empty field give the empty text. *)
Theorem X1_logical_decoding (fa : str -> bool) (raw : bytes) (dec : N) :
  V2_2._parse_dbf_value fa raw (U "L") dec = Ok (logical_of_bytes raw).
Proof.
  destruct raw as [|c raw]; [reflexivity|].
  destruct c; reflexivity.
Qed.

Section StripSplit.
Context {A : Type} (sp : A -> bool).

Lemma rstrip_by_split (l : list A) :
  exists ws, l = rstrip_by sp l ++ ws /\ forallb sp ws = true.
Proof.
  induction l as [|x l (ws & Hl & Hws)].
  - exists []. split; reflexivity.
  - rewrite rstrip_by_cons. destruct (rstrip_by sp l) as [|y r] eqn:Hr.
    + simpl in Hl. subst ws. destruct (sp x) eqn:Hx.
      * exists (x :: l). split; [reflexivity|]. simpl. rewrite Hx. exact Hws.
      * exists l. split; [reflexivity | exact Hws].
    + exists ws. split; [|exact Hws]. simpl in *. f_equal. exact Hl.
Qed.

Lemma lstrip_by_split (l : list A) :
  exists ws, l = ws ++ lstrip_by sp l /\ forallb sp ws = true.
Proof.
  induction l as [|x l (ws & Hl & Hws)].
  - exists []. split; reflexivity.
  - simpl. destruct (sp x) eqn:Hx.
    + exists (x :: ws). split; [simpl; congruence|]. simpl. rewrite Hx. exact Hws.
    + exists []. split; reflexivity.
Qed.

Lemma lstrip_by_spaces (ws l : list A) :
  forallb sp ws = true -> lstrip_by sp (ws ++ l) = lstrip_by sp l.
Proof.
  induction ws as [|x ws IH]; simpl; [reflexivity|].
  intros H. apply andb_true_iff in H as [-> H]. apply IH, H.
Qed.

Lemma lstrip_by_id (l : list A) :
  (forall c, head l = Some c -> sp c = false) -> lstrip_by sp l = l.
Proof.
  destruct l as [|x l]; [reflexivity|]. intros H. simpl.
  rewrite (H x eq_refl). reflexivity.
Qed.

Lemma rstrip_by_spaces (l ws : list A) :
  forallb sp ws = true -> rstrip_by sp (l ++ ws) = rstrip_by sp l.
Proof.
  intros H. unfold rstrip_by. rewrite rev_app_distr, lstrip_by_spaces; [reflexivity|].
  rewrite forallb_forall in *. intros x Hx. apply H, in_rev, Hx.
Qed.

Lemma head_rev (l : list A) : head (rev l) = last l.
Proof.
  destruct l as [|x l] using rev_ind; [reflexivity|].
  rewrite rev_app_distr, last_snoc. reflexivity.
Qed.

Lemma rstrip_by_id (l : list A) :
  (forall c, last l = Some c -> sp c = false) -> rstrip_by sp l = l.
Proof.
  intros H. unfold rstrip_by. rewrite lstrip_by_id, rev_involutive; [reflexivity|].
  intros c Hc. apply H. rewrite <- head_rev. exact Hc.
Qed.

(** Padding on both sides of a text without white space is stripped. *)
Lemma strip_by_padded (lpad m rpad : list A) :
  forallb sp lpad = true -> forallb sp rpad = true ->
  forallb (fun c => negb (sp c)) m = true ->
  strip_by sp (lpad ++ m ++ rpad) = m.
Proof.
  intros Hl Hr Hm. unfold strip_by. rewrite lstrip_by_spaces by exact Hl.
  assert (Hns : forall c, In c m -> sp c = false).
  { intros c Hc. rewrite forallb_forall in Hm. apply negb_true_iff, Hm, Hc. }
  destruct m as [|x m].
  - simpl. destruct (lstrip_by_nil_iff sp rpad) as [_ H]. rewrite (H Hr). reflexivity.
  - rewrite lstrip_by_id.
    + rewrite rstrip_by_spaces by exact Hr. apply rstrip_by_id.
      intros c Hc. apply Hns. apply last_Some in Hc as [l' Hc]. rewrite Hc.
      apply in_or_app. right. left. reflexivity.
    + simpl. intros c [= <-]. apply Hns. left. reflexivity.
Qed.
End StripSplit.

(** X2. A Character field is decoded byte for byte as Latin-1 and loses
    trailing white space only: the decoded bytes are the result followed by
    white space, and the result does not end with white space. *)
Theorem X2_character_decoding (fa : str -> bool) (raw : bytes) (dec : N) :
  exists text ws,
    V2_2._parse_dbf_value fa raw (U "C") dec = Ok (VStr text) /\
    decode_latin1 raw = text ++ ws /\
    forallb isspace ws = true /\
    (forall c, last text = Some c -> isspace c = false).
Proof.
  destruct (rstrip_by_split isspace (decode_latin1 raw)) as (ws & Hsplit & Hws).
  exists (rstrip (decode_latin1 raw)), ws.
  split; [reflexivity|]. split; [exact Hsplit|]. split; [exact Hws|].
  intros c. apply rstrip_by_last.
Qed.

(** The [N] and [F] branch of [_parse_dbf_value]. *)
Lemma parse_numeric_branch fa (raw : bytes) (ftype : str) (dec : N) :
  ftype = U "N" \/ ftype = U "F" ->
  V2_2._parse_dbf_value fa raw ftype dec =
  let st := strip (decode_latin1 raw) in
  if is_empty st then Ok (VStr [])
  else
    try_except
      (if contains N.eqb (U ".") st || (0 <? dec) then V2_2.py_float fa st
       else let* n := py_int st in Ok (VInt n))
      (fun _ => Ok (VStr st)).
Proof. intros [-> | ->]; reflexivity. Qed.

Lemma contains_char_iff (c : char) (s : str) :
  contains N.eqb [c] s = true <-> In c s.
Proof.
  rewrite (contains_iff N.eqb N.eqb_eq). split.
  - intros (pre & suf & ->). apply in_or_app. right. left. reflexivity.
  - intros H. apply in_split in H as (pre & suf & ->). exists pre, suf. reflexivity.
Qed.

Lemma strip_by_keeps {A} (sp : A -> bool) (l : list A) (c : A) :
  In c l -> sp c = false -> In c (strip_by sp l).
Proof.
  intros Hin Hc. unfold strip_by.
  destruct (lstrip_by_split sp l) as (ws1 & H1 & Hws1).
  destruct (rstrip_by_split sp (lstrip_by sp l)) as (ws2 & H2 & Hws2).
  rewrite forallb_forall in Hws1, Hws2.
  rewrite H1 in Hin. apply in_app_or in Hin as [Hin | Hin].
  { rewrite (Hws1 c Hin) in Hc. discriminate. }
  rewrite H2 in Hin. apply in_app_or in Hin as [Hin | Hin]; [exact Hin|].
  rewrite (Hws2 c Hin) in Hc. discriminate.
Qed.

Lemma ascii_digit_not_space (c : char) : is_ascii_digit c = true -> isspace c = false.
Proof.
  intros H. apply ascii_digit_range in H.
  assert (Hc : c = 48 \/ c = 49 \/ c = 50 \/ c = 51 \/ c = 52 \/ c = 53 \/ c = 54
               \/ c = 55 \/ c = 56 \/ c = 57) by lia.
  repeat (destruct Hc as [-> | Hc]; [reflexivity|]). subst c. reflexivity.
Qed.

Lemma decode_spaces (n : nat) : forallb isspace (decode_latin1 (spaces n)) = true.
Proof. induction n as [|n IH]; [reflexivity|]. simpl. exact IH. Qed.

(** X3. Numeric and Float fields.  A field of white space only decodes to the
    empty text.  A field of ASCII digits padded with spaces on either side
    decodes, when the decimal count is zero, to the integer the digits
    denote.  The result is an integer only if the decimal count is zero and
    the field holds no decimal point. *)
Theorem X3_numeric_decoding (fa : str -> bool) (ftype : str) (raw : bytes) (dec : N)
    (lpad rpad : nat) (digits : bytes) :
  ftype = U "N" \/ ftype = U "F" ->
  (forallb isspace (decode_latin1 raw) = true ->
   V2_2._parse_dbf_value fa raw ftype dec = Ok (VStr [])) /\
  (digit_bytes digits ->
   V2_2._parse_dbf_value fa (spaces lpad ++ digits ++ spaces rpad) ftype 0
   = Ok (VInt (decimal 0 (decode_latin1 digits)))) /\
  (forall z, V2_2._parse_dbf_value fa raw ftype dec = Ok (VInt z) ->
             dec = 0 /\ ~ In 46 (decode_latin1 raw)).
Proof.
  intros Hty. split; [|split].
  - intros Hblank. rewrite (parse_numeric_branch fa raw ftype dec Hty). cbv zeta.
    unfold strip, strip_by.
    rewrite (proj2 (lstrip_by_nil_iff isspace (decode_latin1 raw)) Hblank). reflexivity.
  - intros [Hne Hdig]. rewrite (parse_numeric_branch fa _ ftype 0 Hty). cbv zeta.
    assert (Hall : forallb is_ascii_digit (decode_latin1 digits) = true).
    { apply forallb_forall. intros c Hc. unfold decode_latin1 in Hc.
      apply in_map_iff in Hc as (x & <- & Hx).
      rewrite Forall_forall in Hdig. apply Hdig, list_elem_of_In, Hx. }
    assert (Hst : strip (decode_latin1 (spaces lpad ++ digits ++ spaces rpad))
                  = decode_latin1 digits).
    { unfold decode_latin1 at 1. rewrite !map_app.
      apply strip_by_padded; try apply decode_spaces.
      apply forallb_forall. intros c Hc. rewrite forallb_forall in Hall.
      rewrite (ascii_digit_not_space c (Hall c Hc)). reflexivity. }
    rewrite Hst.
    destruct (decode_latin1 digits) as [|d ds] eqn:Hd.
    { destruct digits; [congruence | discriminate Hd]. }
    cbn [is_empty].
    assert (Hdot : contains N.eqb (U ".") (d :: ds) = false).
    { destruct (contains N.eqb (U ".") (d :: ds)) eqn:Hc; [|reflexivity].
      apply (contains_char_iff 46) in Hc. rewrite forallb_forall in Hall.
      apply Hall, ascii_digit_range in Hc. lia. }
    rewrite Hdot. cbn [orb N.ltb N.compare].
    rewrite py_int_isdigit, Hall; [reflexivity | discriminate |].
    apply forallb_forall. intros c Hc. rewrite forallb_forall in Hall.
    unfold isdigit_char. rewrite (Hall c Hc). reflexivity.
  - intros z. rewrite (parse_numeric_branch fa raw ftype dec Hty). cbv zeta.
    destruct (is_empty (strip (decode_latin1 raw))); [discriminate|].
    destruct (contains N.eqb (U ".") (strip (decode_latin1 raw))) eqn:Hdot.
    { cbn [orb]. unfold V2_2.py_float.
      destruct (fa _); cbn [try_except]; discriminate. }
    destruct (0 <? dec) eqn:Hdec.
    { cbn [orb]. unfold V2_2.py_float.
      destruct (fa _); cbn [try_except]; discriminate. }
    intros _. split.
    + apply N.ltb_ge in Hdec. lia.
    + intros Hin.
      assert (Hs : In 46 (strip (decode_latin1 raw)))
        by (apply strip_by_keeps; [exact Hin | reflexivity]).
      apply contains_char_iff in Hs. change (U ".") with [46] in Hdot. congruence.
Qed.

Lemma X3_witness :
  (U "N" = U "N" \/ U "N" = U "F") /\
  forallb isspace (decode_latin1 (B "   ")) = true /\
  V2_2._parse_dbf_value sample_float_accepts (B "   ") (U "N") 2 = Ok (VStr []) /\
  digit_bytes (B "0042") /\
  V2_2._parse_dbf_value sample_float_accepts (spaces 3 ++ B "0042" ++ spaces 1) (U "N") 0
  = Ok (VInt (decimal 0 (decode_latin1 (B "0042")))).
Proof.
  assert (Hty : U "N" = U "N" \/ U "N" = U "F") by (left; reflexivity).
  assert (Hd : digit_bytes (B "0042")).
  { split; [discriminate|]. repeat constructor. }
  destruct (X3_numeric_decoding sample_float_accepts (U "N") (B "   ") 2 3 1 (B "0042") Hty)
    as (Hblank & _).
  destruct (X3_numeric_decoding sample_float_accepts (U "N") (B "   ") 0 3 1 (B "0042") Hty)
    as (_ & Hint & _).
  split; [exact Hty|]. split; [reflexivity|]. split; [exact (Hblank eq_refl)|].
  split; [exact Hd | exact (Hint Hd)].
Defined.

(** ** Fields of a record *)

Lemma decode_fields_other fa (rec : bytes) (fields : list field) (k : str) :
  (forall fd, In fd fields -> field_name fd <> k) ->
  forall offset row0 row,
    V2_2.decode_fields fa rec fields offset row0 = Ok row -> row !! k = row0 !! k.
Proof.
  induction fields as [|[[[name ftype] flen] fdec] fields IH]; intros Hk offset row0 row.
  - intros [= <-]. reflexivity.
  - cbn [V2_2.decode_fields].
    destruct (V2_2._parse_dbf_value fa _ ftype fdec) as [v|e]; [|discriminate].
    cbn [bind]. intros H. rewrite (IH (fun fd Hfd => Hk fd (or_intror Hfd)) _ _ _ H).
    apply lookup_insert_ne. exact (Hk _ (or_introl eq_refl)).
Qed.

Lemma decode_fields_other_v24 (rec : bytes) (fields : list field) (k : str) :
  (forall fd, In fd fields -> field_name fd <> k) ->
  forall off row0, V2_4.decode_fields rec fields off row0 !! k = row0 !! k.
Proof.
  induction fields as [|[[[name ftype] flen] fdec] fields IH]; intros Hk off row0;
    [reflexivity|].
  cbn [V2_4.decode_fields]. rewrite (IH (fun fd Hfd => Hk fd (or_intror Hfd))).
  apply lookup_insert_ne. exact (Hk _ (or_introl eq_refl)).
Qed.

Lemma last_of_its_name_tail (fd : field) (fields : list field) (i : nat) (name : str) :
  last_of_its_name (fd :: fields) (S i) name -> last_of_its_name fields i name.
Proof. intros H j fd' Hj Hfd. apply (H (S j) fd'); [lia | exact Hfd]. Qed.

Lemma last_of_its_name_head (fd : field) (fields : list field) (name : str) :
  last_of_its_name (fd :: fields) 0 name ->
  forall fd', In fd' fields -> field_name fd' <> name.
Proof.
  intros H fd' Hin. apply list_elem_of_In, list_elem_of_lookup in Hin as [j Hj].
  apply (H (S j) fd'); [lia | exact Hj].
Qed.

Lemma decode_fields_at fa (rec : bytes) (fields : list field) :
  forall offset row0 row i name ftype flen fdec,
    V2_2.decode_fields fa rec fields offset row0 = Ok row ->
    fields !! i = Some (name, ftype, flen, fdec) ->
    last_of_its_name fields i name ->
    let start := (offset + list_sum (map field_length (take i fields)))%nat in
    exists v, row !! name = Some v /\
              V2_2._parse_dbf_value fa (slice start (start + N.to_nat flen) rec) ftype fdec
              = Ok v.
Proof.
  induction fields as [|[[[name0 ftype0] flen0] fdec0] fields IH];
    intros offset row0 row i name ftype flen fdec Hrow Hi Hlast; [discriminate|].
  cbn [V2_2.decode_fields] in Hrow.
  destruct (V2_2._parse_dbf_value fa _ ftype0 fdec0) as [v|e] eqn:Hv; [|discriminate].
  cbn [bind] in Hrow. destruct i as [|i].
  - injection Hi as -> -> -> ->. cbv zeta. cbn [take firstn map list_sum].
    rewrite Nat.add_0_r. exists v. split; [|exact Hv].
    rewrite (decode_fields_other fa rec fields name
               (last_of_its_name_head _ _ _ Hlast) _ _ _ Hrow).
    apply lookup_insert_eq.
  - cbn [lookup list_lookup] in Hi.
    destruct (IH _ _ _ i name ftype flen fdec Hrow Hi (last_of_its_name_tail _ _ _ _ Hlast))
      as (v' & Hv1 & Hv2).
    exists v'. split; [exact Hv1|]. cbv zeta in *.
    match type of Hv2 with
    | context [slice ?a _ rec] =>
        match goal with
        | |- context [slice ?a' _ rec] =>
            replace a' with a
              by (change (list_sum (map field_length
                                      (take (S i) ((name0, ftype0, flen0, fdec0) :: fields))))
                    with (N.to_nat flen0 + list_sum (map field_length (take i fields)))%nat;
                  lia)
        end
    end.
    exact Hv2.
Qed.

Lemma decode_fields_at_v24 (rec : bytes) (fields : list field) :
  forall off row0 i name ftype flen fdec,
    fields !! i = Some (name, ftype, flen, fdec) ->
    last_of_its_name fields i name ->
    let start := (off + list_sum (map field_length (take i fields)))%nat in
    V2_4.decode_fields rec fields off row0 !! name
    = Some (strip (decode_latin1 (slice start (start + N.to_nat flen) rec))).
Proof.
  induction fields as [|[[[name0 ftype0] flen0] fdec0] fields IH];
    intros off row0 i name ftype flen fdec Hi Hlast; [discriminate|].
  cbn [V2_4.decode_fields]. destruct i as [|i].
  - injection Hi as -> -> -> ->. cbv zeta. cbn [take firstn map list_sum].
    rewrite Nat.add_0_r.
    rewrite (decode_fields_other_v24 rec fields name (last_of_its_name_head _ _ _ Hlast)).
    apply lookup_insert_eq.
  - cbn [lookup list_lookup] in Hi.
    rewrite (IH _ _ i name ftype flen fdec Hi (last_of_its_name_tail _ _ _ _ Hlast)).
    cbv zeta.
    match goal with
    | |- Some (strip (decode_latin1 (slice ?a _ rec))) =
         Some (strip (decode_latin1 (slice ?a' _ rec))) =>
        replace a' with a
          by (change (list_sum (map field_length
                                      (take (S i) ((name0, ftype0, flen0, fdec0) :: fields))))
                    with (N.to_nat flen0 + list_sum (map field_length (take i fields)))%nat;
                  lia)
    end.
    reflexivity.
Qed.

Lemma decode_fields_dom fa (rec : bytes) (fields : list field) :
  forall offset row0 row,
    V2_2.decode_fields fa rec fields offset row0 = Ok row ->
    dom row = dom row0 ∪ list_to_set (map field_name fields).
Proof.
  induction fields as [|[[[name ftype] flen] fdec] fields IH]; intros offset row0 row.
  - intros [= <-]. cbn [map list_to_set]. rewrite (right_id_L ∅ (∪)). reflexivity.
  - cbn [V2_2.decode_fields].
    destruct (V2_2._parse_dbf_value fa _ ftype fdec) as [v|e]; [|discriminate].
    cbn [bind]. intros H. rewrite (IH _ _ _ H), dom_insert_L.
    cbn [map list_to_set field_name].
    rewrite (comm_L (∪) {[name]} (dom row0)), (assoc_L (∪)). reflexivity.
Qed.

Lemma decode_fields_dom_v24 (rec : bytes) (fields : list field) :
  forall off row0,
    dom (V2_4.decode_fields rec fields off row0)
    = dom row0 ∪ list_to_set (map field_name fields).
Proof.
  induction fields as [|[[[name ftype] flen] fdec] fields IH]; intros off row0.
  - cbn [V2_4.decode_fields map list_to_set]. rewrite (right_id_L ∅ (∪)). reflexivity.
  - cbn [V2_4.decode_fields]. rewrite IH, dom_insert_L.
    cbn [map list_to_set field_name].
    rewrite (comm_L (∪) {[name]} (dom row0)), (assoc_L (∪)). reflexivity.
Qed.

(** X4. The fields of a record lie one after the other from byte 1 on: the
    row decoded from a record gives, to the name of the field of index [i]
    (when no later field bears the same name), the value decoded from the
    [flen] bytes at offset 1 plus the lengths of the fields before it; v2.2
    decodes them by type, v2.4 as stripped Latin-1 text.  The keys of the row
    are the field names. *)
Theorem X4_field_offsets fa (rec : bytes) (fields : list field) (i : nat)
    (name ftype : str) (flen fdec : N) :
  fields !! i = Some (name, ftype, flen, fdec) ->
  last_of_its_name fields i name ->
  let start := field_offset fields i in
  let raw := slice start (start + N.to_nat flen) rec in
  (exists row v,
     V2_2.decode_fields fa rec fields 1 ∅ = Ok row /\
     row !! name = Some v /\
     V2_2._parse_dbf_value fa raw ftype fdec = Ok v /\
     dom row = list_to_set (map field_name fields)) /\
  V2_4.decode_fields rec fields 1 ∅ !! name = Some (strip (decode_latin1 raw)) /\
  dom (V2_4.decode_fields rec fields 1 ∅) = list_to_set (map field_name fields).
Proof.
  intros Hi Hlast start raw. split; [|split].
  - destruct (decode_fields_returns fa rec fields 1 ∅) as [row Hrow].
    destruct (decode_fields_at fa rec fields _ _ _ i name ftype flen fdec Hrow Hi Hlast)
      as (v & Hv1 & Hv2).
    exists row, v. split; [exact Hrow|]. split; [exact Hv1|]. split; [exact Hv2|].
    rewrite (decode_fields_dom fa rec fields _ _ _ Hrow), dom_empty_L,
      (left_id_L ∅ (∪)). reflexivity.
  - exact (decode_fields_at_v24 rec fields 1 ∅ i name ftype flen fdec Hi Hlast).
  - rewrite decode_fields_dom_v24, dom_empty_L, (left_id_L ∅ (∪)). reflexivity.
Qed.

Lemma X4_witness :
  [(U "PID", U "C", 2, 0); (U "N", U "N", 3, 0)] !! 1%nat = Some (U "N", U "N", 3, 0) /\
  last_of_its_name [(U "PID", U "C", 2, 0); (U "N", U "N", 3, 0)] 1 (U "N") /\
  V2_4.decode_fields (B " AB 42") [(U "PID", U "C", 2, 0); (U "N", U "N", 3, 0)] 1 ∅
    !! U "N"
  = Some (strip (decode_latin1
            (slice (field_offset [(U "PID", U "C", 2, 0); (U "N", U "N", 3, 0)] 1)
                   (field_offset [(U "PID", U "C", 2, 0); (U "N", U "N", 3, 0)] 1
                    + N.to_nat 3) (B " AB 42")))).
Proof.
  assert (H1 : [(U "PID", U "C", 2, 0); (U "N", U "N", 3, 0)] !! 1%nat
               = Some (U "N", U "N", 3, 0)) by reflexivity.
  assert (H2 : last_of_its_name [(U "PID", U "C", 2, 0); (U "N", U "N", 3, 0)] 1 (U "N")).
  { intros j fd Hj Hfd. destruct j as [|[|j]]; [lia | lia | discriminate Hfd]. }
  split; [exact H1|]. split; [exact H2|].
  exact (proj1 (proj2 (X4_field_offsets sample_float_accepts (B " AB 42") _ 1 _ _ _ _ H1 H2))).
Defined.

(** ** What the header parsers return *)

Lemma byte_lt_256 (c : byte) : Byte.to_N c < 256.
Proof. pose proof (Byte.to_N_bounded c). lia. Qed.

Lemma index_ok_range (i : nat) (l : bytes) (n : N) : index i l = Ok n -> n < 256.
Proof.
  unfold index. destruct (l !! i) as [c|]; [|discriminate].
  intros [= <-]. apply byte_lt_256.
Qed.

Lemma unpack4_range (l : bytes) (n : N) :
  struct_unpack_le 4 l = Ok n -> n < 4294967296.
Proof.
  unfold struct_unpack_le.
  destruct l as [|a [|b0 [|c [|d [|e l]]]]]; try discriminate.
  intros [= <-]. cbn [le_uint].
  pose proof (byte_lt_256 a). pose proof (byte_lt_256 b0).
  pose proof (byte_lt_256 c). pose proof (byte_lt_256 d). lia.
Qed.

Lemma unpack2_range (l : bytes) (n : N) :
  struct_unpack_le 2 l = Ok n -> n < 65536.
Proof.
  unfold struct_unpack_le.
  destruct l as [|a [|b0 [|c l]]]; try discriminate.
  intros [= <-]. cbn [le_uint].
  pose proof (byte_lt_256 a). pose proof (byte_lt_256 b0). lia.
Qed.

Section StripLength.
Context {A : Type} (sp : A -> bool).

Lemma lstrip_by_length (l : list A) : (length (lstrip_by sp l) <= length l)%nat.
Proof.
  induction l as [|x l IH]; simpl; [lia|]. destruct (sp x); simpl; lia.
Qed.

Lemma strip_by_length (l : list A) : (length (strip_by sp l) <= length l)%nat.
Proof.
  unfold strip_by, rstrip_by. rewrite length_rev.
  pose proof (lstrip_by_length (rev (lstrip_by sp l))) as H1.
  rewrite length_rev in H1. pose proof (lstrip_by_length l). lia.
Qed.

Lemma strip_by_In (l : list A) (c : A) : In c (strip_by sp l) -> In c l.
Proof. intros H. apply (lstrip_by_In sp), (rstrip_by_In sp), H. Qed.

Lemma strip_by_trimmed_ends (l : list A) :
  (forall c, head (strip_by sp l) = Some c -> sp c = false) /\
  (forall c, last (strip_by sp l) = Some c -> sp c = false).
Proof.
  unfold strip_by. split.
  - intros c. apply rstrip_by_head. intros x. apply lstrip_by_head.
  - intros c. apply rstrip_by_last.
Qed.
End StripLength.

Lemma split1_head_length {A} (eqb : A -> A -> bool) (sep : A) (l : list A) :
  (length (split1_head eqb sep l) <= length l)%nat.
Proof.
  induction l as [|x l IH]; simpl; [lia|]. destruct (eqb x sep); simpl; lia.
Qed.

Lemma descriptor_name_in_range (d : bytes) :
  (length (descriptor_name d) <= 11)%nat /\
  Forall (fun c => 0 < c < 128) (descriptor_name d) /\
  trimmed (descriptor_name d).
Proof.
  unfold descriptor_name. split; [|split].
  - pose proof (strip_by_length isspace
                  (decode_ascii_ignore (split1_head Byte.eqb x00 (slice 0 11 d)))) as H1.
    unfold strip. unfold decode_ascii_ignore in *.
    pose proof (filter_length_le (fun c => c <? 128)
                  (map Byte.to_N (split1_head Byte.eqb x00 (slice 0 11 d)))) as H2.
    rewrite length_map in H2.
    pose proof (split1_head_length Byte.eqb x00 (slice 0 11 d)) as H3.
    assert (H4 : (length (slice 0 11 d) <= 11)%nat).
    { unfold slice. rewrite length_take. lia. }
    lia.
  - apply Forall_forall. intros c Hc. apply list_elem_of_In in Hc.
    apply (strip_by_In isspace) in Hc. unfold decode_ascii_ignore in Hc.
    apply filter_In in Hc as [Hc Hlt]. apply N.ltb_lt in Hlt. split; [|exact Hlt].
    apply in_map_iff in Hc as (x & <- & Hx).
    destruct (split1_head_truncated (slice 0 11 d)) as [Hnot _].
    destruct (N.eq_dec (Byte.to_N x) 0) as [H0 | H0]; [|lia].
    exfalso. apply Hnot. apply list_elem_of_In.
    assert (Hx0 : x = x00) by (apply byte_to_N_inj; rewrite H0; reflexivity).
    rewrite Hx0 in Hx. exact Hx.
  - apply strip_by_trimmed_ends.
Qed.

Lemma descriptor_chain_in_range (d : bytes) (fd : field) :
  (let* t := index 11 d in
   let* flen := index 16 d in
   let* fdec := index 17 d in
   Ok (descriptor_name d, chr t, flen, fdec)) = Ok fd ->
  field_in_range fd.
Proof.
  destruct (index 11 d) as [t|] eqn:Ht; [|discriminate].
  destruct (index 16 d) as [flen|] eqn:Hl; [|discriminate].
  destruct (index 17 d) as [fdec|] eqn:Hd; [|discriminate].
  cbn [bind]. intros [= <-]. unfold field_in_range.
  destruct (descriptor_name_in_range d) as (H1 & H2 & H3).
  split; [exact H1|]. split; [exact H2|]. split; [exact H3|].
  split; [reflexivity|].
  split; [constructor; [exact (index_ok_range _ _ _ Ht) | constructor]|].
  split; [exact (index_ok_range _ _ _ Hl) | exact (index_ok_range _ _ _ Hd)].
Qed.

Lemma read_contents (n : nat) (f : file) : contents (snd (read n f)) = contents f.
Proof. reflexivity. Qed.

Lemma read_descriptors_in_range_v24 (fuel : nat) :
  forall f acc fields f',
    Forall field_in_range acc ->
    V2_4.read_descriptors fuel f acc = Some (Ok (fields, f')) ->
    Forall field_in_range fields /\ contents f' = contents f.
Proof.
  induction fuel as [|fuel IH]; intros f acc fields f' Hacc; [discriminate|].
  cbn [V2_4.read_descriptors].
  pose proof (read_contents 32 f) as Hc.
  destruct (read 32 f) as [d f1]. cbn [snd] in Hc.
  destruct (index 0 d) as [d0|e]; [|discriminate].
  destruct (d0 =? 13).
  { intros [= <- <-]. split; [exact Hacc | exact Hc]. }
  destruct (let* t := index 11 d in _) as [fd|e] eqn:Hfd; [|discriminate].
  intros H. apply IH in H as [H1 H2].
  - split; [exact H1 | congruence].
  - apply Forall_app. split; [exact Hacc|]. constructor; [|constructor].
    exact (descriptor_chain_in_range d fd Hfd).
Qed.

Lemma parse_header_in_range_v24 (f : file) nrec rlen fields f' :
  V2_4._parse_dbf_header_and_fields f = Some (Ok (nrec, rlen, fields, f')) ->
  contents f' = contents f /\ nrec < 4294967296 /\ rlen < 65536 /\
  N.of_nat (pos f') < 65536 /\ Forall field_in_range fields.
Proof.
  unfold V2_4._parse_dbf_header_and_fields.
  pose proof (read_contents 32 f) as Hc.
  destruct (read 32 f) as [h f1]. cbn [snd] in Hc.
  destruct (struct_unpack_le 4 (slice 4 8 h)) as [n|] eqn:Hn; [|discriminate].
  destruct (struct_unpack_le 2 (slice 8 10 h)) as [hl|] eqn:Hhl; [|discriminate].
  destruct (struct_unpack_le 2 (slice 10 12 h)) as [rl|] eqn:Hrl; [|discriminate].
  cbn [bind].
  destruct (V2_4.read_descriptors _ f1 []) as [[[flds f2]|e]|] eqn:Hloop; try discriminate.
  intros [= <- <- <- <-].
  destruct (read_descriptors_in_range_v24 _ _ _ _ _ (Forall_nil_2 _) Hloop) as [H1 H2].
  apply unpack4_range in Hn. apply unpack2_range in Hhl. apply unpack2_range in Hrl.
  cbn [seek contents pos].
  split; [congruence|]. split; [exact Hn|]. split; [exact Hrl|].
  split; [lia | exact H1].
Qed.

(** X5. Whatever the file, what a header parser returns is in range: the
    record count is below 2^32, the record length and the position the file
    is left at (the header length) below 2^16, every field has a name of at
    most 11 characters, all ASCII, none NUL, with no white space at either
    end, a type code of one character, a length and a decimal count below
    256; and the file contents are the same. *)
Theorem X5_header_in_range (f : file) (nrec rlen : N) (fields : list field) (f' : file) :
  V2_2._parse_dbf_header_and_fields f = Some (Ok (nrec, rlen, fields, f')) \/
  V2_4._parse_dbf_header_and_fields f = Some (Ok (nrec, rlen, fields, f')) ->
  contents f' = contents f /\ nrec < 4294967296 /\ rlen < 65536 /\
  N.of_nat (pos f') < 65536 /\ Forall field_in_range fields.
Proof.
  intros [H | H]; [apply parse_header_agree in H|];
    exact (parse_header_in_range_v24 f nrec rlen fields f' H).
Qed.

Lemma X5_witness :
  (V2_2._parse_dbf_header_and_fields (open_rb sample_table)
     = Some (Ok (3, 3, [(U "PID", U "C", 2, 0)], mkfile sample_table 96)) \/
   V2_4._parse_dbf_header_and_fields (open_rb sample_table)
     = Some (Ok (3, 3, [(U "PID", U "C", 2, 0)], mkfile sample_table 96))) /\
  Forall field_in_range [(U "PID", U "C", 2, 0)].
Proof.
  assert (H : V2_2._parse_dbf_header_and_fields (open_rb sample_table)
              = Some (Ok (3, 3, [(U "PID", U "C", 2, 0)], mkfile sample_table 96)))
    by (vm_compute; reflexivity).
  split; [left; exact H|].
  exact (proj2 (proj2 (proj2 (proj2
           (X5_header_in_range _ _ _ _ _ (or_introl H)))))).
Defined.

Lemma read_descriptors_size_v22 (fuel : nat) :
  forall f acc fields f',
    V2_2.read_descriptors fuel f acc = Some (Ok (fields, f')) ->
    (32 * (length fields + 1) <= remaining f + 32 * length acc)%nat.
Proof.
  induction fuel as [|fuel IH]; intros f acc fields f'; [discriminate|].
  cbn [V2_2.read_descriptors].
  pose proof (read_full 32 f) as Hfull.
  destruct (read 32 f) as [desc f1]. cbn [fst snd] in Hfull.
  destruct (is_empty desc || (length desc <? 32)%nat); [discriminate|].
  destruct (Hfull eq_refl) as (_ & Hrem & Hle).
  destruct (index 0 desc) as [d0|e]; [|discriminate].
  destruct (d0 =? 13).
  { intros [= <- _]. lia. }
  destruct (let* t := index 11 desc in _) as [fd|e]; [|discriminate].
  intros H. apply IH in H. rewrite length_app in H. simpl in H. lia.
Qed.

(** X6. v2.2 accepts a header only from a file that holds the 32 header
    bytes and a full 32-byte block for every field and for the terminator: a
    table of [k] fields has at least [32 * (k + 2)] bytes. *)
Theorem X6_header_size_v22 (data : bytes) (nrec rlen : N) (fields : list field)
    (f' : file) :
  V2_2._parse_dbf_header_and_fields (open_rb data) = Some (Ok (nrec, rlen, fields, f')) ->
  (32 * (length fields + 2) <= length data)%nat.
Proof.
  unfold V2_2._parse_dbf_header_and_fields.
  pose proof (read_full 32 (open_rb data)) as Hfull.
  destruct (read 32 (open_rb data)) as [header f1]. cbn [fst snd] in Hfull.
  destruct (length header <? 32)%nat eqn:Hlen; [discriminate|].
  assert (Hne : is_empty header = false)
    by (destruct header; [discriminate Hlen | reflexivity]).
  rewrite Hne in Hfull. destruct (Hfull eq_refl) as (_ & Hrem & Hle).
  destruct (let* n := struct_unpack_le 4 (slice 4 8 header) in _) as [[[n h] l]|e];
    [|discriminate].
  destruct (V2_2.read_descriptors _ f1 []) as [[[flds f2]|e]|] eqn:Hloop; try discriminate.
  intros [= _ _ <- _]. apply read_descriptors_size_v22 in Hloop.
  unfold remaining in *. cbn [open_rb contents pos length] in *. lia.
Qed.

Lemma X6_witness :
  V2_2._parse_dbf_header_and_fields (open_rb sample_table)
    = Some (Ok (3, 3, [(U "PID", U "C", 2, 0)], mkfile sample_table 96)) /\
  (32 * (length [(U "PID", U "C", 2, 0)] + 2) <= length sample_table)%nat.
Proof.
  assert (H : V2_2._parse_dbf_header_and_fields (open_rb sample_table)
              = Some (Ok (3, 3, [(U "PID", U "C", 2, 0)], mkfile sample_table 96)))
    by (vm_compute; reflexivity).
  split; [exact H | exact (X6_header_size_v22 _ _ _ _ _ H)].
Defined.

(** The descriptor loop of v2.4 ends at a 0x0D byte, whatever follows it. *)
Lemma read_descriptors_layout_v24 (descs : list bytes) (rest : bytes) :
  Forall descriptor_block descs ->
  forall fuel f acc,
    drop (pos f) (contents f) = concat descs ++ x0d :: rest ->
    (length descs < fuel)%nat ->
    exists f',
      V2_4.read_descriptors fuel f acc
        = Some (Ok (acc ++ map descriptor_fields descs, f')) /\
      contents f' = contents f.
Proof.
  intros Hdescs. induction Hdescs as [|d descs Hd _ IH]; intros fuel f acc Hdrop Hfuel.
  - destruct fuel as [|fuel]; [lia|]. simpl in Hdrop.
    cbn [V2_4.read_descriptors]. unfold read. rewrite Hdrop.
    change (take 32 (x0d :: rest)) with (x0d :: take 31 rest).
    change (index 0 (x0d :: take 31 rest)) with (@Ok N 13). cbv iota beta.
    change (13 =? 13) with true. cbv iota. rewrite app_nil_r.
    eexists. split; reflexivity.
  - destruct fuel as [|fuel]; [lia|].
    simpl in Hdrop. rewrite <- app_assoc in Hdrop.
    cbn [V2_4.read_descriptors].
    destruct (IH fuel (mkfile (contents f) (pos f + 32)) (acc ++ [descriptor_fields d]))
      as (f' & Hloop & Hc).
    + cbn [contents pos]. apply (drop_after_block f d _ 32 Hdrop (proj1 Hd)).
    + simpl in Hfuel. lia.
    + exists f'. split; [|exact Hc].
      rewrite (read_block f d _ 32 Hdrop (proj1 Hd)).
      destruct (descriptor_first d Hd) as (d0 & -> & ->).
      rewrite (descriptor_chain d (proj1 Hd)). cbv iota beta.
      rewrite <- app_assoc in Hloop. exact Hloop.
Qed.

(** X7. A table whose list of descriptors ends with the single byte 0x0D is
    parsed by v2.4 whatever follows that byte; v2.2, which reads the
    terminator as a full 32-byte block, rejects the table when fewer than 31
    bytes follow, as in a table without records. *)
Theorem X7_one_byte_terminator (hdr : bytes) (descs : list bytes) (rest : bytes) :
  length hdr = 32%nat -> Forall descriptor_block descs ->
  V2_4._parse_dbf_header_and_fields (open_rb (hdr ++ concat descs ++ x0d :: rest))
  = Some (Ok (byte_at 4 hdr + 256 * byte_at 5 hdr + 65536 * byte_at 6 hdr
                + 16777216 * byte_at 7 hdr,
              byte_at 10 hdr + 256 * byte_at 11 hdr,
              map descriptor_fields descs,
              mkfile (hdr ++ concat descs ++ x0d :: rest)
                (N.to_nat (byte_at 8 hdr + 256 * byte_at 9 hdr)))) /\
  ((length rest < 31)%nat ->
   V2_2._parse_dbf_header_and_fields (open_rb (hdr ++ concat descs ++ x0d :: rest))
   = Some (Raise unexpected_eof)).
Proof.
  intros Hhdr Hdescs. split.
  - unfold V2_4._parse_dbf_header_and_fields.
    rewrite (read_block (open_rb (hdr ++ concat descs ++ x0d :: rest)) hdr
               (concat descs ++ x0d :: rest) 32 eq_refl Hhdr).
    destruct (header_numbers hdr Hhdr) as (-> & -> & ->). cbn [bind]. cbv iota beta.
    destruct (read_descriptors_layout_v24 descs rest Hdescs
                (V2_4._parse_dbf_header_fuel (open_rb (hdr ++ concat descs ++ x0d :: rest)))
                (mkfile (contents (open_rb (hdr ++ concat descs ++ x0d :: rest)))
                        (pos (open_rb (hdr ++ concat descs ++ x0d :: rest)) + 32)) [])
      as (f' & Hloop & Hc).
    + cbn [pos contents open_rb].
      rewrite drop_app_length' by (rewrite Hhdr; reflexivity). reflexivity.
    + unfold V2_4._parse_dbf_header_fuel. cbn [contents open_rb].
      rewrite !length_app. pose proof (length_concat_blocks descs Hdescs). lia.
    + rewrite Hloop. unfold seek. rewrite Hc. reflexivity.
  - intros Hrest. apply parse_header_eof; [exact Hhdr | exact Hdescs | simpl; lia].
Qed.

Lemma X7_witness :
  length sample_header = 32%nat /\
  Forall descriptor_block sample_descriptors /\
  (length [x1a] < 31)%nat /\
  V2_2._parse_dbf_header_and_fields
    (open_rb (sample_header ++ concat sample_descriptors ++ x0d :: [x1a]))
  = Some (Raise unexpected_eof) /\
  V2_4._parse_dbf_header_and_fields
    (open_rb (sample_header ++ concat sample_descriptors ++ x0d :: [x1a]))
  = Some (Ok (byte_at 4 sample_header + 256 * byte_at 5 sample_header
                + 65536 * byte_at 6 sample_header + 16777216 * byte_at 7 sample_header,
              byte_at 10 sample_header + 256 * byte_at 11 sample_header,
              map descriptor_fields sample_descriptors,
              mkfile (sample_header ++ concat sample_descriptors ++ x0d :: [x1a])
                (N.to_nat (byte_at 8 sample_header + 256 * byte_at 9 sample_header)))).
Proof.
  assert (H1 : length sample_header = 32%nat) by reflexivity.
  assert (H2 : Forall descriptor_block sample_descriptors).
  { repeat constructor. vm_compute. discriminate. }
  assert (H3 : (length [x1a] < 31)%nat) by (simpl; lia).
  destruct (X7_one_byte_terminator sample_header sample_descriptors [x1a] H1 H2)
    as [H24 H22].
  split; [exact H1|]. split; [exact H2|]. split; [exact H3|].
  split; [exact (H22 H3) | exact H24].
Defined.

Lemma unpack_ok_length (width : nat) (l : bytes) (n : N) :
  struct_unpack_le width l = Ok n -> length l = width.
Proof.
  unfold struct_unpack_le. destruct (Nat.eqb_spec (length l) width); [tauto | discriminate].
Qed.

Lemma unpack_raise (width : nat) (l : bytes) (e : exn) :
  struct_unpack_le width l = Raise e -> e = StructError.
Proof.
  unfold struct_unpack_le. destruct (length l =? width)%nat; [discriminate|].
  intros [= <-]. reflexivity.
Qed.

Lemma slice_length {A} (i j : nat) (l : list A) :
  length (slice i j l) = ((j - i) `min` (length l - i))%nat.
Proof. unfold slice. rewrite length_take, length_drop. reflexivity. Qed.

Lemma read_whole (data : bytes) :
  (length data <= 32)%nat ->
  read 32 (open_rb data) = (data, mkfile data (length data)).
Proof.
  intros H. unfold read, open_rb. cbn [pos contents]. rewrite drop_0, take_ge by lia.
  reflexivity.
Qed.

(** X8. v2.4 fails on every file of at most 32 bytes, with the exception of
    the operation that runs out of bytes: [struct.error] when fewer than 12
    bytes are there, [IndexError] from the first descriptor read otherwise. *)
Theorem X8_short_file_v24 (data : bytes) :
  ((length data < 12)%nat ->
   V2_4._parse_dbf_header_and_fields (open_rb data) = Some (Raise StructError) /\
   V2_4.dbf_to_csv data = Some (Raise StructError)) /\
  ((12 <= length data <= 32)%nat ->
   V2_4._parse_dbf_header_and_fields (open_rb data) = Some (Raise IndexError) /\
   V2_4.dbf_to_csv data = Some (Raise IndexError)).
Proof.
  split.
  - intros Hlen.
    assert (H : V2_4._parse_dbf_header_and_fields (open_rb data) = Some (Raise StructError)).
    { unfold V2_4._parse_dbf_header_and_fields. rewrite read_whole by lia.
      destruct (struct_unpack_le 4 (slice 4 8 data)) as [n|e] eqn:H1.
      2:{ apply unpack_raise in H1 as ->. reflexivity. }
      apply unpack_ok_length in H1. rewrite slice_length in H1.
      destruct (struct_unpack_le 2 (slice 8 10 data)) as [h|e] eqn:H2.
      2:{ apply unpack_raise in H2 as ->. reflexivity. }
      apply unpack_ok_length in H2. rewrite slice_length in H2.
      destruct (struct_unpack_le 2 (slice 10 12 data)) as [r|e] eqn:H3.
      2:{ apply unpack_raise in H3 as ->. reflexivity. }
      apply unpack_ok_length in H3. rewrite slice_length in H3. lia. }
    split; [exact H|]. unfold V2_4.dbf_to_csv. rewrite H. reflexivity.
  - intros Hlen.
    assert (H : V2_4._parse_dbf_header_and_fields (open_rb data) = Some (Raise IndexError)).
    { unfold V2_4._parse_dbf_header_and_fields. rewrite read_whole by lia.
      unfold struct_unpack_le. rewrite !slice_length.
      replace (((8 - 4) `min` (length data - 4)) =? 4)%nat with true
        by (symmetry; apply Nat.eqb_eq; lia).
      replace (((10 - 8) `min` (length data - 8)) =? 2)%nat with true
        by (symmetry; apply Nat.eqb_eq; lia).
      replace (((12 - 10) `min` (length data - 10)) =? 2)%nat with true
        by (symmetry; apply Nat.eqb_eq; lia).
      cbn [bind]. cbv iota beta.
      unfold V2_4._parse_dbf_header_fuel. cbn [V2_4.read_descriptors].
      unfold read. cbn [pos contents]. rewrite drop_all. reflexivity. }
    split; [exact H|]. unfold V2_4.dbf_to_csv. rewrite H. reflexivity.
Qed.

Lemma X8_witness :
  (length (B "short") < 12)%nat /\
  V2_4.dbf_to_csv (B "short") = Some (Raise StructError) /\
  (12 <= length sample_header <= 32)%nat /\
  V2_4.dbf_to_csv sample_header = Some (Raise IndexError).
Proof.
  assert (H1 : (length (B "short") < 12)%nat) by (vm_compute; lia).
  assert (H2 : (12 <= length sample_header <= 32)%nat) by (vm_compute; lia).
  split; [exact H1|].
  split; [exact (proj2 (proj1 (X8_short_file_v24 (B "short")) H1))|].
  split; [exact H2|].
  exact (proj2 (proj2 (X8_short_file_v24 sample_header) H2)).
Defined.

(** ** From a table file to rows *)

Lemma decode_records_at_most fa (rlen : nat) (fields : list field) :
  forall n f rows,
    V2_2.decode_records fa n rlen fields f = Ok rows -> (length rows <= n)%nat.
Proof.
  induction n as [|n IH]; intros f rows; cbn [V2_2.decode_records].
  - intros [= <-]. simpl. lia.
  - destruct (read rlen f) as [rec f1].
    destruct (is_empty rec || (length rec <? rlen)%nat).
    { intros [= <-]. simpl. lia. }
    destruct (seq_eqb Byte.eqb (slice 0 1 rec) (B "*")).
    { intros H. apply IH in H. lia. }
    destruct (V2_2.decode_fields fa rec fields 1 ∅) as [row|e]; [|discriminate].
    destruct (V2_2.decode_records fa n rlen fields f1) as [rows'|e] eqn:Hr; [|discriminate].
    cbn [bind]. intros [= <-]. specialize (IH f1 rows' Hr). simpl. lia.
Qed.

Lemma decode_records_at_most_v24 (rlen : nat) (fields : list field) :
  forall n f, (length (V2_4.decode_records n rlen fields f) <= n)%nat.
Proof.
  induction n as [|n IH]; intros f; cbn [V2_4.decode_records]; [simpl; lia|].
  destruct (read rlen f) as [rec f1].
  destruct (seq_eqb Byte.eqb (slice 0 1 rec) (B "*")).
  - specialize (IH f1). lia.
  - specialize (IH f1). simpl. lia.
Qed.

(** X9. Neither version writes more rows than the header announces, and the
    header row of the CSV is the list of field names in descriptor order:
    when [dbf_to_csv] writes, it writes the names of the parsed fields and at
    most [num_records] rows. *)
Theorem X9_rows_at_most_announced fa (csv_before : option bytes) (dbf : bytes)
    (names : list str) :
  (forall rows,
     V2_2.dbf_to_csv fa csv_before dbf = Some (Ok (Written names rows)) ->
     exists nrec rlen fields f,
       V2_2._parse_dbf_header_and_fields (open_rb dbf) = Some (Ok (nrec, rlen, fields, f)) /\
       names = map field_name fields /\ (length rows <= N.to_nat nrec)%nat) /\
  (forall rows,
     V2_4.dbf_to_csv dbf = Some (Ok (Written names rows)) ->
     exists nrec rlen fields f,
       V2_4._parse_dbf_header_and_fields (open_rb dbf) = Some (Ok (nrec, rlen, fields, f)) /\
       names = map field_name fields /\ (length rows <= N.to_nat nrec)%nat).
Proof.
  split.
  - intros rows. unfold V2_2.dbf_to_csv.
    destruct (exists_nonempty csv_before); [discriminate|].
    destruct (V2_2._parse_dbf_header_and_fields (open_rb dbf))
      as [[[[[nrec rlen] fields] f]|e]|]; try discriminate.
    destruct (V2_2.decode_records fa _ _ fields f) as [rows'|e] eqn:Hr; [|discriminate].
    intros [= <- <-]. exists nrec, rlen, fields, f.
    split; [reflexivity|]. split; [reflexivity|].
    exact (decode_records_at_most fa _ fields _ f rows' Hr).
  - intros rows. unfold V2_4.dbf_to_csv.
    destruct (V2_4._parse_dbf_header_and_fields (open_rb dbf))
      as [[[[[nrec rlen] fields] f]|e]|]; try discriminate.
    intros [= <- <-]. exists nrec, rlen, fields, f.
    split; [reflexivity|]. split; [reflexivity|].
    apply decode_records_at_most_v24.
Qed.

Lemma X9_witness :
  V2_4.dbf_to_csv sample_table
  = Some (Ok (Written [U "PID"] [ {[ U "PID" := U "AB" ]}; {[ U "PID" := U "EF" ]} ])) /\
  exists nrec rlen fields f,
    V2_4._parse_dbf_header_and_fields (open_rb sample_table)
      = Some (Ok (nrec, rlen, fields, f)) /\
    [U "PID"] = map field_name fields /\
    (length [ ({[ U "PID" := U "AB" ]} : gmap str str); {[ U "PID" := U "EF" ]} ]
     <= N.to_nat nrec)%nat.
Proof.
  assert (H : V2_4.dbf_to_csv sample_table
              = Some (Ok (Written [U "PID"]
                            [ {[ U "PID" := U "AB" ]}; {[ U "PID" := U "EF" ]} ])))
    by (vm_compute; reflexivity).
  split; [exact H|].
  exact (proj2 (X9_rows_at_most_announced sample_float_accepts None sample_table [U "PID"])
           _ H).
Defined.

(** The header parser of v2.2 on a well laid out header. *)
Lemma parse_header_layout (hdr : bytes) (descs : list bytes) (t rest : bytes) :
  length hdr = 32%nat -> Forall descriptor_block descs -> terminator t ->
  V2_2._parse_dbf_header_and_fields (open_rb (hdr ++ concat descs ++ t ++ rest))
  = Some (Ok (byte_at 4 hdr + 256 * byte_at 5 hdr + 65536 * byte_at 6 hdr
                + 16777216 * byte_at 7 hdr,
              byte_at 10 hdr + 256 * byte_at 11 hdr,
              map descriptor_fields descs,
              mkfile (hdr ++ concat descs ++ t ++ rest)
                (N.to_nat (byte_at 8 hdr + 256 * byte_at 9 hdr)))).
Proof.
  intros Hhdr Hdescs Ht.
  unfold V2_2._parse_dbf_header_and_fields.
  rewrite (read_block (open_rb (hdr ++ concat descs ++ t ++ rest)) hdr
             (concat descs ++ t ++ rest) 32 eq_refl Hhdr).
  rewrite Hhdr. simpl (32 <? 32)%nat. cbv iota.
  destruct (header_numbers hdr Hhdr) as (-> & -> & ->). simpl bind. cbv iota beta.
  rewrite (read_descriptors_layout descs t rest Hdescs Ht).
  - reflexivity.
  - cbn [pos contents open_rb].
    rewrite drop_app_length' by (rewrite Hhdr; reflexivity). reflexivity.
  - unfold V2_2._parse_dbf_header_fuel. simpl.
    rewrite !length_app. pose proof (length_concat_blocks descs Hdescs). lia.
Qed.

Lemma field_names_of_blocks (descs : list bytes) :
  map field_name (map descriptor_fields descs) = map descriptor_name descs.
Proof. rewrite map_map. reflexivity. Qed.

(** X10. Header and records together.  Take a table file with a well laid
    out header that announces [N] records of non-zero length, and whose bytes
    from the header length on are [N] records of that length, then anything.
    When the CSV is not there yet, both versions of [dbf_to_csv] write the
    field names in descriptor order, then one row per record not marked
    deleted, in order, each decoded with the fields the descriptors give. *)
Theorem X10_table_to_rows fa (csv_before : option bytes) (hdr : bytes)
    (descs : list bytes) (t rest : bytes) (recs : list bytes) (tail : bytes) :
  let data := hdr ++ concat descs ++ t ++ rest in
  let num_records := byte_at 4 hdr + 256 * byte_at 5 hdr + 65536 * byte_at 6 hdr
                     + 16777216 * byte_at 7 hdr in
  let header_len := byte_at 8 hdr + 256 * byte_at 9 hdr in
  let record_len := byte_at 10 hdr + 256 * byte_at 11 hdr in
  let fields := map descriptor_fields descs in
  length hdr = 32%nat -> Forall descriptor_block descs -> terminator t ->
  exists_nonempty csv_before = false ->
  0 < record_len ->
  N.to_nat num_records = length recs ->
  Forall (fun r => length r = N.to_nat record_len) recs ->
  drop (N.to_nat header_len) data = concat recs ++ tail ->
  (exists rows,
     V2_2.dbf_to_csv fa csv_before data
       = Some (Ok (Written (map descriptor_name descs) rows)) /\
     Forall2 (fun r row => V2_2.decode_fields fa r fields 1 ∅ = Ok row) (live recs) rows) /\
  V2_4.dbf_to_csv data
  = Some (Ok (Written (map descriptor_name descs)
                (map (fun r => V2_4.decode_fields r fields 1 ∅) (live recs)))).
Proof.
  intros data num_records header_len record_len fields Hhdr Hdescs Ht Hcsv Hpos Hn Hrecs Hdrop.
  pose proof (parse_header_layout hdr descs t rest Hhdr Hdescs Ht) as Hparse.
  fold data num_records header_len record_len fields in Hparse.
  pose proof (field_names_of_blocks descs) as Hnames. fold fields in Hnames.
  split.
  - unfold V2_2.dbf_to_csv. rewrite Hcsv, Hparse.
    destruct (decode_records_complete fa (N.to_nat record_len) fields ltac:(lia)
                (N.to_nat num_records) recs tail (mkfile data (N.to_nat header_len))
                Hrecs Hdrop) as (rows & -> & Hall); [left; lia|].
    exists rows. rewrite Hnames. split; [reflexivity|].
    rewrite Hn, take_ge in Hall by lia. exact Hall.
  - unfold V2_4.dbf_to_csv. rewrite (parse_header_agree _ _ Hparse).
    rewrite (decode_records_complete_v24 (N.to_nat record_len) fields
               (N.to_nat num_records) recs tail (mkfile data (N.to_nat header_len))
               Hrecs Hdrop) by lia.
    rewrite Hn, take_ge by lia. rewrite Hnames. reflexivity.
Qed.

Lemma X10_witness :
  length sample_header = 32%nat /\
  Forall descriptor_block sample_descriptors /\
  terminator terminator_block /\
  exists_nonempty None = false /\
  0 < byte_at 10 sample_header + 256 * byte_at 11 sample_header /\
  N.to_nat (byte_at 4 sample_header + 256 * byte_at 5 sample_header
            + 65536 * byte_at 6 sample_header + 16777216 * byte_at 7 sample_header)
    = length sample_records /\
  Forall (fun r => length r
                   = N.to_nat (byte_at 10 sample_header + 256 * byte_at 11 sample_header))
         sample_records /\
  drop (N.to_nat (byte_at 8 sample_header + 256 * byte_at 9 sample_header)) sample_table
    = concat sample_records ++ [] /\
  V2_4.dbf_to_csv sample_table
  = Some (Ok (Written (map descriptor_name sample_descriptors)
                (map (fun r => V2_4.decode_fields r
                                 (map descriptor_fields sample_descriptors) 1 ∅)
                     (live sample_records)))).
Proof.
  assert (H1 : length sample_header = 32%nat) by reflexivity.
  assert (H2 : Forall descriptor_block sample_descriptors).
  { repeat constructor. vm_compute. discriminate. }
  assert (H3 : terminator terminator_block) by (split; reflexivity).
  assert (H4 : 0 < byte_at 10 sample_header + 256 * byte_at 11 sample_header)
    by (vm_compute; reflexivity).
  assert (H5 : N.to_nat (byte_at 4 sample_header + 256 * byte_at 5 sample_header
                         + 65536 * byte_at 6 sample_header
                         + 16777216 * byte_at 7 sample_header)
               = length sample_records) by reflexivity.
  assert (H6 : Forall (fun r => length r
                   = N.to_nat (byte_at 10 sample_header + 256 * byte_at 11 sample_header))
                 sample_records) by (repeat constructor).
  assert (H7 : drop (N.to_nat (byte_at 8 sample_header + 256 * byte_at 9 sample_header))
                 sample_table = concat sample_records ++ []) by reflexivity.
  split; [exact H1|]. split; [exact H2|]. split; [exact H3|]. split; [reflexivity|].
  split; [exact H4|]. split; [exact H5|]. split; [exact H6|]. split; [exact H7|].
  exact (proj2 (X10_table_to_rows sample_float_accepts None sample_header
                  sample_descriptors terminator_block (concat sample_records)
                  sample_records [] H1 H2 H3 eq_refl H4 H5 H6 H7)).
Defined.

(** ** Cleaning *)

Lemma remove_all_id (c : char) (s : str) : ~ In c s -> remove_all N.eqb c s = s.
Proof.
  induction s as [|x r IH]; simpl; [reflexivity|].
  intros H. destruct (N.eqb_spec x c) as [-> | Hne]; [tauto|].
  rewrite IH by tauto. reflexivity.
Qed.

Lemma strip_trimmed (s : str) : trimmed s -> strip s = s.
Proof.
  intros [Hh Hl]. unfold strip, strip_by.
  rewrite (lstrip_by_id isspace s Hh). apply rstrip_by_id. exact Hl.
Qed.

Lemma single_spaced_tail (c : char) (r : str) :
  single_spaced (c :: r) -> single_spaced r.
Proof.
  intros [H1 H2]. split.
  - intros x Hx. apply H1. right. exact Hx.
  - intros x y (pre & suf & Hr). apply (H2 x y).
    exists (c :: pre), suf. rewrite Hr. reflexivity.
Qed.

Lemma ws_sub_single_spaced (s : str) :
  forall in_run,
    single_spaced s ->
    (in_run = true -> forall c, head s = Some c -> isspace c = false) ->
    ws_sub in_run s = s.
Proof.
  induction s as [|c r IH]; intros in_run Hs Hrun; [reflexivity|].
  rewrite ws_sub_cons. destruct (isspace c) eqn:Hc.
  - destruct in_run.
    + rewrite (Hrun eq_refl c eq_refl) in Hc. discriminate.
    + assert (Hsp : c = space) by (apply (proj1 Hs); [left; reflexivity | exact Hc]).
      rewrite <- Hsp. f_equal. apply IH; [exact (single_spaced_tail c r Hs)|].
      intros _ d Hd. destruct r as [|d' r']; [discriminate|]. injection Hd as ->.
      destruct (isspace d) eqn:Hdsp; [|reflexivity].
      exfalso. apply (proj2 Hs c d); [|exact Hc|exact Hdsp].
      exists [], r'. reflexivity.
  - f_equal. apply IH; [exact (single_spaced_tail c r Hs) | discriminate].
Qed.

Lemma clean_value_clean (s : str) : clean (V2_2._clean_value (Some s)).
Proof.
  split; [|split].
  - unfold V2_2._clean_value, _WS_RE_sub.
    intros H. apply ws_sub_In in H as [H | H]; [|discriminate].
    apply rstrip_by_In, lstrip_by_In in H. exact (remove_all_not_In _ _ H).
  - apply clean_value_trimmed.
  - unfold V2_2._clean_value, _WS_RE_sub. split.
    + intros c. apply ws_sub_spaces.
    + apply ws_sub_runs.
Qed.

Lemma clean_value_fixed (s : str) : clean s -> V2_2._clean_value (Some s) = s.
Proof.
  intros (Hq & Ht & Hs). unfold V2_2._clean_value.
  rewrite (remove_all_id dquote s Hq), (strip_trimmed s Ht).
  apply ws_sub_single_spaced; [exact Hs | discriminate].
Qed.

(** X11. The texts [_clean_value] leaves as they are are exactly the clean
    ones: no double quote, no white space at the ends, white space only as
    single spaces.  Its results are clean, so cleaning a second time changes
    nothing. *)
Theorem X11_clean_value_fixed_points (s : str) :
  (V2_2._clean_value (Some s) = s <-> clean s) /\
  V2_2._clean_value (Some (V2_2._clean_value (Some s))) = V2_2._clean_value (Some s).
Proof.
  split.
  - split.
    + intros H. rewrite <- H. apply clean_value_clean.
    + apply clean_value_fixed.
  - apply clean_value_fixed, clean_value_clean.
Qed.

(** ** Projected rows *)

Lemma clean_row_lookup_v22 (out : list str) (row : reader_row) (h : str) :
  h ∈ out ->
  V2_2.clean_row out row !! h = Some (V2_2._clean_value (row_get row h)).
Proof.
  unfold V2_2.clean_row. induction out as [|x out IH] using rev_ind.
  - intros H. apply elem_of_nil in H. tauto.
  - intros H. rewrite foldl_app. cbn [foldl].
    destruct (decide (x = h)) as [-> | Hne].
    + apply lookup_insert_eq.
    + rewrite lookup_insert_ne by exact Hne. apply IH.
      apply elem_of_app in H as [H | H]; [exact H|].
      apply list_elem_of_singleton in H. congruence.
Qed.

Lemma clean_row_lookup_v24 (out : list str) (row : reader_row) (h : str) :
  h ∈ out ->
  V2_4.clean_row out row !! h
  = Some (V2_2._clean_value (Some (V2_4.py_str (row_get row h)))).
Proof.
  unfold V2_4.clean_row. induction out as [|x out IH] using rev_ind.
  - intros H. apply elem_of_nil in H. tauto.
  - intros H. rewrite foldl_app. cbn [foldl].
    destruct (decide (x = h)) as [-> | Hne].
    + apply lookup_insert_eq.
    + rewrite lookup_insert_ne by exact Hne. apply IH.
      apply elem_of_app in H as [H | H]; [exact H|].
      apply list_elem_of_singleton in H. congruence.
Qed.

Lemma clean_row_absent_v24 (out : list str) (row : reader_row) (h : str) :
  h ∉ out -> V2_4.clean_row out row !! h = None.
Proof.
  intros H. apply not_elem_of_dom. rewrite clean_row_dom_v24.
  intros Hin. apply H. apply elem_of_list_to_set in Hin. exact Hin.
Qed.

(** X12. Every column of a projected row holds the cleaned cell of the input
    row under the same header, whatever the number of columns.  The two
    versions agree on every cell but one the reader gives as [None] (a line
    with fewer cells than the header row): v2.2 writes the empty text for it,
    v2.4 the text [None]. *)
Theorem X12_projected_cells (out : list str) (row : reader_row) (h : str) :
  h ∈ out ->
  V2_2.clean_row out row !! h = Some (V2_2._clean_value (row_get row h)) /\
  V2_4.clean_row out row !! h
    = Some (V2_2._clean_value (Some (V2_4.py_str (row_get row h)))) /\
  (row !! h = Some None ->
   V2_2.clean_row out row !! h = Some [] /\
   V2_4.clean_row out row !! h = Some (U "None")) /\
  (row !! h = None ->
   V2_2.clean_row out row !! h = Some [] /\
   V2_4.clean_row out row !! h = Some []) /\
  (row !! h <> Some None ->
   V2_4.clean_row out row !! h = V2_2.clean_row out row !! h).
Proof.
  intros Hin.
  rewrite (clean_row_lookup_v22 out row h Hin), (clean_row_lookup_v24 out row h Hin).
  split; [reflexivity|]. split; [reflexivity|].
  unfold row_get. split; [|split].
  - intros ->. split; reflexivity.
  - intros ->. split; reflexivity.
  - destruct (row !! h) as [[s|]|]; [reflexivity | congruence | reflexivity].
Qed.

Lemma X12_witness :
  U "PID" ∈ [U "PID"; U "NAME"] /\
  V2_2.clean_row [U "PID"; U "NAME"] {[ U "PID" := Some (U " AB  1 "); U "NAME" := None ]}
    !! U "NAME" = Some [] /\
  V2_4.clean_row [U "PID"; U "NAME"] {[ U "PID" := Some (U " AB  1 "); U "NAME" := None ]}
    !! U "NAME" = Some (U "None") /\
  V2_4.clean_row [U "PID"; U "NAME"] {[ U "PID" := Some (U " AB  1 "); U "NAME" := None ]}
    !! U "PID" = Some (U "AB 1").
Proof.
  assert (H1 : U "PID" ∈ [U "PID"; U "NAME"]) by (apply elem_of_cons; left; reflexivity).
  assert (H2 : U "NAME" ∈ [U "PID"; U "NAME"]).
  { apply elem_of_cons; right. apply elem_of_cons; left; reflexivity. }
  split; [exact H1|].
  destruct (X12_projected_cells [U "PID"; U "NAME"]
              {[ U "PID" := Some (U " AB  1 "); U "NAME" := None ]} (U "NAME") H2)
    as (_ & _ & Hnone & _).
  destruct (Hnone ltac:(vm_compute; reflexivity)) as [G1 G2].
  split; [exact G1|]. split; [exact G2|].
  destruct (X12_projected_cells [U "PID"; U "NAME"]
              {[ U "PID" := Some (U " AB  1 "); U "NAME" := None ]} (U "PID") H1)
    as (_ & G3 & _).
  rewrite G3. vm_compute. reflexivity.
Defined.

Section ProjectorEdges.
Variable lower : str -> str.
Hypothesis lower_nil : lower [] = [].
Hypothesis lower_canonical : forall w, w ∈ RELEVANT_FIELDS -> lower w = w.

Lemma select_headers_none (fieldnames : list str) :
  fst (V2_2.select_headers lower (V2_2.header_map lower fieldnames)
         RELEVANT_FIELDS [] []) = [] <->
  (forall want, want ∈ RELEVANT_FIELDS -> ~ matched lower fieldnames want).
Proof.
  destruct (columns_agree lower lower_nil lower_canonical fieldnames) as [_ Hm].
  cbv zeta in Hm.
  destruct (fst (V2_2.select_headers lower _ RELEVANT_FIELDS [] [])) as [|x out] eqn:Hout.
  - split; [|reflexivity]. intros _ want Hw Hmt.
    apply (Hm want Hw) in Hmt as (h & Hh & _). apply elem_of_nil in Hh. exact Hh.
  - split; [discriminate|]. intros Hno. exfalso.
    destruct (select_headers_spec lower lower_nil lower_canonical fieldnames
                RELEVANT_FIELDS (fun w H => H) [] [])
      as (sel & mis & Heq & _ & H1 & _).
    rewrite Heq in Hout. cbn [fst app] in Hout. subst sel.
    destruct (H1 x ltac:(apply elem_of_cons; left; reflexivity)) as (Hx & w & Hw & Hl).
    apply (Hno w Hw). exists x. split; [exact Hx|].
    rewrite (lower_canonical w Hw). exact Hl.
Qed.

Lemma scan_rows_no_columns (hm : gmap str str) (todo : list reader_row) :
  forall rows,
    V2_4.scan_rows hm [] todo rows None = (rows ++ map (fun _ => ∅) todo, None).
Proof.
  induction todo as [|row todo IH]; intros rows; cbn [V2_4.scan_rows map].
  - rewrite app_nil_r. reflexivity.
  - unfold V2_4.clean_row at 2. cbn [foldl falsy]. rewrite lookup_empty.
    cbn [default from_option is_empty negb]. rewrite IH, <- app_assoc. reflexivity.
Qed.

(** X13. The input without any canonical field.  When the output is not
    there yet, v2.2 raises its error on the configured fields exactly when no
    source field name matches a canonical field, and its error on headers
    when the reader finds no header row; it writes nothing in either case.
    v2.4 raises nothing in these cases: it writes a file named with the token
    [UNKNOWN] that has no column and one empty row per input row. *)
Theorem X13_no_canonical_field (out_before : option bytes) (fieldnames : list str)
    (rows : list reader_row) :
  exists_nonempty out_before = false ->
  (V2_2.clean_and_filter_csv lower out_before (Some fieldnames) rows
     = Raise (RuntimeError "None of the configured RELEVANT_FIELDS were found")
   <-> (forall want, want ∈ RELEVANT_FIELDS -> ~ matched lower fieldnames want)) /\
  V2_2.clean_and_filter_csv lower out_before None rows
    = Raise (RuntimeError "No headers found") /\
  ((forall want, want ∈ RELEVANT_FIELDS -> ~ matched lower fieldnames want) ->
   V2_4.clean_and_filter_csv lower (Some fieldnames) rows
     = (U "UNKNOWN", Written [] (map (fun _ => ∅) rows))) /\
  V2_4.clean_and_filter_csv lower None rows
    = (U "UNKNOWN", Written [] (map (fun _ => ∅) rows)).
Proof.
  intros Hguard. split; [|split; [|split]].
  - rewrite <- select_headers_none. unfold V2_2.clean_and_filter_csv. rewrite Hguard.
    destruct (V2_2.select_headers lower _ RELEVANT_FIELDS [] []) as [[|x out] missing];
      cbn [fst is_empty]; split; try reflexivity; discriminate.
  - unfold V2_2.clean_and_filter_csv. rewrite Hguard. reflexivity.
  - intros Hno. apply select_headers_none in Hno.
    destruct (columns_agree lower lower_nil lower_canonical fieldnames) as [H24 _].
    cbv zeta in H24. rewrite Hno in H24.
    unfold V2_4.clean_and_filter_csv. rewrite H24, scan_rows_no_columns. reflexivity.
  - unfold V2_4.clean_and_filter_csv.
    change (V2_4.out_headers lower (V2_4.header_map lower None)) with (@nil str).
    rewrite scan_rows_no_columns. reflexivity.
Qed.

Lemma keep_digits_nil (s : str) : keep_digits s = [] <-> has_digit s = false.
Proof.
  unfold keep_digits, has_digit. induction s as [|c r IH]; simpl; [tauto|].
  destruct (is_ascii_digit c); simpl; [split; discriminate | exact IH].
Qed.

Lemma scan_rows_token (hm : gmap str str) (out : list str) (todo : list reader_row) :
  forall rows data_date,
    falsy data_date = true ->
    let token := snd (V2_4.scan_rows hm out todo rows data_date) in
    (if falsy token then U "UNKNOWN" else default [] token)
    = date_token (map (date_cell hm out) todo).
Proof.
  induction todo as [|row todo IH]; intros rows data_date Hf; cbn [V2_4.scan_rows map].
  - cbn [snd]. rewrite Hf. reflexivity.
  - rewrite Hf. fold (date_cell hm out row).
    unfold date_token. cbn [List.find].
    destruct (date_cell hm out row) as [|c dd] eqn:Hcell; cbn [is_empty negb].
    + change (has_digit []) with false. cbv iota. apply (IH _ _ Hf).
    + destruct (has_digit (c :: dd)) eqn:Hd.
      * assert (Hk : keep_digits (c :: dd) <> []).
        { intros Hk. apply keep_digits_nil in Hk. congruence. }
        clear IH. revert Hk. generalize (keep_digits (c :: dd)) as tok.
        intros tok Hk. generalize (rows ++ [V2_4.clean_row out row]) as rows'.
        induction todo as [|row' todo IH']; intros rows'; cbn [V2_4.scan_rows snd].
        -- destruct tok; [congruence | reflexivity].
        -- destruct tok as [|t tok]; [congruence|]. cbn [falsy]. apply IH'.
      * apply keep_digits_nil in Hd. rewrite Hd. apply IH. reflexivity.
Qed.

(** X14. The date token in the name of the file v2.4 writes: the digits of
    the first cleaned [data_date] cell that holds a digit, in the order of
    the rows, and [UNKNOWN] when no row has one.  A cell without a digit
    does not settle the token, and the token is never empty. *)
Theorem X14_date_token (fieldnames : option (list str)) (rows : list reader_row) :
  let hm := V2_4.header_map lower fieldnames in
  let token := fst (V2_4.clean_and_filter_csv lower fieldnames rows) in
  token = date_token (map (date_cell hm (V2_4.out_headers lower hm)) rows) /\
  token <> [] /\
  (token = U "UNKNOWN" \/ Forall (fun c => is_ascii_digit c = true) token).
Proof.
  intros hm token.
  assert (Htok : token = date_token (map (date_cell hm (V2_4.out_headers lower hm)) rows)).
  { unfold token, V2_4.clean_and_filter_csv. fold hm.
    pose proof (scan_rows_token hm (V2_4.out_headers lower hm) rows [] None eq_refl) as H.
    cbv zeta in H.
    destruct (V2_4.scan_rows hm _ rows [] None) as [rows' dd]. cbn [fst snd] in *.
    exact H. }
  split; [exact Htok|]. rewrite Htok. unfold date_token.
  destruct (List.find has_digit _) as [dd|] eqn:Hfind.
  - apply find_some in Hfind as [_ Hd]. split.
    + intros Hk. apply keep_digits_nil in Hk. congruence.
    + right. unfold keep_digits. apply List.Forall_forall. intros c Hc.
      apply filter_In in Hc. tauto.
  - split; [discriminate | left; reflexivity].
Qed.

End ProjectorEdges.

Lemma X13_witness :
  exists_nonempty None = false /\
  V2_2.clean_and_filter_csv lower_ascii None None [ ∅ ]
    = Raise (RuntimeError "No headers found") /\
  V2_4.clean_and_filter_csv lower_ascii None [ ∅ ]
    = (U "UNKNOWN", Written [] [ ∅ ]).
Proof.
  split; [reflexivity|].
  destruct (X13_no_canonical_field lower_ascii eq_refl lower_ascii_canonical
              None [] [ ∅ ] eq_refl) as (_ & H1 & _ & H2).
  split; [exact H1 | exact H2].
Defined.

(** ** Downloads *)

Lemma string_length_app (s t : string) :
  String.length (s +:+ t) = (String.length s + String.length t)%nat.
Proof. induction s as [|a s IH]; simpl; [reflexivity | rewrite IH; reflexivity]. Qed.

(** The temporary file of a download is never its destination. *)
Lemma part_of_neq (out_path : string) : part_of out_path <> out_path.
Proof.
  unfold part_of. intros H. apply (f_equal String.length) in H.
  rewrite string_length_app in H. simpl in H. lia.
Qed.

Lemma startswith_take {A} (eqb : A -> A -> bool) (p : list A) :
  forall (n : nat) (l r : list A),
    startswith eqb p (take n l) = true -> startswith eqb p (l ++ r) = true.
Proof.
  induction p as [|x p IH]; intros n l r; [reflexivity|].
  destruct n as [|n]; [rewrite take_0; discriminate|].
  destruct l as [|y l]; [discriminate|]. simpl.
  intros H. apply andb_true_iff in H as [-> H]. exact (IH n l r H).
Qed.

Lemma first_chunk_magic (chunks : list bytes) (first_chunk : bytes) :
  V1_5.first_chunk_of chunks = Some first_chunk ->
  V1_5._is_zip_magic first_chunk = true ->
  V1_5._is_zip_magic (concat chunks) = true.
Proof.
  unfold V1_5.first_chunk_of, V1_5._is_zip_magic, bytes_startswith.
  intros Hf Hm. revert Hf.
  induction chunks as [|c chunks IH]; cbn [List.filter]; [discriminate|].
  destruct c as [|x c].
  - change (negb (is_empty (@nil byte))) with false. cbv iota.
    change (concat ([] :: chunks)) with (concat chunks). exact IH.
  - change (negb (is_empty (x :: c))) with true. cbv iota.
    intros [= <-]. change (concat ((x :: c) :: chunks)) with ((x :: c) ++ concat chunks).
    exact (startswith_take Byte.eqb (B "PK") 1024 (x :: c) (concat chunks) Hm).
Qed.

Section DownloadFacts.
Variable server : nat -> string -> V1_5.http_response.
Variable curl : nat -> string -> V1_8.curl_run.
Variable is_zipfile : bytes -> bool.

Lemma download_validated_raise (url out_path : string) (w w1 : world) (e : exn) :
  V1_5._download_zip_validated server url out_path w = (w1, Raise e) ->
  requests w1 = requests w ++ [url] /\
  delete (part_of out_path) (fs w1) = delete (part_of out_path) (fs w).
Proof.
  unfold V1_5._download_zip_validated.
  destruct (server _ url) as [|status clok chunks breaks].
  { intros [= <- _]. split; reflexivity. }
  destruct (400 <=? status); [intros [= <- _]; split; reflexivity|].
  destruct (negb clok); [intros [= <- _]; split; reflexivity|].
  assert (Hw : forall data,
             delete (part_of out_path)
               (fs (write_file (part_of out_path) data (log_request url w)))
             = delete (part_of out_path) (fs w)).
  { intros data. cbn [fs write_file log_request]. apply delete_insert_eq. }
  destruct breaks; [intros [= <- _]; split; [reflexivity | apply Hw]|].
  destruct (V1_5.first_chunk_of chunks) as [first_chunk|];
    [|intros [= <- _]; split; [reflexivity | apply Hw]].
  destruct (negb (V1_5._is_zip_magic first_chunk)); [|discriminate].
  destruct (V1_5._looks_like_html first_chunk);
    intros [= <- _]; (split; [reflexivity | apply Hw]).
Qed.

Lemma download_validated_ok (url out_path : string) (w w1 : world) :
  V1_5._download_zip_validated server url out_path w = (w1, Ok tt) ->
  exists status chunks,
    server (length (requests w)) url = V1_5.Response status true chunks false /\
    status < 400 /\
    V1_5._is_zip_magic (concat chunks) = true /\
    requests w1 = requests w ++ [url] /\
    fs w1 = <[out_path := concat chunks]> (delete (part_of out_path) (fs w)).
Proof.
  unfold V1_5._download_zip_validated.
  destruct (server _ url) as [|status clok chunks breaks]; [discriminate|].
  destruct (400 <=? status) eqn:Hst; [discriminate|].
  destruct clok; cbn [negb]; [|discriminate].
  destruct breaks; [discriminate|].
  destruct (V1_5.first_chunk_of chunks) as [first_chunk|] eqn:Hfirst; [|discriminate].
  destruct (V1_5._is_zip_magic first_chunk) eqn:Hmagic; cbn [negb].
  2:{ destruct (V1_5._looks_like_html first_chunk); discriminate. }
  intros [= <-]. exists status, chunks.
  split; [reflexivity|]. split; [apply N.leb_gt in Hst; exact Hst|].
  split; [exact (first_chunk_magic chunks first_chunk Hfirst Hmagic)|].
  split; [reflexivity|].
  cbn [fs replace_file write_file log_request]. rewrite delete_insert_eq. reflexivity.
Qed.

Lemma try_urls_raise (urls : list string) (out_path : string) :
  forall w w' e,
    V1_5.try_urls server urls out_path w = (w', Raise e) ->
    e = RuntimeError "All URL attempts failed" /\
    requests w' = requests w ++ urls /\
    fs w' = match urls with
            | [] => fs w
            | _ :: _ => delete (part_of out_path) (fs w)
            end.
Proof.
  induction urls as [|u urls IH]; intros w w' e; cbn [V1_5.try_urls].
  - intros [= <- <-]. rewrite app_nil_r. repeat split.
  - destruct (V1_5._download_zip_validated server u out_path w) as [w1 [[]|e1]] eqn:Hd;
      [discriminate|].
    apply download_validated_raise in Hd as [Hreq Hfs].
    intros H. apply IH in H as (He & Hr & Hf). split; [exact He|].
    cbn [requests fs remove_file] in Hr, Hf. split.
    + rewrite Hr, Hreq, <- app_assoc. reflexivity.
    + rewrite Hf. destruct urls; [exact Hfs|].
      rewrite delete_delete_eq. exact Hfs.
Qed.

Lemma try_urls_ok (urls : list string) (out_path : string) :
  forall w w' url,
    V1_5.try_urls server urls out_path w = (w', Ok url) ->
    exists tried later status chunks,
      urls = tried ++ url :: later /\
      requests w' = requests w ++ tried ++ [url] /\
      server (length (requests w) + length tried)%nat url
        = V1_5.Response status true chunks false /\
      status < 400 /\
      V1_5._is_zip_magic (concat chunks) = true /\
      fs w' = <[out_path := concat chunks]> (delete (part_of out_path) (fs w)).
Proof.
  induction urls as [|u urls IH]; intros w w' url; cbn [V1_5.try_urls]; [discriminate|].
  destruct (V1_5._download_zip_validated server u out_path w) as [w1 [[]|e1]] eqn:Hd.
  - intros [= <- <-].
    apply download_validated_ok in Hd as (status & chunks & Hs & Hst & Hm & Hr & Hf).
    exists [], urls, status, chunks. rewrite Nat.add_0_r.
    repeat (split; [first [reflexivity | assumption]|]). exact Hf.
  - apply download_validated_raise in Hd as [Hreq Hfs].
    intros H. apply IH in H as (tried & later & status & chunks & Hu & Hr & Hs & Hst & Hm & Hf).
    cbn [requests fs remove_file] in Hr, Hs, Hf.
    exists (u :: tried), later, status, chunks.
    split; [rewrite Hu; reflexivity|].
    split; [rewrite Hr, Hreq, <- !app_assoc; reflexivity|].
    split.
    { rewrite Hreq, length_app in Hs. cbn [length] in Hs |- *.
      replace (length (requests w) + S (length tried))%nat
        with (length (requests w) + 1 + length tried)%nat by lia. exact Hs. }
    split; [exact Hst|]. split; [exact Hm|].
    rewrite Hf, delete_delete_eq, Hfs. reflexivity.
Qed.

(** X15. When every attempt fails, [_try_download] of v1.5 has requested
    the six candidate URLs of the state, in order, once each, and raises its
    own error.  It leaves the files as they were but for the temporary
    [.part] file, which is gone, also when one was there before the call; the
    destination is as it was. *)
Theorem X15_try_download_failure (code out_path : string) (w w' : world) (e : exn) :
  V1_5._try_download server code out_path w = (w', Raise e) ->
  e = RuntimeError "All URL attempts failed" /\
  requests w' = requests w ++ V1_5.candidate_urls code /\
  length (V1_5.candidate_urls code) = 6%nat /\
  fs w' = delete (part_of out_path) (fs w) /\
  fs w' !! out_path = fs w !! out_path.
Proof.
  unfold V1_5._try_download. intros H.
  apply try_urls_raise in H as (He & Hr & Hf).
  change (fs w' = delete (part_of out_path) (fs w)) in Hf.
  split; [exact He|]. split; [exact Hr|]. split; [reflexivity|]. split; [exact Hf|].
  rewrite Hf. apply lookup_delete_ne, part_of_neq.
Qed.

(** X16. When [_try_download] of v1.5 returns, it returns the first
    candidate URL whose download was accepted, and has requested the
    candidates before it and no candidate after it.  The destination then
    holds the whole body the server sent for that URL, which begins with the
    ZIP magic bytes; the temporary file is gone and every other file is as it
    was. *)
Theorem X16_try_download_success (code out_path : string) (w w' : world) (url : string) :
  V1_5._try_download server code out_path w = (w', Ok url) ->
  exists tried later status chunks,
    V1_5.candidate_urls code = tried ++ url :: later /\
    requests w' = requests w ++ tried ++ [url] /\
    server (length (requests w) + length tried)%nat url
      = V1_5.Response status true chunks false /\
    status < 400 /\
    V1_5._is_zip_magic (concat chunks) = true /\
    fs w' !! out_path = Some (concat chunks) /\
    fs w' !! part_of out_path = None /\
    (forall p, p <> out_path -> p <> part_of out_path -> fs w' !! p = fs w !! p).
Proof.
  unfold V1_5._try_download. intros H.
  apply try_urls_ok in H
    as (tried & later & status & chunks & Hu & Hr & Hs & Hst & Hm & Hf).
  exists tried, later, status, chunks.
  split; [exact Hu|]. split; [exact Hr|]. split; [exact Hs|]. split; [exact Hst|].
  split; [exact Hm|]. rewrite Hf. split; [apply lookup_insert_eq|]. split.
  - rewrite lookup_insert_ne by (intros Heq; exact (part_of_neq out_path (eq_sym Heq))).
    apply lookup_delete_eq.
  - intros p Hp1 Hp2.
    rewrite lookup_insert_ne by congruence. apply lookup_delete_ne. congruence.
Qed.

(** X17. [_download_with_curl] of v1.8.  When it returns, curl exited with
    success, the destination holds what was in the temporary file, a valid
    ZIP file, and the temporary file is gone.  When it raises, no file but
    the temporary one has changed, so an archive already at the destination
    is as it was; and a download that curl completed but that is not a ZIP
    file is kept in the temporary file. *)
Theorem X17_curl_download (url out_path : string) (w w' : world) (r : result unit) :
  V1_8._download_with_curl curl is_zipfile url out_path w = (w', r) ->
  (r = Ok tt ->
   exists written data,
     curl (length (requests w)) url = V1_8.CurlExit true written /\
     (written = Some data \/ written = None /\ fs w !! part_of out_path = Some data) /\
     is_zipfile data = true /\
     requests w' = requests w ++ [url] /\
     fs w' = <[out_path := data]> (delete (part_of out_path) (fs w))) /\
  (forall e, r = Raise e ->
     (forall p, p <> part_of out_path -> fs w' !! p = fs w !! p) /\
     fs w' !! out_path = fs w !! out_path /\
     (forall data, curl (length (requests w)) url = V1_8.CurlExit true (Some data) ->
        is_zipfile data = false /\ fs w' !! part_of out_path = Some data /\
        e = RuntimeError "Downloaded file is not a valid ZIP")).
Proof.
  unfold V1_8._download_with_curl.
  destruct (curl _ url) as [|success written].
  { intros [= <- <-]. split; [discriminate|].
    intros e _. split; [reflexivity|]. split; [reflexivity|]. discriminate. }
  set (w1 := match written with
             | Some data => write_file (part_of out_path) data (log_request url w)
             | None => log_request url w
             end).
  assert (Hother : forall p, p <> part_of out_path -> fs w1 !! p = fs w !! p).
  { intros p Hp. unfold w1. destruct written as [data|]; cbn [fs write_file log_request];
      [apply lookup_insert_ne; congruence | reflexivity]. }
  assert (Hout : fs w1 !! out_path = fs w !! out_path).
  { apply Hother. intros Heq. exact (part_of_neq out_path (eq_sym Heq)). }
  assert (Hreq : requests w1 = requests w ++ [url]).
  { unfold w1. destruct written; reflexivity. }
  assert (Hpart : fs w1 !! part_of out_path
                  = match written with
                    | Some data => Some data
                    | None => fs w !! part_of out_path
                    end).
  { unfold w1. destruct written as [data|]; cbn [fs write_file log_request];
      [apply lookup_insert_eq | reflexivity]. }
  assert (Hdel : delete (part_of out_path) (fs w1) = delete (part_of out_path) (fs w)).
  { unfold w1. destruct written as [data|]; cbn [fs write_file log_request];
      [apply delete_insert_eq | reflexivity]. }
  clearbody w1.
  destruct success; cbn [negb].
  2:{ intros [= <- <-]. split; [discriminate|].
      intros e _. split; [exact Hother|]. split; [exact Hout|]. discriminate. }
  unfold V1_8.is_zipfile_at.
  destruct (fs w1 !! part_of out_path) as [data|] eqn:Hdata.
  - destruct (is_zipfile data) eqn:Hzip; cbn [negb].
    + intros [= <- <-]. split.
      * intros _. exists written, data. split; [reflexivity|].
        split; [destruct written; [left | right; split; [reflexivity|]]; congruence|].
        split; [exact Hzip|]. split; [exact Hreq|].
        cbn [fs replace_file]. rewrite Hdel. reflexivity.
      * discriminate.
    + intros [= <- <-]. split; [discriminate|].
      intros e [= <-]. split; [exact Hother|]. split; [exact Hout|].
      intros data' [= ->]. cbv iota in Hpart. injection Hpart as ->.
      repeat split; assumption.
  - cbn [negb]. intros [= <- <-]. split; [discriminate|].
    intros e _. split; [exact Hother|]. split; [exact Hout|].
    intros data' [= ->]. discriminate.
Qed.

End DownloadFacts.

Lemma X15_witness :
  exists w',
    V1_5._try_download unreachable_server "AL" (zip_path_of "AL") empty_world
      = (w', Raise (RuntimeError "All URL attempts failed")) /\
    length (requests w') = 6%nat /\
    fs w' !! zip_path_of "AL" = None.
Proof.
  destruct (V1_5._try_download unreachable_server "AL" (zip_path_of "AL") empty_world)
    as [w' [u|e]] eqn:H.
  - vm_compute in H. discriminate H.
  - destruct (X15_try_download_failure unreachable_server "AL" (zip_path_of "AL")
                empty_world w' e H) as (He & Hr & Hlen & _ & Hout).
    exists w'. rewrite He. split; [reflexivity|].
    split; [rewrite Hr; exact Hlen | rewrite Hout; reflexivity].
Defined.

Lemma X16_witness :
  exists w',
    V1_5._try_download sample_server "AL" (zip_path_of "AL") empty_world
      = (w', Ok "https://www.ngs.noaa.gov/pub/DS_ARCHIVE/ShapeFiles/AL.zip"%string) /\
    fs w' !! part_of (zip_path_of "AL") = None /\
    exists data, fs w' !! zip_path_of "AL" = Some data /\ V1_5._is_zip_magic data = true.
Proof.
  destruct (V1_5._try_download sample_server "AL" (zip_path_of "AL") empty_world)
    as [w' [u|e]] eqn:H.
  - assert (Hu : u = "https://www.ngs.noaa.gov/pub/DS_ARCHIVE/ShapeFiles/AL.zip"%string).
    { vm_compute in H. injection H as _ <-. reflexivity. }
    destruct (X16_try_download_success sample_server "AL" (zip_path_of "AL")
                empty_world w' u H)
      as (tried & later & status & chunks & _ & _ & _ & _ & Hm & Hout & Hpart & _).
    exists w'. rewrite Hu. split; [reflexivity|]. split; [exact Hpart|].
    exists (concat chunks). split; [exact Hout | exact Hm].
  - vm_compute in H. discriminate H.
Defined.

Lemma X17_witness :
  exists w',
    V1_8._download_with_curl misled_curl sample_is_zipfile
      (V1_8.BASE_DIR_URL +:+ "AL.zip") (zip_path_of "AL")
      (write_file (zip_path_of "AL") sample_archive empty_world)
    = (w', Raise (RuntimeError "Downloaded file is not a valid ZIP")) /\
    fs w' !! zip_path_of "AL" = Some sample_archive /\
    fs w' !! part_of (zip_path_of "AL") = Some error_page.
Proof.
  destruct (V1_8._download_with_curl misled_curl sample_is_zipfile
              (V1_8.BASE_DIR_URL +:+ "AL.zip") (zip_path_of "AL")
              (write_file (zip_path_of "AL") sample_archive empty_world))
    as [w' r] eqn:H.
  destruct (X17_curl_download misled_curl sample_is_zipfile _ _ _ w' r H) as [_ Hraise].
  destruct r as [[]|e]; [vm_compute in H; discriminate H|].
  destruct (Hraise e eq_refl) as (_ & Hout & Hkept).
  destruct (Hkept error_page eq_refl) as (_ & Hpart & ->).
  exists w'. split; [reflexivity|]. split; [|exact Hpart].
  rewrite Hout. apply lookup_insert_eq.
Defined.

(** ** Extraction *)

Lemma write_file_same (path : string) (data : bytes) (w : world) :
  fs w !! path = Some data -> write_file path data w = w.
Proof.
  intros H. destruct w as [files reqs]. unfold write_file. cbn [fs requests] in *.
  f_equal. apply insert_id. exact H.
Qed.

Lemma copy_member_cases (z : archive) (member out_path : string) (w : world) :
  (zip_read z member = OpenFails /\
   copy_member z member out_path w = (w, Raises MemberOpenError)) \/
  (zip_read z member = ReadFails /\
   copy_member z member out_path w = (write_file out_path [] w, Raises MemberReadError)) \/
  (exists data, zip_read z member = Content data /\
   copy_member z member out_path w = (write_file out_path data w, Returns tt)).
Proof.
  unfold copy_member. destruct (zip_read z member) as [| |data].
  - left. split; reflexivity.
  - right. left. split; reflexivity.
  - right. right. exists data. split; reflexivity.
Qed.

Lemma exists_nonempty_false_nil : exists_nonempty (Some []) = false.
Proof. reflexivity. Qed.

Section ExtractFacts.
Variable z : archive.
Variables dbf_dir prefix : string.

(** What the loop of v1.5 does to the files, whatever its outcome. *)
Lemma extract_members_files (members : list string) :
  forall w count w' r,
    V1_5.extract_members z dbf_dir prefix members w count = (w', r) ->
    requests w' = requests w /\
    forall q,
      fs w' !! q = fs w !! q \/
      (exists_nonempty (fs w !! q) = false /\
       exists m, In m members /\ string_is_empty (basename m) = false /\
                 target dbf_dir prefix m = q /\
                 ((zip_read z m = ReadFails /\ fs w' !! q = Some []) \/
                  exists data, zip_read z m = Content data /\ fs w' !! q = Some data)).
Proof.
  induction members as [|m rest IH]; intros w count w' r; cbn [V1_5.extract_members].
  { intros [= <- _]. split; [reflexivity|]. intros q. left. reflexivity. }
  assert (Hrest : forall w0 c0,
             V1_5.extract_members z dbf_dir prefix rest w0 c0 = (w', r) ->
             fs w0 = fs w -> requests w0 = requests w ->
             requests w' = requests w /\
             forall q,
               fs w' !! q = fs w !! q \/
               (exists_nonempty (fs w !! q) = false /\
                exists m0, In m0 (m :: rest) /\ string_is_empty (basename m0) = false /\
                  target dbf_dir prefix m0 = q /\
                  ((zip_read z m0 = ReadFails /\ fs w' !! q = Some []) \/
                   exists data, zip_read z m0 = Content data /\ fs w' !! q = Some data))).
  { intros w0 c0 H Hfs Hreq. apply IH in H as [Hr Hq]. split; [congruence|].
    intros q. destruct (Hq q) as [Hsame | (Hne & m0 & Hin & Hb & Ht & Hcase)].
    - left. congruence.
    - right. split; [congruence|]. exists m0. split; [right; exact Hin|]. auto. }
  destruct (string_is_empty (basename m)) eqn:Hbase.
  { intros H. exact (Hrest w count H eq_refl eq_refl). }
  fold (target dbf_dir prefix m).
  destruct (exists_nonempty (fs w !! target dbf_dir prefix m)) eqn:Hguard.
  { intros H. exact (Hrest w _ H eq_refl eq_refl). }
  destruct (copy_member_cases z m (target dbf_dir prefix m) w)
    as [[Hread ->] | [[Hread ->] | (data & Hread & ->)]].
  - intros [= <- _]. split; [reflexivity|]. intros q. left. reflexivity.
  - intros [= <- _]. split; [reflexivity|]. intros q.
    destruct (decide (target dbf_dir prefix m = q)) as [<- | Hne].
    + right. split; [exact Hguard|]. exists m.
      split; [left; reflexivity|]. split; [exact Hbase|]. split; [reflexivity|].
      left. split; [exact Hread|]. apply lookup_insert_eq.
    + left. cbn [fs write_file]. apply lookup_insert_ne. exact Hne.
  - intros H. apply IH in H as [Hr Hq]. split; [exact Hr|]. intros q.
    destruct (decide (target dbf_dir prefix m = q)) as [<- | Hne].
    + right. split; [exact Hguard|].
      destruct (Hq (target dbf_dir prefix m))
        as [Hsame | (_ & m0 & Hin & Hb & Ht & Hcase)].
      * exists m. split; [left; reflexivity|]. split; [exact Hbase|].
        split; [reflexivity|]. right. exists data. split; [exact Hread|].
        rewrite Hsame. apply lookup_insert_eq.
      * exists m0. split; [right; exact Hin|]. auto.
    + assert (Hw : fs (write_file (target dbf_dir prefix m) data w) !! q = fs w !! q)
        by (apply lookup_insert_ne; exact Hne).
      destruct (Hq q) as [Hsame | (Hne' & m0 & Hin & Hb & Ht & Hcase)].
      * left. congruence.
      * right. split; [congruence|]. exists m0. split; [right; exact Hin|]. auto.
Qed.

(** A file that is there and not empty is left as it is. *)
Lemma extract_members_keeps (members : list string) w count w' r q :
  V1_5.extract_members z dbf_dir prefix members w count = (w', r) ->
  exists_nonempty (fs w !! q) = true ->
  fs w' !! q = fs w !! q.
Proof.
  intros H Hq. apply extract_members_files in H as [_ H].
  destruct (H q) as [Hsame | [Hne _]]; [exact Hsame | congruence].
Qed.

(** Running the loop again on the files it left changes nothing and ends
    the same way. *)
Lemma extract_members_rerun (members : list string) (w' : world) (r : outcome nat) :
  forall w count,
    V1_5.extract_members z dbf_dir prefix members w count = (w', r) ->
    V1_5.extract_members z dbf_dir prefix members w' count = (w', r).
Proof.
  induction members as [|m rest IH]; intros w count; cbn [V1_5.extract_members].
  { intros [= <- <-]. reflexivity. }
  destruct (string_is_empty (basename m)) eqn:Hbase; [apply IH|].
  fold (target dbf_dir prefix m).
  destruct (exists_nonempty (fs w !! target dbf_dir prefix m)) eqn:Hguard.
  { intros H. rewrite (extract_members_keeps _ _ _ _ _ _ H Hguard), Hguard.
    exact (IH _ _ H). }
  destruct (copy_member_cases z m (target dbf_dir prefix m) w)
    as [[Hread Hcopy] | [[Hread Hcopy] | (data & Hread & Hcopy)]]; rewrite Hcopy.
  - intros [= <- <-]. rewrite Hguard, Hcopy. reflexivity.
  - intros [= <- <-]. cbn [fs write_file]. rewrite lookup_insert_eq.
    cbn [exists_nonempty]. unfold copy_member. rewrite Hread.
    rewrite (write_file_same (target dbf_dir prefix m) []); [reflexivity|].
    apply lookup_insert_eq.
  - intros H. pose proof (extract_members_files _ _ _ _ _ H) as [_ Hfiles].
    assert (Hnow : fs (write_file (target dbf_dir prefix m) data w)
                   !! target dbf_dir prefix m = Some data) by apply lookup_insert_eq.
    assert (Hcase : exists_nonempty (fs w' !! target dbf_dir prefix m) = true \/
                    (fs w' !! target dbf_dir prefix m = Some [] /\ data = [])).
    { destruct (Hfiles (target dbf_dir prefix m))
        as [Hsame | (Hne & m1 & _ & _ & _ & Hlater)].
      - rewrite Hnow in Hsame. rewrite Hsame.
        destruct data; [right; split; reflexivity | left; reflexivity].
      - rewrite Hnow in Hne. destruct data as [|b data]; [|discriminate].
        destruct Hlater as [[_ Hw'] | (data' & _ & Hw')]; rewrite Hw'.
        + right. split; reflexivity.
        + destruct data'; [right; split; reflexivity | left; reflexivity]. }
    destruct Hcase as [Hthere | [Hempty ->]].
    + rewrite Hthere. exact (IH _ _ H).
    + rewrite Hempty. cbn [exists_nonempty]. unfold copy_member. rewrite Hread.
      rewrite (write_file_same _ _ _ Hempty). exact (IH _ _ H).
Qed.

End ExtractFacts.

Section ExtractAgree.
Variable lower : string -> string.
Variable z : archive.
Variable prefix : string.

Lemma selected_filter (names : list string) :
  List.filter (fun m => negb (string_is_empty (basename m)))
    (List.filter (V1_5.is_dbf lower) names)
  = List.filter (selected lower) names.
Proof.
  induction names as [|m names IH]; [reflexivity|].
  unfold selected, V1_5.is_dbf in *. cbn [List.filter].
  destruct (string_endswith ".dbf" (lower m)); cbn [andb List.filter]; rewrite IH;
    reflexivity.
Qed.

(** The loops of v1.5 and v1.8 do the same to the files and end the same
    way. *)
Lemma extract_members_agree (names : list string) :
  forall w count extracted,
    let r5 := V1_5.extract_members z DBF_DIR prefix
                (List.filter (V1_5.is_dbf lower) names) w count in
    let r8 := V1_8.extract_members lower z prefix names w extracted in
    fst r8 = fst r5 /\
    match snd r5, snd r8 with
    | Returns n, Returns l =>
        n = (count + length (List.filter (selected lower) names))%nat /\
        l = extracted ++ map (target DBF_DIR prefix) (List.filter (selected lower) names)
    | Raises e5, Raises e8 => e5 = e8
    | _, _ => False
    end.
Proof.
  induction names as [|m names IH]; intros w count extracted; cbv zeta.
  { cbn. rewrite app_nil_r, Nat.add_0_r. repeat split. }
  destruct (string_endswith ".dbf" (lower m)) eqn:Hdbf.
  2:{ assert (H5 : List.filter (V1_5.is_dbf lower) (m :: names)
                   = List.filter (V1_5.is_dbf lower) names)
        by (cbn [List.filter]; unfold V1_5.is_dbf at 1; rewrite Hdbf; reflexivity).
      assert (Hs : List.filter (selected lower) (m :: names)
                   = List.filter (selected lower) names)
        by (cbn [List.filter]; unfold selected at 1; rewrite Hdbf; reflexivity).
      assert (H8 : V1_8.extract_members lower z prefix (m :: names) w extracted
                   = V1_8.extract_members lower z prefix names w extracted)
        by (cbn [V1_8.extract_members]; rewrite Hdbf; reflexivity).
      rewrite H5, Hs, H8. apply IH. }
  assert (H5 : List.filter (V1_5.is_dbf lower) (m :: names)
               = m :: List.filter (V1_5.is_dbf lower) names)
    by (cbn [List.filter]; unfold V1_5.is_dbf at 1; rewrite Hdbf; reflexivity).
  rewrite H5. clear H5.
  destruct (string_is_empty (basename m)) eqn:Hbase.
  { assert (Hs : List.filter (selected lower) (m :: names)
                 = List.filter (selected lower) names)
      by (cbn [List.filter]; unfold selected at 1; rewrite Hdbf, Hbase; reflexivity).
    assert (H8 : V1_8.extract_members lower z prefix (m :: names) w extracted
                 = V1_8.extract_members lower z prefix names w extracted)
      by (cbn [V1_8.extract_members]; rewrite Hdbf, Hbase; reflexivity).
    assert (H5 : V1_5.extract_members z DBF_DIR prefix
                   (m :: List.filter (V1_5.is_dbf lower) names) w count
                 = V1_5.extract_members z DBF_DIR prefix
                     (List.filter (V1_5.is_dbf lower) names) w count)
      by (cbn [V1_5.extract_members]; rewrite Hbase; reflexivity).
    rewrite Hs, H8, H5. apply IH. }
  assert (Hs : List.filter (selected lower) (m :: names)
               = m :: List.filter (selected lower) names)
    by (cbn [List.filter]; unfold selected at 1; rewrite Hdbf, Hbase; reflexivity).
  rewrite Hs. clear Hs. cbn [map length].
  assert (Hnext : forall w0,
    fst (V1_8.extract_members lower z prefix names w0
           (extracted ++ [target DBF_DIR prefix m]))
    = fst (V1_5.extract_members z DBF_DIR prefix
             (List.filter (V1_5.is_dbf lower) names) w0 (count + 1)) /\
    match snd (V1_5.extract_members z DBF_DIR prefix
                 (List.filter (V1_5.is_dbf lower) names) w0 (count + 1)),
          snd (V1_8.extract_members lower z prefix names w0
                 (extracted ++ [target DBF_DIR prefix m])) with
    | Returns n, Returns l =>
        n = (count + S (length (List.filter (selected lower) names)))%nat /\
        l = extracted ++ target DBF_DIR prefix m
                         :: map (target DBF_DIR prefix) (List.filter (selected lower) names)
    | Raises e5, Raises e8 => e5 = e8
    | _, _ => False
    end).
  { intros w0.
    destruct (IH w0 (count + 1)%nat (extracted ++ [target DBF_DIR prefix m])) as [H1 H2].
    split; [exact H1|].
    destruct (snd (V1_5.extract_members _ _ _ _ w0 _)) as [n|e5],
             (snd (V1_8.extract_members _ _ _ _ w0 _)) as [l|e8]; try exact H2.
    destruct H2 as [-> ->]. split; [lia|]. rewrite <- app_assoc. reflexivity. }
  destruct (exists_nonempty (fs w !! target DBF_DIR prefix m)) eqn:Hguard.
  { assert (H8 : V1_8.extract_members lower z prefix (m :: names) w extracted
                 = V1_8.extract_members lower z prefix names w
                     (extracted ++ [target DBF_DIR prefix m])).
    { cbn [V1_8.extract_members]. rewrite Hdbf, Hbase. cbn [negb].
      fold (target DBF_DIR prefix m). rewrite Hguard. reflexivity. }
    assert (H5 : V1_5.extract_members z DBF_DIR prefix
                   (m :: List.filter (V1_5.is_dbf lower) names) w count
                 = V1_5.extract_members z DBF_DIR prefix
                     (List.filter (V1_5.is_dbf lower) names) w (count + 1)).
    { cbn [V1_5.extract_members]. rewrite Hbase.
      fold (target DBF_DIR prefix m). rewrite Hguard. reflexivity. }
    rewrite H8, H5. apply Hnext. }
  assert (H8 : V1_8.extract_members lower z prefix (m :: names) w extracted
               = match copy_member z m (target DBF_DIR prefix m) w with
                 | (w0, Returns _) =>
                     V1_8.extract_members lower z prefix names w0
                       (extracted ++ [target DBF_DIR prefix m])
                 | (w0, Raises e) => (w0, Raises e)
                 end).
  { cbn [V1_8.extract_members]. rewrite Hdbf, Hbase. cbn [negb].
    fold (target DBF_DIR prefix m). rewrite Hguard. reflexivity. }
  assert (H5 : V1_5.extract_members z DBF_DIR prefix
                 (m :: List.filter (V1_5.is_dbf lower) names) w count
               = match copy_member z m (target DBF_DIR prefix m) w with
                 | (w0, Returns _) =>
                     V1_5.extract_members z DBF_DIR prefix
                       (List.filter (V1_5.is_dbf lower) names) w0 (count + 1)
                 | (w0, Raises e) => (w0, Raises e)
                 end).
  { cbn [V1_5.extract_members]. rewrite Hbase.
    fold (target DBF_DIR prefix m). rewrite Hguard. reflexivity. }
  rewrite H8, H5. clear H8 H5.
  destruct (copy_member_cases z m (target DBF_DIR prefix m) w)
    as [[_ ->] | [[_ ->] | (data & _ & ->)]].
  - cbn. split; reflexivity.
  - cbn. split; reflexivity.
  - apply Hnext.
Qed.

End ExtractAgree.

Section ArchiveFacts.
Variable lower : string -> string.
Variable ZipFile : bytes -> option archive.
(** An empty file is not a ZIP file. *)
Hypothesis ZipFile_empty : ZipFile [] = None.

Lemma open_zip_returns (zip_path : string) (w : world) (z : archive) :
  open_zip ZipFile zip_path w = Returns z ->
  exists data, fs w !! zip_path = Some data /\ ZipFile data = Some z /\
               exists_nonempty (fs w !! zip_path) = true.
Proof.
  unfold open_zip. destruct (fs w !! zip_path) as [data|]; [|discriminate].
  destruct (ZipFile data) as [z'|] eqn:Hz; [|discriminate].
  intros [= <-]. exists data. split; [reflexivity|]. split; [exact Hz|].
  destruct data; [congruence | reflexivity].
Qed.

Lemma open_zip_same (zip_path : string) (w w' : world) :
  fs w' !! zip_path = fs w !! zip_path ->
  open_zip ZipFile zip_path w' = open_zip ZipFile zip_path w.
Proof. unfold open_zip. intros ->. reflexivity. Qed.

(** X18. What [_extract_dbfs] of v1.5 does to the files, whether it returns
    or raises.  It sends no request.  A file is left as it was unless it was
    absent or empty and is the target [dbf_dir/prefix_base] of a member of
    the archive whose lower-cased name ends with [.dbf] and does not end
    with a slash; such a file then holds the contents of one such member, or
    is empty because reading the member failed.  A file that was there and
    not empty is never written. *)
Theorem X18_extract_dbfs_files (zip_path dbf_dir prefix : string) (w : world) :
  let w' := fst (V1_5._extract_dbfs lower ZipFile zip_path dbf_dir prefix w) in
  requests w' = requests w /\
  forall q,
    fs w' !! q = fs w !! q \/
    (exists_nonempty (fs w !! q) = false /\
     exists z m,
       open_zip ZipFile zip_path w = Returns z /\
       In m (namelist z) /\ selected lower m = true /\
       target dbf_dir prefix m = q /\
       ((zip_read z m = ReadFails /\ fs w' !! q = Some []) \/
        exists data, zip_read z m = Content data /\ fs w' !! q = Some data)).
Proof.
  unfold V1_5._extract_dbfs.
  destruct (open_zip ZipFile zip_path w) as [z|e] eqn:Hopen.
  2:{ cbn. split; [reflexivity|]. intros q. left. reflexivity. }
  destruct (V1_5.extract_members z dbf_dir prefix
              (List.filter (V1_5.is_dbf lower) (namelist z)) w 0) as [w' r] eqn:Hloop.
  cbn [fst]. apply extract_members_files in Hloop as [Hreq Hfiles].
  split; [exact Hreq|]. intros q.
  destruct (Hfiles q) as [Hsame | (Hne & m & Hin & Hb & Ht & Hcase)]; [left; exact Hsame|].
  right. split; [exact Hne|]. exists z, m. split; [reflexivity|].
  apply filter_In in Hin as [Hin Hdbf]. split; [exact Hin|].
  split; [|split; [exact Ht | exact Hcase]].
  unfold selected. unfold V1_5.is_dbf in Hdbf. rewrite Hdbf, Hb. reflexivity.
Qed.

Lemma extract_dbfs_agree (zip_path prefix : string) (w : world) :
  let r5 := V1_5._extract_dbfs lower ZipFile zip_path DBF_DIR prefix w in
  let r8 := V1_8._extract_dbfs lower ZipFile zip_path prefix w in
  fst r8 = fst r5 /\
  match snd r5, snd r8 with
  | Returns n, Returns l =>
      n = length l /\
      exists z, open_zip ZipFile zip_path w = Returns z /\
                l = map (target DBF_DIR prefix) (List.filter (selected lower) (namelist z))
  | Raises e5, Raises e8 => e5 = e8
  | _, _ => False
  end.
Proof.
  unfold V1_5._extract_dbfs, V1_8._extract_dbfs.
  destruct (open_zip ZipFile zip_path w) as [z|e] eqn:Hopen; [|split; reflexivity].
  destruct (extract_members_agree lower z prefix (namelist z) w 0%nat []) as [H1 H2].
  split; [exact H1|].
  destruct (snd (V1_5.extract_members _ _ _ _ _ _)) as [n|e5],
           (snd (V1_8.extract_members _ _ _ _ _ _)) as [l|e8]; try exact H2.
  destruct H2 as [-> ->]. cbn [app]. split; [rewrite length_map; reflexivity|].
  exists z. split; reflexivity.
Qed.

(** X19. [_extract_dbfs] of v1.8 and of v1.5 (called with the directory
    v1.8 has fixed) leave the same files and end the same way: both raise the
    same exception, or v1.8 returns the target paths of the selected members
    in the order of the archive, files that were already there included, and
    v1.5 returns their number. *)
Theorem X19_extract_dbfs_agree (zip_path prefix : string) (w : world) :
  let r5 := V1_5._extract_dbfs lower ZipFile zip_path DBF_DIR prefix w in
  let r8 := V1_8._extract_dbfs lower ZipFile zip_path prefix w in
  fst r8 = fst r5 /\
  match snd r5, snd r8 with
  | Returns n, Returns l =>
      n = length l /\
      exists z, open_zip ZipFile zip_path w = Returns z /\
                l = map (target DBF_DIR prefix) (List.filter (selected lower) (namelist z))
  | Raises e5, Raises e8 => e5 = e8
  | _, _ => False
  end.
Proof. exact (extract_dbfs_agree zip_path prefix w). Qed.

Lemma extract_dbfs_again_v15 (zip_path dbf_dir prefix : string) (w w' : world)
    (r : outcome nat) :
  V1_5._extract_dbfs lower ZipFile zip_path dbf_dir prefix w = (w', r) ->
  V1_5._extract_dbfs lower ZipFile zip_path dbf_dir prefix w' = (w', r).
Proof.
  unfold V1_5._extract_dbfs.
  destruct (open_zip ZipFile zip_path w) as [z|e] eqn:Hopen.
  2:{ intros [= <- <-]. rewrite Hopen. reflexivity. }
  intros Hloop.
  destruct (open_zip_returns zip_path w z Hopen) as (data & _ & _ & Hthere).
  pose proof (extract_members_keeps _ _ _ _ _ _ _ _ _ Hloop Hthere) as Hzip.
  rewrite (open_zip_same zip_path w w' Hzip), Hopen.
  exact (extract_members_rerun z dbf_dir prefix _ w' r w 0%nat Hloop).
Qed.

Lemma extract_dbfs_twice (zip_path dbf_dir prefix : string) (w w' : world) :
  (forall r,
     V1_5._extract_dbfs lower ZipFile zip_path dbf_dir prefix w = (w', r) ->
     V1_5._extract_dbfs lower ZipFile zip_path dbf_dir prefix w' = (w', r)) /\
  (forall r,
     V1_8._extract_dbfs lower ZipFile zip_path prefix w = (w', r) ->
     V1_8._extract_dbfs lower ZipFile zip_path prefix w' = (w', r)).
Proof.
  split; [intros r; apply extract_dbfs_again_v15|].
  intros r8 H8.
  destruct (extract_dbfs_agree zip_path prefix w) as [Hw Hr].
  rewrite H8 in Hw, Hr. cbn [fst snd] in Hw, Hr.
  destruct (V1_5._extract_dbfs lower ZipFile zip_path DBF_DIR prefix w)
    as [w5 r5] eqn:H5; cbn [fst snd] in Hw, Hr. subst w5.
  pose proof (extract_dbfs_again_v15 _ _ _ _ _ _ H5) as H5'.
  destruct (extract_dbfs_agree zip_path prefix w') as [Hw' Hr'].
  rewrite H5' in Hw', Hr'. cbn [fst snd] in Hw', Hr'.
  destruct (V1_8._extract_dbfs lower ZipFile zip_path prefix w')
    as [w8 r8']; cbn [fst snd] in Hw', Hr'. subst w8. f_equal.
  destruct r5 as [n|e5], r8 as [l|e8]; try contradiction;
    destruct r8' as [l'|e8']; try contradiction.
  - destruct Hr as (_ & z & Hopen & Hl). destruct Hr' as (_ & z' & Hopen' & Hl').
    destruct (open_zip_returns zip_path w z Hopen) as (data & _ & _ & Hthere).
    assert (Hzip : fs w' !! zip_path = fs w !! zip_path).
    { unfold V1_5._extract_dbfs in H5. rewrite Hopen in H5.
      exact (extract_members_keeps _ _ _ _ _ _ _ _ _ H5 Hthere). }
    rewrite (open_zip_same zip_path w w' Hzip), Hopen in Hopen'.
    injection Hopen' as <-. rewrite Hl', Hl. reflexivity.
  - congruence.
Qed.

(** X20. Extracting twice.  Whether [_extract_dbfs] has returned or raised,
    a second call on the files it left ends the same way and changes no
    file: every target that was written is then there, and an empty one is
    rewritten with the same empty contents. *)
Theorem X20_extract_dbfs_idempotent (zip_path dbf_dir prefix : string) (w w' : world) :
  (forall r,
     V1_5._extract_dbfs lower ZipFile zip_path dbf_dir prefix w = (w', r) ->
     V1_5._extract_dbfs lower ZipFile zip_path dbf_dir prefix w' = (w', r)) /\
  (forall r,
     V1_8._extract_dbfs lower ZipFile zip_path prefix w = (w', r) ->
     V1_8._extract_dbfs lower ZipFile zip_path prefix w' = (w', r)).
Proof. exact (extract_dbfs_twice zip_path dbf_dir prefix w w'). Qed.

End ArchiveFacts.

Lemma X20_witness :
  sample_ZipFile [] = None /\
  exists w',
    V1_5._extract_dbfs string_lower_ascii sample_ZipFile (zip_path_of "AL") DBF_DIR "AL"
      archive_world = (w', Returns 2%nat) /\
    fs w' !! (DBF_DIR +:+ "/AL_AL.DBF") = Some sample_table /\
    V1_5._extract_dbfs string_lower_ascii sample_ZipFile (zip_path_of "AL") DBF_DIR "AL" w'
      = (w', Returns 2%nat).
Proof.
  split; [reflexivity|].
  destruct (V1_5._extract_dbfs string_lower_ascii sample_ZipFile (zip_path_of "AL")
              DBF_DIR "AL" archive_world) as [w' [n|e]] eqn:H.
  - pose proof H as H'. vm_compute in H'. injection H' as Hw Hn.
    exists w'. rewrite <- Hn. split; [reflexivity|].
    split; [rewrite <- Hw; vm_compute; reflexivity|].
    rewrite <- Hn in H.
    exact (proj1 (X20_extract_dbfs_idempotent string_lower_ascii sample_ZipFile eq_refl
                    (zip_path_of "AL") DBF_DIR "AL" archive_world w') (Returns 2%nat) H).
  - vm_compute in H. discriminate H.
Defined.

(** ** Extraction of the one table (v2.2, v2.4) *)

Section ExtractOne.
Variable lower : string -> string.
Variable ZipFile : bytes -> option archive.
Hypothesis ZipFile_empty : ZipFile [] = None.

Lemma extract_first_filter (z : archive) (out_path : string) (names : list string)
    (w : world) :
  V2_4.extract_first lower z out_path names w
  = match List.filter (fun m => string_endswith ".dbf" (lower m)) names with
    | [] => (w, Returns None)
    | member :: _ =>
        match copy_member z member out_path w with
        | (w, Returns _) => (w, Returns (Some out_path))
        | (w, Raises e) => (w, Raises e)
        end
    end.
Proof.
  induction names as [|n names IH]; [reflexivity|].
  cbn [V2_4.extract_first List.filter].
  destruct (string_endswith ".dbf" (lower n)); [reflexivity | exact IH].
Qed.

Lemma first_dbf_filter (names : list string) (m : string) :
  first_dbf lower names m ->
  exists others,
    List.filter (fun m => string_endswith ".dbf" (lower m)) names = m :: others.
Proof.
  intros (pre & rest & -> & Hpre & Hm). rewrite List.filter_app. cbn [List.filter].
  rewrite Hm. exists (List.filter (fun m => string_endswith ".dbf" (lower m)) rest).
  induction pre as [|x pre IH]; [reflexivity|].
  apply Forall_cons in Hpre as [Hx Hpre]. cbn [List.filter app]. rewrite Hx.
  exact (IH Hpre).
Qed.

Lemma filter_nil_iff {A} (f : A -> bool) (l : list A) :
  List.filter f l = [] <-> forall x, In x l -> f x = false.
Proof.
  induction l as [|x l IH]; cbn [List.filter].
  - split; [intros _ x [] | reflexivity].
  - destruct (f x) eqn:Hx.
    + split; [discriminate|]. intros H. specialize (H x (or_introl eq_refl)). congruence.
    + rewrite IH. split.
      * intros H y [<- | Hy]; [exact Hx | exact (H y Hy)].
      * intros H y Hy. apply H. right. exact Hy.
Qed.

Lemma is_Some_false_None {A} (o : option A) :
  o = None -> bool_decide (is_Some o) = false.
Proof. intros ->. apply bool_decide_eq_false. intros [x Hx]. discriminate. Qed.

(** X21. The table of a state, when none is at its place yet.  v2.2 and
    v2.4 then do the same: they copy the first member of the archive, in the
    order of its directory, whose lower-cased name ends with [.dbf] to
    [DBF_DIR/<state>.dbf] and return that path, whatever folder the member is
    in and however many tables follow; they return [None], and write
    nothing, exactly when the archive has no such member. *)
Theorem X21_extract_dbf_first_member (zip_path state_code : string) (w : world)
    (z : archive) :
  let out_path := path_join DBF_DIR (state_code +:+ ".dbf") in
  fs w !! out_path = None ->
  open_zip ZipFile zip_path w = Returns z ->
  V2_4._extract_dbf lower ZipFile zip_path state_code w
    = V2_2._extract_dbf lower ZipFile zip_path state_code w /\
  (V2_2._extract_dbf lower ZipFile zip_path state_code w = (w, Returns None)
   <-> forall m, In m (namelist z) -> string_endswith ".dbf" (lower m) = false) /\
  (forall m data,
     first_dbf lower (namelist z) m -> zip_read z m = Content data ->
     V2_2._extract_dbf lower ZipFile zip_path state_code w
       = (write_file out_path data w, Returns (Some out_path))).
Proof.
  intros out_path Hnone Hopen.
  assert (H22 : V2_2._extract_dbf lower ZipFile zip_path state_code w
                = match List.filter (fun m => string_endswith ".dbf" (lower m))
                          (namelist z) with
                  | [] => (w, Returns None)
                  | member :: _ =>
                      match copy_member z member out_path w with
                      | (w, Returns _) => (w, Returns (Some out_path))
                      | (w, Raises e) => (w, Raises e)
                      end
                  end).
  { unfold V2_2._extract_dbf. fold out_path. rewrite Hnone, Hopen. reflexivity. }
  split; [|split].
  - unfold V2_4._extract_dbf. fold out_path.
    rewrite (is_Some_false_None _ Hnone), Hopen, extract_first_filter. symmetry. exact H22.
  - rewrite H22, <- filter_nil_iff.
    destruct (List.filter _ (namelist z)) as [|m others]; [tauto|].
    split; [|discriminate].
    destruct (copy_member_cases z m out_path w)
      as [[_ ->] | [[_ ->] | (data & _ & ->)]]; discriminate.
  - intros m data Hfirst Hread. rewrite H22.
    destruct (first_dbf_filter _ m Hfirst) as [others ->].
    unfold copy_member. rewrite Hread. reflexivity.
Qed.

(** X22. Extracting the table twice.  In v2.2, whether [_extract_dbf] has
    returned or raised, a second call on the files it left ends the same way
    and changes no file.  In v2.4 this holds when the first call has
    returned. *)
Theorem X22_extract_dbf_idempotent (zip_path state_code : string) (w w' : world) :
  (forall r,
     V2_2._extract_dbf lower ZipFile zip_path state_code w = (w', r) ->
     V2_2._extract_dbf lower ZipFile zip_path state_code w' = (w', r)) /\
  (forall p,
     V2_4._extract_dbf lower ZipFile zip_path state_code w = (w', Returns p) ->
     V2_4._extract_dbf lower ZipFile zip_path state_code w' = (w', Returns p)).
Proof.
  set (out_path := path_join DBF_DIR (state_code +:+ ".dbf")).
  split.
  - intros r. unfold V2_2._extract_dbf. fold out_path.
    destruct (exists_nonempty (fs w !! out_path)) eqn:Hguard.
    { intros [= <- <-]. rewrite Hguard. reflexivity. }
    destruct (open_zip ZipFile zip_path w) as [z|e] eqn:Hopen.
    2:{ intros [= <- <-]. rewrite Hguard, Hopen. reflexivity. }
    destruct (List.filter _ (namelist z)) as [|m others] eqn:Hf.
    { intros [= <- <-]. rewrite Hguard, Hopen, Hf. reflexivity. }
    destruct (open_zip_returns ZipFile ZipFile_empty zip_path w z Hopen)
      as (zdata & _ & _ & Hthere).
    assert (Hne : out_path <> zip_path) by (intros Heq; congruence).
    assert (Hzip : forall data,
               fs (write_file out_path data w) !! zip_path = fs w !! zip_path)
      by (intros data; apply lookup_insert_ne; exact Hne).
    destruct (copy_member_cases z m out_path w)
      as [[Hread ->] | [[Hread ->] | (data & Hread & ->)]].
    + intros [= <- <-]. rewrite Hguard, Hopen, Hf. unfold copy_member. rewrite Hread.
      reflexivity.
    + intros [= <- <-]. cbn [fs write_file]. rewrite lookup_insert_eq.
      cbn [exists_nonempty].
      rewrite (open_zip_same ZipFile zip_path w _ (Hzip [])), Hopen, Hf.
      unfold copy_member. rewrite Hread.
      rewrite (write_file_same out_path [] (write_file out_path [] w))
        by apply lookup_insert_eq.
      reflexivity.
    + intros [= <- <-]. cbn [fs write_file]. rewrite lookup_insert_eq.
      destruct data as [|b data]; [|reflexivity]. cbn [exists_nonempty].
      rewrite (open_zip_same ZipFile zip_path w _ (Hzip [])), Hopen, Hf.
      unfold copy_member. rewrite Hread.
      rewrite (write_file_same out_path [] (write_file out_path [] w))
        by apply lookup_insert_eq.
      reflexivity.
  - intros r. unfold V2_4._extract_dbf. fold out_path.
    destruct (bool_decide (is_Some (fs w !! out_path))) eqn:Hguard.
    { intros [= <- <-]. rewrite Hguard. reflexivity. }
    destruct (open_zip ZipFile zip_path w) as [z|e] eqn:Hopen; [|discriminate].
    rewrite extract_first_filter.
    destruct (List.filter _ (namelist z)) as [|m others] eqn:Hf.
    { intros [= <- <-]. rewrite Hguard, Hopen, extract_first_filter, Hf. reflexivity. }
    destruct (copy_member_cases z m out_path w)
      as [[_ ->] | [[_ ->] | (data & Hread & ->)]]; [discriminate | discriminate |].
    intros [= <- <-]. cbn [fs write_file]. rewrite lookup_insert_eq.
    rewrite bool_decide_eq_true_2 by eauto. reflexivity.
Qed.

(** X23. A table file left empty.  When reading the member fails, the
    table file has already been created and stays behind, empty.  v2.4 takes
    that file for the table on the next call, without opening the archive,
    and converting it fails in [struct.unpack]; v2.2 does not take it and
    extracts again. *)
Theorem X23_empty_table_left_behind (zip_path state_code : string) (w : world)
    (z : archive) (m : string) :
  let out_path := path_join DBF_DIR (state_code +:+ ".dbf") in
  fs w !! out_path = None ->
  open_zip ZipFile zip_path w = Returns z ->
  first_dbf lower (namelist z) m ->
  zip_read z m = ReadFails ->
  let w1 := write_file out_path [] w in
  V2_2._extract_dbf lower ZipFile zip_path state_code w = (w1, Raises MemberReadError) /\
  V2_4._extract_dbf lower ZipFile zip_path state_code w = (w1, Raises MemberReadError) /\
  V2_4._extract_dbf lower ZipFile zip_path state_code w1 = (w1, Returns (Some out_path)) /\
  V2_4.dbf_to_csv [] = Some (Raise StructError) /\
  V2_2._extract_dbf lower ZipFile zip_path state_code w1 = (w1, Raises MemberReadError).
Proof.
  intros out_path Hnone Hopen Hfirst Hread w1.
  destruct (first_dbf_filter _ m Hfirst) as [others Hf].
  assert (H22 : V2_2._extract_dbf lower ZipFile zip_path state_code w
                = (w1, Raises MemberReadError)).
  { unfold V2_2._extract_dbf. fold out_path. rewrite Hnone, Hopen, Hf.
    unfold copy_member. rewrite Hread. reflexivity. }
  destruct (open_zip_returns ZipFile ZipFile_empty zip_path w z Hopen)
    as (zdata & _ & _ & Hthere).
  assert (Hne : out_path <> zip_path).
  { intros Heq. rewrite <- Heq, Hnone in Hthere. discriminate. }
  assert (Hzip : fs w1 !! zip_path = fs w !! zip_path)
    by (apply lookup_insert_ne; exact Hne).
  assert (Hout : fs w1 !! out_path = Some []) by apply lookup_insert_eq.
  split; [exact H22|]. split; [|split; [|split]].
  - unfold V2_4._extract_dbf. fold out_path.
    rewrite (is_Some_false_None _ Hnone), Hopen, extract_first_filter, Hf.
    unfold copy_member. rewrite Hread. reflexivity.
  - unfold V2_4._extract_dbf. fold out_path. rewrite Hout.
    rewrite bool_decide_eq_true_2 by eauto. reflexivity.
  - reflexivity.
  - unfold V2_2._extract_dbf. fold out_path. rewrite Hout. cbn [exists_nonempty].
    rewrite (open_zip_same ZipFile zip_path w w1 Hzip), Hopen, Hf.
    unfold copy_member. rewrite Hread.
    rewrite (write_file_same out_path [] w1 Hout). reflexivity.
Qed.

End ExtractOne.

Lemma X21_witness :
  fs archive_world !! path_join DBF_DIR ("AL" +:+ ".dbf") = None /\
  open_zip sample_ZipFile (zip_path_of "AL") archive_world = Returns sample_members /\
  first_dbf string_lower_ascii (namelist sample_members) "AL/AL.DBF" /\
  V2_4._extract_dbf string_lower_ascii sample_ZipFile (zip_path_of "AL") "AL" archive_world
    = (write_file (DBF_DIR +:+ "/AL.dbf") sample_table archive_world,
       Returns (Some (DBF_DIR +:+ "/AL.dbf"))).
Proof.
  assert (H1 : fs archive_world !! path_join DBF_DIR ("AL" +:+ ".dbf") = None)
    by (vm_compute; reflexivity).
  assert (H2 : open_zip sample_ZipFile (zip_path_of "AL") archive_world
               = Returns sample_members) by (vm_compute; reflexivity).
  assert (H3 : first_dbf string_lower_ascii (namelist sample_members) "AL/AL.DBF").
  { exists ["AL/"%string], ["AL/AL.shp"; "notes.dbf"]%string.
    split; [reflexivity|]. split; [|vm_compute; reflexivity].
    constructor; [vm_compute; reflexivity | constructor]. }
  split; [exact H1|]. split; [exact H2|]. split; [exact H3|].
  destruct (X21_extract_dbf_first_member string_lower_ascii sample_ZipFile
              (zip_path_of "AL") "AL" archive_world sample_members H1 H2)
    as (Hagree & _ & Hcopy).
  rewrite Hagree. exact (Hcopy "AL/AL.DBF"%string sample_table H3 eq_refl).
Defined.

Lemma X22_witness :
  sample_ZipFile [] = None /\
  exists w',
    V2_2._extract_dbf string_lower_ascii sample_ZipFile (zip_path_of "AL") "AL"
      archive_world = (w', Returns (Some (DBF_DIR +:+ "/AL.dbf"))) /\
    V2_2._extract_dbf string_lower_ascii sample_ZipFile (zip_path_of "AL") "AL" w'
      = (w', Returns (Some (DBF_DIR +:+ "/AL.dbf"))).
Proof.
  split; [reflexivity|].
  destruct (V2_2._extract_dbf string_lower_ascii sample_ZipFile (zip_path_of "AL") "AL"
              archive_world) as [w' [r|e]] eqn:H.
  - pose proof H as H'. vm_compute in H'. injection H' as _ Hr.
    assert (Hr' : r = Some (DBF_DIR +:+ "/AL.dbf")) by (rewrite <- Hr; reflexivity).
    exists w'. rewrite <- Hr'. split; [reflexivity|].
    exact (proj1 (X22_extract_dbf_idempotent string_lower_ascii sample_ZipFile eq_refl
                    (zip_path_of "AL") "AL" archive_world w') (Returns r) H).
  - vm_compute in H. discriminate H.
Defined.

Lemma X23_witness :
  broken_ZipFile [] = None /\
  fs archive_world !! path_join DBF_DIR ("AL" +:+ ".dbf") = None /\
  open_zip broken_ZipFile (zip_path_of "AL") archive_world = Returns broken_members /\
  first_dbf string_lower_ascii (namelist broken_members) "AL.dbf" /\
  zip_read broken_members "AL.dbf" = ReadFails /\
  V2_4._extract_dbf string_lower_ascii broken_ZipFile (zip_path_of "AL") "AL"
    (write_file (path_join DBF_DIR ("AL" +:+ ".dbf")) [] archive_world)
  = (write_file (path_join DBF_DIR ("AL" +:+ ".dbf")) [] archive_world,
     Returns (Some (path_join DBF_DIR ("AL" +:+ ".dbf")))).
Proof.
  assert (H1 : fs archive_world !! path_join DBF_DIR ("AL" +:+ ".dbf") = None)
    by (vm_compute; reflexivity).
  assert (H2 : open_zip broken_ZipFile (zip_path_of "AL") archive_world
               = Returns broken_members) by (vm_compute; reflexivity).
  assert (H3 : first_dbf string_lower_ascii (namelist broken_members) "AL.dbf").
  { exists [], []. split; [reflexivity|]. split; [constructor | vm_compute; reflexivity]. }
  split; [reflexivity|]. split; [exact H1|]. split; [exact H2|]. split; [exact H3|].
  split; [reflexivity|].
  exact (proj1 (proj2 (proj2 (X23_empty_table_left_behind string_lower_ascii
                                broken_ZipFile eq_refl (zip_path_of "AL") "AL"
                                archive_world broken_members "AL.dbf"
                                H1 H2 H3 eq_refl)))).
Defined.

(** ** A state, twice *)

Section StateFacts.
Variable server : nat -> string -> V1_5.http_response.
Variable curl : nat -> string -> V1_8.curl_run.
Variable is_zipfile : bytes -> bool.
Variable lower : string -> string.
Variable ZipFile : bytes -> option archive.
Hypothesis is_zipfile_empty : is_zipfile [] = false.
Hypothesis ZipFile_empty : ZipFile [] = None.

Lemma extract_dbfs_keeps_v15 (zip_path dbf_dir prefix : string) (w w' : world)
    (r : outcome nat) (q : string) :
  V1_5._extract_dbfs lower ZipFile zip_path dbf_dir prefix w = (w', r) ->
  requests w' = requests w /\
  (exists_nonempty (fs w !! q) = true -> fs w' !! q = fs w !! q).
Proof.
  unfold V1_5._extract_dbfs.
  destruct (open_zip ZipFile zip_path w) as [z|e].
  - intros H. split.
    + apply extract_members_files in H. tauto.
    + exact (extract_members_keeps _ _ _ _ _ _ _ _ _ H).
  - intros [= <- _]. split; reflexivity.
Qed.

Lemma extract_dbfs_keeps_v18 (zip_path prefix : string) (w w' : world)
    (r : outcome (list string)) (q : string) :
  V1_8._extract_dbfs lower ZipFile zip_path prefix w = (w', r) ->
  requests w' = requests w /\
  (exists_nonempty (fs w !! q) = true -> fs w' !! q = fs w !! q).
Proof.
  intros H8. destruct (extract_dbfs_agree lower ZipFile zip_path prefix w) as [Hw _].
  rewrite H8 in Hw. cbn [fst] in Hw.
  destruct (V1_5._extract_dbfs lower ZipFile zip_path DBF_DIR prefix w) as [w5 r5] eqn:H5.
  cbn [fst] in Hw. subst w5. exact (extract_dbfs_keeps_v15 _ _ _ _ _ _ q H5).
Qed.

Lemma main_state_twice_v15 (code : string) (w w' : world) (how : fetched)
    (r : outcome nat) :
  V1_5.main_state server lower ZipFile code w = (w', Ok (how, r)) ->
  V1_5.main_state server lower ZipFile code w' = (w', Ok (AlreadyThere, r)).
Proof.
  unfold V1_5.main_state.
  destruct (V1_5.fetch server code w) as [w1 [how1|e]] eqn:Hfetch; [|discriminate].
  destruct (V1_5._extract_dbfs lower ZipFile (zip_path_of code) DBF_DIR code w1)
    as [w2 r2] eqn:Hext.
  intros [= <- <- <-].
  pose proof (fetch_v15_leaves_archive server code w w1 how1 Hfetch) as Hthere.
  destruct (extract_dbfs_keeps_v15 _ _ _ _ _ _ (zip_path_of code) Hext) as [_ Hzip].
  rewrite (fetch_v15_guard server code w2) by (rewrite (Hzip Hthere); exact Hthere).
  rewrite (extract_dbfs_again_v15 lower ZipFile ZipFile_empty _ _ _ _ _ _ Hext).
  reflexivity.
Qed.

Lemma main_state_twice_v18 (code : string) (w w' : world) (how : fetched)
    (r : outcome (list string)) :
  V1_8.main_state curl is_zipfile lower ZipFile code w = (w', Ok (how, r)) ->
  V1_8.main_state curl is_zipfile lower ZipFile code w' = (w', Ok (AlreadyThere, r)).
Proof.
  unfold V1_8.main_state.
  destruct (V1_8.fetch curl is_zipfile code w) as [w1 [how1|e]] eqn:Hfetch;
    [|discriminate].
  destruct (V1_8._extract_dbfs lower ZipFile (zip_path_of code) code w1)
    as [w2 r2] eqn:Hext.
  intros [= <- <- <-].
  destruct (fetch_v18_leaves_archive curl is_zipfile is_zipfile_empty code w w1 how1
              Hfetch) as [Hthere Hvalid].
  destruct (extract_dbfs_keeps_v18 _ _ _ _ _ (zip_path_of code) Hext) as [_ Hzip].
  specialize (Hzip Hthere).
  rewrite (fetch_v18_guard curl is_zipfile code w2).
  - rewrite (proj2 (extract_dbfs_twice lower ZipFile ZipFile_empty
                      (zip_path_of code) DBF_DIR code w1 w2) r2 Hext).
    reflexivity.
  - rewrite Hzip. exact Hthere.
  - unfold V1_8.is_zipfile_at in *. rewrite Hzip. exact Hvalid.
Qed.

(** X24. A state processed twice.  When the body of the main loop has
    downloaded or found the archive of a state, then the same body run again
    on the files it left finds the archive there, sends no request, ends the
    extraction the same way and changes no file. *)
Theorem X24_state_twice (code : string) (w w' : world) (how : fetched) :
  (forall r,
     V1_5.main_state server lower ZipFile code w = (w', Ok (how, r)) ->
     V1_5.main_state server lower ZipFile code w' = (w', Ok (AlreadyThere, r))) /\
  (forall r,
     V1_8.main_state curl is_zipfile lower ZipFile code w = (w', Ok (how, r)) ->
     V1_8.main_state curl is_zipfile lower ZipFile code w' = (w', Ok (AlreadyThere, r))).
Proof.
  split; intros r; [apply main_state_twice_v15 | apply main_state_twice_v18].
Qed.

End StateFacts.

Lemma X24_witness :
  sample_is_zipfile [] = false /\ sample_ZipFile [] = None /\
  exists w' how,
    V1_5.main_state sample_server string_lower_ascii sample_ZipFile "AL" empty_world
      = (w', Ok (how, Returns 2%nat)) /\
    length (requests w') = 2%nat /\
    V1_5.main_state sample_server string_lower_ascii sample_ZipFile "AL" w'
      = (w', Ok (AlreadyThere, Returns 2%nat)).
Proof.
  split; [reflexivity|]. split; [reflexivity|].
  destruct (V1_5.main_state sample_server string_lower_ascii sample_ZipFile "AL"
              empty_world) as [w' [[how [n|e]]|e]] eqn:H.
  - pose proof H as H'. vm_compute in H'. injection H' as Hw _ Hn.
    exists w', how. rewrite <- Hn. split; [reflexivity|].
    split; [rewrite <- Hw; reflexivity|].
    rewrite <- Hn in H.
    exact (proj1 (X24_state_twice sample_server sample_curl sample_is_zipfile
                    string_lower_ascii sample_ZipFile eq_refl eq_refl
                    "AL" empty_world w' how) (Returns 2%nat) H).
  - vm_compute in H. discriminate H.
  - vm_compute in H. discriminate H.
Defined.

(** ** Where the files go *)

Lemma no_slash_app (s t : string) : no_slash (s +:+ t) = no_slash s && no_slash t.
Proof.
  induction s as [|c s IH]; [reflexivity|].
  change (no_slash (String c s +:+ t)) with (negb (Ascii.eqb c "/") && no_slash (s +:+ t)).
  rewrite IH. cbn [no_slash]. apply andb_assoc.
Qed.

Lemma after_last_slash_no_slash (p : string) :
  forall cur, (no_slash p = true -> no_slash cur = true) ->
              no_slash (after_last_slash cur p) = true.
Proof.
  induction p as [|c r IH]; intros cur Hcur; cbn [after_last_slash].
  - apply Hcur. reflexivity.
  - destruct (Ascii.eqb c "/") eqn:Hc.
    + apply IH. tauto.
    + apply IH. intros Hr. apply Hcur. cbn [no_slash]. rewrite Hc, Hr. reflexivity.
Qed.

Lemma basename_no_slash (p : string) : no_slash (basename p) = true.
Proof. apply after_last_slash_no_slash. tauto. Qed.

Lemma no_slash_prefix (name : string) :
  no_slash name = true -> String.prefix "/" name = false.
Proof.
  destruct name as [|c r]; [reflexivity|]. cbn [no_slash]. intros H.
  apply andb_true_iff in H as [Hc _]. unfold String.prefix.
  destruct (ascii_dec "/" c) as [<- | _]; [discriminate Hc | reflexivity].
Qed.

Lemma target_directly_in (dbf_dir prefix member : string) :
  no_slash prefix = true -> directly_in dbf_dir (target dbf_dir prefix member).
Proof.
  intros Hp. exists (prefix +:+ "_" +:+ basename member).
  assert (Hn : no_slash (prefix +:+ "_" +:+ basename member) = true).
  { rewrite !no_slash_app, Hp, basename_no_slash. reflexivity. }
  split; [exact Hn|]. split.
  - destruct prefix; discriminate.
  - unfold target, path_join. rewrite (no_slash_prefix _ Hn). reflexivity.
Qed.

Lemma state_code_inv (code : string) :
  is_state_code code = true ->
  exists a b, code = String a (String b EmptyString) /\ a <> "/"%char /\ b <> "/"%char.
Proof.
  destruct code as [|a [|b [|c r]]]; try discriminate. cbn [is_state_code].
  intros H. apply andb_true_iff in H as [Ha Hb].
  exists a, b. split; [reflexivity|].
  split; intros ->; [rewrite Ascii.eqb_refl in Ha | rewrite Ascii.eqb_refl in Hb];
    discriminate.
Qed.

Lemma state_code_no_slash (code : string) :
  is_state_code code = true -> no_slash code = true.
Proof.
  destruct code as [|a [|b [|c r]]]; try discriminate. cbn [is_state_code no_slash].
  intros H. apply andb_true_iff in H as [-> ->]. reflexivity.
Qed.

Lemma target_state_code (a b : ascii) (member : string) :
  a <> "/"%char ->
  target DBF_DIR (String a (String b EmptyString)) member
  = ("ngs_sf_archive_downloads/dbfs/"
       +:+ String a (String b ("_" +:+ basename member)))%string.
Proof.
  intros Ha. unfold target, path_join.
  assert (Hp : String.prefix "/" (String a (String b "") +:+ "_" +:+ basename member)
               = false).
  { change (String.prefix "/" (String a (String b ("_" +:+ basename member))) = false).
    unfold String.prefix. destruct (ascii_dec "/" a) as [He|?]; [congruence | reflexivity]. }
  rewrite Hp. reflexivity.
Qed.

Ltac spell H := cbv beta iota delta [String.append] in H.

(** The files of two states are apart. *)
Lemma owned_disjoint (code1 code2 path : string) :
  is_state_code code1 = true -> is_state_code code2 = true ->
  owned code1 path -> owned code2 path -> code1 = code2.
Proof.
  intros H1 H2.
  apply state_code_inv in H1 as (a1 & b1 & -> & Ha1 & _).
  apply state_code_inv in H2 as (a2 & b2 & -> & Ha2 & _).
  unfold owned, zip_path_of, part_of, OUT_DIR.
  intros [-> | [-> | [m1 ->]]] [H | [H | [m2 H]]];
    rewrite ?target_state_code in H by assumption; spell H;
    try discriminate H; congruence.
Qed.

Lemma owned_under_out_dir (code path : string) :
  is_state_code code = true -> owned code path ->
  String.prefix (OUT_DIR +:+ "/") path = true.
Proof.
  intros H. apply state_code_inv in H as (a & b & -> & Ha & _).
  unfold owned, zip_path_of, part_of.
  intros [-> | [-> | [m ->]]]; rewrite ?target_state_code by assumption;
    vm_compute; reflexivity.
Qed.

Lemma state_codes_distinct : NoDup STATE_CODES.
Proof. apply (bool_decide_unpack (NoDup STATE_CODES)). vm_compute. exact I. Qed.

Lemma state_codes_shape : Forall (fun code => is_state_code code = true) STATE_CODES.
Proof. unfold STATE_CODES. repeat constructor. Qed.

Section Confined.
Variable server : nat -> string -> V1_5.http_response.
Variable curl : nat -> string -> V1_8.curl_run.
Variable is_zipfile : bytes -> bool.
Variable lower : string -> string.
Variable ZipFile : bytes -> option archive.

Lemma try_urls_files (urls : list string) (out_path : string) (w w' : world)
    (r : result string) (q : string) :
  V1_5.try_urls server urls out_path w = (w', r) ->
  q <> out_path -> q <> part_of out_path ->
  fs w' !! q = fs w !! q.
Proof.
  intros H Hq1 Hq2. destruct r as [url|e].
  - apply try_urls_ok in H as (tried & later & status & chunks & _ & _ & _ & _ & _ & Hf).
    rewrite Hf, lookup_insert_ne by congruence. apply lookup_delete_ne. congruence.
  - apply try_urls_raise in H as (_ & _ & Hf). rewrite Hf.
    destruct urls; [reflexivity|]. apply lookup_delete_ne. congruence.
Qed.

Lemma fetch_files_v15 (code : string) (w w' : world) (r : result fetched) (q : string) :
  V1_5.fetch server code w = (w', r) ->
  q <> zip_path_of code -> q <> part_of (zip_path_of code) ->
  fs w' !! q = fs w !! q.
Proof.
  unfold V1_5.fetch, V1_5._try_download.
  destruct (negb (exists_nonempty (fs w !! zip_path_of code))).
  - destruct (V1_5.try_urls server _ _ w) as [w1 r1] eqn:Ht.
    intros H Hq1 Hq2.
    assert (Hw : w' = w1) by (destruct r1; injection H as <- _; reflexivity).
    rewrite Hw. exact (try_urls_files _ _ _ _ _ q Ht Hq1 Hq2).
  - intros [= <- _] _ _. reflexivity.
Qed.

Lemma download_curl_files (url out_path : string) (w w' : world) (r : result unit)
    (q : string) :
  V1_8._download_with_curl curl is_zipfile url out_path w = (w', r) ->
  q <> out_path -> q <> part_of out_path ->
  fs w' !! q = fs w !! q.
Proof.
  unfold V1_8._download_with_curl. intros H Hq1 Hq2.
  destruct (curl _ url) as [|success written]; [injection H as <- _; reflexivity|].
  set (w1 := match written with
             | Some data => write_file (part_of out_path) data (log_request url w)
             | None => log_request url w
             end) in H.
  assert (Hw1 : fs w1 !! q = fs w !! q).
  { unfold w1. destruct written as [data|]; cbn [fs write_file log_request];
      [apply lookup_insert_ne; congruence | reflexivity]. }
  clearbody w1.
  destruct (negb success); [injection H as <- _; exact Hw1|].
  destruct (negb (V1_8.is_zipfile_at is_zipfile (part_of out_path) w1));
    [injection H as <- _; exact Hw1|].
  destruct (fs w1 !! part_of out_path) as [data|]; injection H as <- _; [|exact Hw1].
  cbn [fs replace_file]. rewrite lookup_insert_ne, lookup_delete_ne by congruence.
  exact Hw1.
Qed.

Lemma fetch_files_v18 (code : string) (w w' : world) (r : result fetched) (q : string) :
  V1_8.fetch curl is_zipfile code w = (w', r) ->
  q <> zip_path_of code -> q <> part_of (zip_path_of code) ->
  fs w' !! q = fs w !! q.
Proof.
  unfold V1_8.fetch.
  destruct (exists_nonempty (fs w !! zip_path_of code)
            && V1_8.is_zipfile_at is_zipfile (zip_path_of code) w).
  - intros [= <- _] _ _. reflexivity.
  - destruct (V1_8._download_with_curl curl is_zipfile _ _ w) as [w1 r1] eqn:Hd.
    intros H Hq1 Hq2.
    assert (Hw : w' = w1) by (destruct r1; injection H as <- _; reflexivity).
    rewrite Hw. exact (download_curl_files _ _ _ _ _ q Hd Hq1 Hq2).
Qed.

Lemma extract_dbfs_targets_v15 (zip_path dbf_dir prefix : string) (w w' : world)
    (r : outcome nat) (q : string) :
  V1_5._extract_dbfs lower ZipFile zip_path dbf_dir prefix w = (w', r) ->
  fs w' !! q = fs w !! q \/ exists m, q = target dbf_dir prefix m.
Proof.
  unfold V1_5._extract_dbfs.
  destruct (open_zip ZipFile zip_path w) as [z|e].
  - intros H. apply extract_members_files in H as [_ H].
    destruct (H q) as [Hsame | (_ & m & _ & _ & Ht & _)]; [left; exact Hsame|].
    right. exists m. symmetry. exact Ht.
  - intros [= <- _]. left. reflexivity.
Qed.

Lemma extract_dbfs_targets_v18 (zip_path prefix : string) (w w' : world)
    (r : outcome (list string)) (q : string) :
  V1_8._extract_dbfs lower ZipFile zip_path prefix w = (w', r) ->
  fs w' !! q = fs w !! q \/ exists m, q = target DBF_DIR prefix m.
Proof.
  intros H8. destruct (extract_dbfs_agree lower ZipFile zip_path prefix w) as [Hw _].
  rewrite H8 in Hw. cbn [fst] in Hw.
  destruct (V1_5._extract_dbfs lower ZipFile zip_path DBF_DIR prefix w) as [w5 r5] eqn:H5.
  cbn [fst] in Hw. subst w5. exact (extract_dbfs_targets_v15 _ _ _ _ _ _ q H5).
Qed.

Lemma main_state_owned_v15 (code : string) (w w' : world)
    (r : result (fetched * outcome nat)) (q : string) :
  V1_5.main_state server lower ZipFile code w = (w', r) ->
  fs w' !! q = fs w !! q \/ owned code q.
Proof.
  unfold V1_5.main_state.
  destruct (decide (q = zip_path_of code)) as [-> | Hq1]; [right; left; reflexivity|].
  destruct (decide (q = part_of (zip_path_of code))) as [-> | Hq2];
    [right; right; left; reflexivity|].
  destruct (V1_5.fetch server code w) as [w1 [how|e]] eqn:Hfetch.
  - destruct (V1_5._extract_dbfs lower ZipFile (zip_path_of code) DBF_DIR code w1)
      as [w2 r2] eqn:Hext.
    intros [= <- _].
    destruct (extract_dbfs_targets_v15 _ _ _ _ _ _ q Hext) as [Hsame | Ht].
    + left. rewrite Hsame. exact (fetch_files_v15 _ _ _ _ q Hfetch Hq1 Hq2).
    + right. right. right. exact Ht.
  - intros [= <- _]. left. exact (fetch_files_v15 _ _ _ _ q Hfetch Hq1 Hq2).
Qed.

Lemma main_state_owned_v18 (code : string) (w w' : world)
    (r : result (fetched * outcome (list string))) (q : string) :
  V1_8.main_state curl is_zipfile lower ZipFile code w = (w', r) ->
  fs w' !! q = fs w !! q \/ owned code q.
Proof.
  unfold V1_8.main_state.
  destruct (decide (q = zip_path_of code)) as [-> | Hq1]; [right; left; reflexivity|].
  destruct (decide (q = part_of (zip_path_of code))) as [-> | Hq2];
    [right; right; left; reflexivity|].
  destruct (V1_8.fetch curl is_zipfile code w) as [w1 [how|e]] eqn:Hfetch.
  - destruct (V1_8._extract_dbfs lower ZipFile (zip_path_of code) code w1)
      as [w2 r2] eqn:Hext.
    intros [= <- _].
    destruct (extract_dbfs_targets_v18 _ _ _ _ _ q Hext) as [Hsame | Ht].
    + left. rewrite Hsame. exact (fetch_files_v18 _ _ _ _ q Hfetch Hq1 Hq2).
    + right. right. right. exact Ht.
  - intros [= <- _]. left. exact (fetch_files_v18 _ _ _ _ q Hfetch Hq1 Hq2).
Qed.

Lemma main_loop_owned_v15 (codes : list string) (q : string) :
  forall w w' r,
    V1_5.main_loop server lower ZipFile codes w = (w', r) ->
    fs w' !! q = fs w !! q \/ exists code, In code codes /\ owned code q.
Proof.
  induction codes as [|code rest IH]; intros w w' r; cbn [V1_5.main_loop].
  { intros [= <- _]. left. reflexivity. }
  destruct (V1_5.main_state server lower ZipFile code w) as [w1 r1] eqn:Hstate.
  assert (Hhead : fs w1 !! q = fs w !! q \/ exists c, In c (code :: rest) /\ owned c q).
  { destruct (main_state_owned_v15 _ _ _ _ q Hstate) as [H | H]; [left; exact H|].
    right. exists code. split; [left; reflexivity | exact H]. }
  destruct r1 as [done|e]; [|intros [= <- _]; exact Hhead].
  destruct (V1_5.main_loop server lower ZipFile rest w1) as [w2 r2] eqn:Hloop.
  intros H. assert (Hw : w' = w2) by (destruct r2; injection H as <- _; reflexivity).
  subst w2. destruct (IH _ _ _ Hloop) as [Hsame | (c & Hin & Hc)].
  - rewrite Hsame. exact Hhead.
  - right. exists c. split; [right; exact Hin | exact Hc].
Qed.

Lemma main_loop_owned_v18 (codes : list string) (q : string) :
  forall w w' r,
    V1_8.main_loop curl is_zipfile lower ZipFile codes w = (w', r) ->
    fs w' !! q = fs w !! q \/ exists code, In code codes /\ owned code q.
Proof.
  induction codes as [|code rest IH]; intros w w' r; cbn [V1_8.main_loop].
  { intros [= <- _]. left. reflexivity. }
  destruct (V1_8.main_state curl is_zipfile lower ZipFile code w) as [w1 r1] eqn:Hstate.
  assert (Hhead : fs w1 !! q = fs w !! q \/ exists c, In c (code :: rest) /\ owned c q).
  { destruct (main_state_owned_v18 _ _ _ _ q Hstate) as [H | H]; [left; exact H|].
    right. exists code. split; [left; reflexivity | exact H]. }
  destruct r1 as [[how [l|e]]|e]; try (intros [= <- _]; exact Hhead).
  destruct (V1_8.main_loop curl is_zipfile lower ZipFile rest w1) as [w2 r2] eqn:Hloop.
  intros H. assert (Hw : w' = w2) by (destruct r2; injection H as <- _; reflexivity).
  subst w2. destruct (IH _ _ _ Hloop) as [Hsame | (c & Hin & Hc)].
  - rewrite Hsame. exact Hhead.
  - right. exists c. split; [right; exact Hin | exact Hc].
Qed.

(** X25. Where extraction writes.  Whatever the names of the members of
    the archive, those with folders, with [..] or with a leading slash
    included, the file a member is extracted to lies directly in the
    directory given: its name there is the prefix, an underscore and the part
    of the member name after its last slash.  So, for a prefix without a
    slash, every file that [_extract_dbfs] changes lies directly in that
    directory. *)
Theorem X25_extraction_confined (zip_path dbf_dir prefix : string) (w : world)
    (q : string) :
  no_slash prefix = true ->
  (forall member,
     directly_in dbf_dir (target dbf_dir prefix member) /\
     no_slash (basename member) = true) /\
  (fs (fst (V1_5._extract_dbfs lower ZipFile zip_path dbf_dir prefix w)) !! q
     = fs w !! q \/ directly_in dbf_dir q) /\
  (fs (fst (V1_8._extract_dbfs lower ZipFile zip_path prefix w)) !! q
     = fs w !! q \/ directly_in DBF_DIR q).
Proof.
  intros Hp. split; [|split].
  - intros member. split; [apply target_directly_in; exact Hp | apply basename_no_slash].
  - destruct (V1_5._extract_dbfs lower ZipFile zip_path dbf_dir prefix w) as [w' r] eqn:H.
    destruct (extract_dbfs_targets_v15 _ _ _ _ _ _ q H) as [Hsame | [m ->]];
      [left; exact Hsame | right; apply target_directly_in; exact Hp].
  - destruct (V1_8._extract_dbfs lower ZipFile zip_path prefix w) as [w' r] eqn:H.
    destruct (extract_dbfs_targets_v18 _ _ _ _ _ q H) as [Hsame | [m ->]];
      [left; exact Hsame | right; apply target_directly_in; exact Hp].
Qed.

(** X27. Where the main loop writes.  Every file that a run of [main]
    changes, whether the run ends or is cut short by an exception, is the
    archive of one of the state codes, the temporary file of its download, or
    the target of one of its tables; all of them lie under the output
    directory. *)
Theorem X27_main_confined (w : world) (q : string) :
  (fs (fst (V1_5.main server lower ZipFile w)) !! q = fs w !! q \/
   (String.prefix (OUT_DIR +:+ "/") q = true /\
    exists code, In code STATE_CODES /\ owned code q)) /\
  (fs (fst (V1_8.main curl is_zipfile lower ZipFile w)) !! q = fs w !! q \/
   (String.prefix (OUT_DIR +:+ "/") q = true /\
    exists code, In code STATE_CODES /\ owned code q)).
Proof.
  assert (Hunder : forall code, In code STATE_CODES -> owned code q ->
                                String.prefix (OUT_DIR +:+ "/") q = true).
  { intros code Hin. apply owned_under_out_dir.
    pose proof state_codes_shape as Hs. rewrite Forall_forall in Hs.
    apply Hs, list_elem_of_In, Hin. }
  split.
  - unfold V1_5.main.
    destruct (V1_5.main_loop server lower ZipFile STATE_CODES w) as [w' r] eqn:H.
    destruct (main_loop_owned_v15 STATE_CODES q _ _ _ H) as [Hsame | (code & Hin & Hc)];
      [left; exact Hsame|].
    right. split; [exact (Hunder code Hin Hc) | exists code; split; assumption].
  - unfold V1_8.main.
    destruct (V1_8.main_loop curl is_zipfile lower ZipFile STATE_CODES w) as [w' r] eqn:H.
    destruct (main_loop_owned_v18 STATE_CODES q _ _ _ H) as [Hsame | (code & Hin & Hc)];
      [left; exact Hsame|].
    right. split; [exact (Hunder code Hin Hc) | exists code; split; assumption].
Qed.

End Confined.

(** ** Running the main loop twice *)

Lemma world_eq (w1 w2 : world) :
  (forall q, fs w1 !! q = fs w2 !! q) -> requests w1 = requests w2 -> w1 = w2.
Proof.
  destruct w1 as [f1 r1], w2 as [f2 r2]. cbn [fs requests]. intros Hf ->.
  f_equal. apply map_eq. exact Hf.
Qed.

Section Frame.
Variable z : archive.
Variables dbf_dir prefix : string.

(** The loop does the same from two worlds that agree on its targets. *)
Lemma extract_members_frame (members : list string) :
  forall w1 w2 count w1' r,
    (forall m, fs w2 !! target dbf_dir prefix m = fs w1 !! target dbf_dir prefix m) ->
    V1_5.extract_members z dbf_dir prefix members w1 count = (w1', r) ->
    exists w2',
      V1_5.extract_members z dbf_dir prefix members w2 count = (w2', r) /\
      (forall m, fs w2' !! target dbf_dir prefix m = fs w1' !! target dbf_dir prefix m) /\
      (forall q, fs w2' !! q = fs w2 !! q \/ exists m, q = target dbf_dir prefix m) /\
      requests w2' = requests w2.
Proof.
  induction members as [|m rest IH]; intros w1 w2 count w1' r Hagree;
    cbn [V1_5.extract_members].
  { intros [= <- <-]. exists w2. repeat split; [exact Hagree | left; reflexivity]. }
  destruct (string_is_empty (basename m)) eqn:Hbase; [apply IH; exact Hagree|].
  fold (target dbf_dir prefix m). rewrite (Hagree m).
  destruct (exists_nonempty (fs w1 !! target dbf_dir prefix m)); [apply IH; exact Hagree|].
  assert (Hwrite : forall data m0,
             fs (write_file (target dbf_dir prefix m) data w2)
               !! target dbf_dir prefix m0
             = fs (write_file (target dbf_dir prefix m) data w1)
                 !! target dbf_dir prefix m0).
  { intros data m0. cbn [fs write_file].
    destruct (decide (target dbf_dir prefix m = target dbf_dir prefix m0)) as [<- | Hne].
    - rewrite !lookup_insert_eq. reflexivity.
    - rewrite !lookup_insert_ne by exact Hne. apply Hagree. }
  assert (Hoff : forall data q,
             fs (write_file (target dbf_dir prefix m) data w2) !! q = fs w2 !! q \/
             exists m0, q = target dbf_dir prefix m0).
  { intros data q. destruct (decide (q = target dbf_dir prefix m)) as [-> | Hne].
    - right. exists m. reflexivity.
    - left. apply lookup_insert_ne. congruence. }
  unfold copy_member. destruct (zip_read z m) as [| |data].
  - intros [= <- <-]. exists w2. repeat split; [exact Hagree | left; reflexivity].
  - intros [= <- <-]. exists (write_file (target dbf_dir prefix m) [] w2).
    repeat split; [apply Hwrite | apply Hoff].
  - intros H.
    destruct (IH _ (write_file (target dbf_dir prefix m) data w2) _ _ _ (Hwrite data) H)
      as (w2' & Hrun & Hag & Hframe & Hreq).
    exists w2'. split; [exact Hrun|]. split; [exact Hag|]. split; [|exact Hreq].
    intros q. destruct (Hframe q) as [Hsame | Ht]; [|right; exact Ht].
    destruct (Hoff data q) as [Hsame' | Ht]; [left; congruence | right; exact Ht].
Qed.

End Frame.

Section Twice.
Variable server : nat -> string -> V1_5.http_response.
Variable curl : nat -> string -> V1_8.curl_run.
Variable is_zipfile : bytes -> bool.
Variable lower : string -> string.
Variable ZipFile : bytes -> option archive.
Hypothesis is_zipfile_empty : is_zipfile [] = false.
Hypothesis ZipFile_empty : ZipFile [] = None.

(** An extraction that changes nothing in one world changes nothing in a
    world with the same archive and the same files at its targets. *)
Lemma extract_dbfs_frame_v15 (zip_path dbf_dir prefix : string) (w1 w2 : world)
    (r : outcome nat) :
  fs w2 !! zip_path = fs w1 !! zip_path ->
  (forall m, fs w2 !! target dbf_dir prefix m = fs w1 !! target dbf_dir prefix m) ->
  V1_5._extract_dbfs lower ZipFile zip_path dbf_dir prefix w1 = (w1, r) ->
  V1_5._extract_dbfs lower ZipFile zip_path dbf_dir prefix w2 = (w2, r).
Proof.
  intros Hzip Hagree. unfold V1_5._extract_dbfs.
  rewrite (open_zip_same ZipFile zip_path w1 w2 Hzip).
  destruct (open_zip ZipFile zip_path w1) as [z|e]; [|intros [= <-]; reflexivity].
  intros H.
  destruct (extract_members_frame z dbf_dir prefix _ w1 w2 _ _ _ Hagree H)
    as (w2' & Hrun & Hag & Hframe & Hreq).
  rewrite Hrun. f_equal. apply world_eq; [|exact Hreq].
  intros q. destruct (Hframe q) as [Hsame | [m ->]]; [exact Hsame|].
  rewrite Hag. symmetry. apply Hagree.
Qed.

Lemma extract_dbfs_frame_v18 (zip_path prefix : string) (w1 w2 : world)
    (r : outcome (list string)) :
  fs w2 !! zip_path = fs w1 !! zip_path ->
  (forall m, fs w2 !! target DBF_DIR prefix m = fs w1 !! target DBF_DIR prefix m) ->
  V1_8._extract_dbfs lower ZipFile zip_path prefix w1 = (w1, r) ->
  V1_8._extract_dbfs lower ZipFile zip_path prefix w2 = (w2, r).
Proof.
  intros Hzip Hagree H8.
  destruct (extract_dbfs_agree lower ZipFile zip_path prefix w1) as [Hw Hr].
  rewrite H8 in Hw, Hr. cbn [fst snd] in Hw, Hr.
  destruct (V1_5._extract_dbfs lower ZipFile zip_path DBF_DIR prefix w1)
    as [w5 r5] eqn:H5; cbn [fst snd] in Hw, Hr. subst w5.
  pose proof (extract_dbfs_frame_v15 _ _ _ _ _ _ Hzip Hagree H5) as H5'.
  destruct (extract_dbfs_agree lower ZipFile zip_path prefix w2) as [Hw' Hr'].
  rewrite H5' in Hw', Hr'. cbn [fst snd] in Hw', Hr'.
  destruct (V1_8._extract_dbfs lower ZipFile zip_path prefix w2)
    as [w8 r8']; cbn [fst snd] in Hw', Hr'. subst w8. f_equal.
  destruct r5 as [n|e5], r as [l|e8]; try contradiction;
    destruct r8' as [l'|e8']; try contradiction.
  - destruct Hr as (_ & z & Hopen & Hl). destruct Hr' as (_ & z' & Hopen' & Hl').
    rewrite (open_zip_same ZipFile zip_path w1 w2 Hzip), Hopen in Hopen'.
    injection Hopen' as <-. rewrite Hl', Hl. reflexivity.
  - congruence.
Qed.

Lemma main_state_frame_v15 (code : string) (w1 w2 : world) (r : outcome nat) :
  (forall q, owned code q -> fs w2 !! q = fs w1 !! q) ->
  V1_5.main_state server lower ZipFile code w1 = (w1, Ok (AlreadyThere, r)) ->
  V1_5.main_state server lower ZipFile code w2 = (w2, Ok (AlreadyThere, r)).
Proof.
  intros Hown. unfold V1_5.main_state, V1_5.fetch.
  rewrite (Hown (zip_path_of code)) by (left; reflexivity).
  destruct (exists_nonempty (fs w1 !! zip_path_of code)); cbn [negb].
  - destruct (V1_5._extract_dbfs lower ZipFile (zip_path_of code) DBF_DIR code w1)
      as [w1' r1] eqn:Hext.
    intros [= -> ->].
    rewrite (extract_dbfs_frame_v15 _ _ _ w1 w2 r); [reflexivity | | | exact Hext].
    + apply Hown. left. reflexivity.
    + intros m. apply Hown. right. right. exists m. reflexivity.
  - destruct (V1_5._try_download server code (zip_path_of code) w1) as [w0 [url|e]];
      [|discriminate].
    destruct (V1_5._extract_dbfs lower ZipFile (zip_path_of code) DBF_DIR code w0).
    discriminate.
Qed.

Lemma main_state_frame_v18 (code : string) (w1 w2 : world) (r : outcome (list string)) :
  (forall q, owned code q -> fs w2 !! q = fs w1 !! q) ->
  V1_8.main_state curl is_zipfile lower ZipFile code w1 = (w1, Ok (AlreadyThere, r)) ->
  V1_8.main_state curl is_zipfile lower ZipFile code w2 = (w2, Ok (AlreadyThere, r)).
Proof.
  intros Hown. unfold V1_8.main_state, V1_8.fetch, V1_8.is_zipfile_at.
  rewrite (Hown (zip_path_of code)) by (left; reflexivity).
  destruct (exists_nonempty (fs w1 !! zip_path_of code)
            && match fs w1 !! zip_path_of code with
               | Some data => is_zipfile data
               | None => false
               end).
  - destruct (V1_8._extract_dbfs lower ZipFile (zip_path_of code) code w1)
      as [w1' r1] eqn:Hext.
    intros [= -> ->].
    rewrite (extract_dbfs_frame_v18 _ _ w1 w2 r); [reflexivity | | | exact Hext].
    + apply Hown. left. reflexivity.
    + intros m. apply Hown. right. right. exists m. reflexivity.
  - destruct (V1_8._download_with_curl curl is_zipfile _ (zip_path_of code) w1)
      as [w0 [[]|e]]; [|discriminate].
    destruct (V1_8._extract_dbfs lower ZipFile (zip_path_of code) code w0).
    discriminate.
Qed.

Lemma main_loop_twice_v15 (codes : list string) :
  NoDup codes -> Forall (fun code => is_state_code code = true) codes ->
  forall w w' dones,
    V1_5.main_loop server lower ZipFile codes w = (w', Ok dones) ->
    V1_5.main_loop server lower ZipFile codes w' = (w', Ok (map found_again dones)).
Proof.
  induction codes as [|code rest IH]; intros Hnd Hcodes w w' dones;
    cbn [V1_5.main_loop].
  { intros [= <- <-]. reflexivity. }
  apply NoDup_cons in Hnd as [Hnotin Hnd]. apply Forall_cons in Hcodes as [Hcode Hcodes].
  destruct (V1_5.main_state server lower ZipFile code w) as [w1 [[how r]|e]] eqn:Hstate;
    [|discriminate].
  destruct (V1_5.main_loop server lower ZipFile rest w1) as [w2 [dones'|e]] eqn:Hloop;
    [|discriminate].
  intros [= <- <-].
  pose proof (main_state_twice_v15 server lower ZipFile ZipFile_empty _ _ _ _ _ Hstate)
    as Hagain.
  rewrite (main_state_frame_v15 code w1 w2 r); [|
    |exact Hagain].
  - rewrite (IH Hnd Hcodes _ _ _ Hloop). reflexivity.
  - intros q Hq. destruct (main_loop_owned_v15 server lower ZipFile rest q _ _ _ Hloop)
      as [Hsame | (c & Hin & Hc)]; [exact Hsame|].
    exfalso. apply Hnotin. apply list_elem_of_In.
    rewrite Forall_forall in Hcodes.
    rewrite (owned_disjoint code c q Hcode (Hcodes c (proj2 (list_elem_of_In _ _) Hin))
               Hq Hc).
    exact Hin.
Qed.

Lemma main_loop_twice_v18 (codes : list string) :
  NoDup codes -> Forall (fun code => is_state_code code = true) codes ->
  forall w w' dones,
    V1_8.main_loop curl is_zipfile lower ZipFile codes w = (w', Ok dones) ->
    V1_8.main_loop curl is_zipfile lower ZipFile codes w'
    = (w', Ok (map found_again dones)).
Proof.
  induction codes as [|code rest IH]; intros Hnd Hcodes w w' dones;
    cbn [V1_8.main_loop].
  { intros [= <- <-]. reflexivity. }
  apply NoDup_cons in Hnd as [Hnotin Hnd]. apply Forall_cons in Hcodes as [Hcode Hcodes].
  destruct (V1_8.main_state curl is_zipfile lower ZipFile code w)
    as [w1 [[how r]|e]] eqn:Hstate; [|discriminate].
  pose proof (main_state_twice_v18 curl is_zipfile lower ZipFile is_zipfile_empty
                ZipFile_empty _ _ _ _ _ Hstate) as Hagain.
  destruct r as [l|e].
  2:{ intros [= <- <-]. rewrite Hagain. reflexivity. }
  destruct (V1_8.main_loop curl is_zipfile lower ZipFile rest w1) as [w2 [dones'|e]]
    eqn:Hloop; [|discriminate].
  intros [= <- <-].
  rewrite (main_state_frame_v18 code w1 w2 (Returns l)); [|
    |exact Hagain].
  - rewrite (IH Hnd Hcodes _ _ _ Hloop). reflexivity.
  - intros q Hq.
    destruct (main_loop_owned_v18 curl is_zipfile lower ZipFile rest q _ _ _ Hloop)
      as [Hsame | (c & Hin & Hc)]; [exact Hsame|].
    exfalso. apply Hnotin. apply list_elem_of_In.
    rewrite Forall_forall in Hcodes.
    rewrite (owned_disjoint code c q Hcode (Hcodes c (proj2 (list_elem_of_In _ _) Hin))
               Hq Hc).
    exact Hin.
Qed.

(** X26. The main loop, twice.  When a run of [main] has ended without an
    exception of a download, a second run on the files it left finds every
    archive in place, sends no request, changes no file and ends every
    extraction as the first run did. *)
Theorem X26_main_twice (w w' : world) :
  (forall dones,
     V1_5.main server lower ZipFile w = (w', Ok dones) ->
     V1_5.main server lower ZipFile w' = (w', Ok (map found_again dones))) /\
  (forall dones,
     V1_8.main curl is_zipfile lower ZipFile w = (w', Ok dones) ->
     V1_8.main curl is_zipfile lower ZipFile w' = (w', Ok (map found_again dones))).
Proof.
  split; intros dones.
  - apply main_loop_twice_v15; [exact state_codes_distinct | exact state_codes_shape].
  - apply main_loop_twice_v18; [exact state_codes_distinct | exact state_codes_shape].
Qed.

End Twice.


Lemma X25_witness :
  no_slash "AL" = true /\
  directly_in DBF_DIR (target DBF_DIR "AL" "../../etc/AL.DBF") /\
  target DBF_DIR "AL" "../../etc/AL.DBF" = (DBF_DIR +:+ "/AL_AL.DBF")%string.
Proof.
  split; [reflexivity|]. split; [|reflexivity].
  exact (proj1 (proj1 (X25_extraction_confined string_lower_ascii sample_ZipFile
                         (zip_path_of "AL") DBF_DIR "AL" archive_world "x" eq_refl)
                  "../../etc/AL.DBF"%string)).
Defined.

Lemma fetch_good_server (code : string) (w : world) :
  exists w1 how, V1_5.fetch good_server code w = (w1, Ok how).
Proof.
  unfold V1_5.fetch. destruct (negb (exists_nonempty (fs w !! zip_path_of code))).
  - unfold V1_5._try_download, V1_5.candidate_urls.
    cbn [flat_map V1_5.BASE_DIR_URLS app]. cbn [V1_5.try_urls].
    assert (H : forall url,
               V1_5._download_zip_validated good_server url (zip_path_of code) w
               = (replace_file (part_of (zip_path_of code)) (zip_path_of code)
                    (concat [sample_archive])
                    (write_file (part_of (zip_path_of code)) (concat [sample_archive])
                       (log_request url w)), Ok tt))
      by (intros url; reflexivity).
    rewrite H. eauto.
  - eauto.
Qed.

(** The main loop of v1.5 raises only when a download does. *)
Lemma main_loop_no_raise (server : nat -> string -> V1_5.http_response)
    (lower : string -> string) (ZipFile : bytes -> option archive)
    (codes : list string) :
  (forall code w, exists w1 how, V1_5.fetch server code w = (w1, Ok how)) ->
  forall w w' e, V1_5.main_loop server lower ZipFile codes w = (w', Raise e) -> False.
Proof.
  intros Hfetch. induction codes as [|code rest IH]; intros w w' e;
    cbn [V1_5.main_loop]; [discriminate|].
  unfold V1_5.main_state. destruct (Hfetch code w) as (w1 & how & ->).
  destruct (V1_5._extract_dbfs lower ZipFile (zip_path_of code) DBF_DIR code w1)
    as [w2 r].
  destruct (V1_5.main_loop server lower ZipFile rest w2) as [w3 [dones|e3]] eqn:Hloop;
    [discriminate|].
  intros _. exact (IH _ _ _ Hloop).
Qed.

Lemma X26_witness :
  sample_is_zipfile [] = false /\ sample_ZipFile [] = None /\
  exists w' dones,
    V1_5.main good_server string_lower_ascii sample_ZipFile empty_world
      = (w', Ok dones) /\
    V1_5.main good_server string_lower_ascii sample_ZipFile w'
      = (w', Ok (map found_again dones)).
Proof.
  split; [reflexivity|]. split; [reflexivity|].
  destruct (V1_5.main good_server string_lower_ascii sample_ZipFile empty_world)
    as [w' [dones|e]] eqn:H.
  - exists w', dones. split; [reflexivity|].
    exact (proj1 (X26_main_twice good_server sample_curl sample_is_zipfile
                    string_lower_ascii sample_ZipFile eq_refl eq_refl
                    empty_world w') dones H).
  - exfalso. exact (main_loop_no_raise good_server string_lower_ascii sample_ZipFile
                      STATE_CODES fetch_good_server _ _ _ H).
Defined.
